(** * The real-time chat core of cv-pvt: gateway, request controller, client page

    A shallow embedding of
    - the socket gateway [initializeSocket] (backend socket module, stored
      in routes/citizen.js of the source tree),
    - the [User] methods [canSendMessageRequest] / [addMessageRequest],
    - the controller [sendDirectMessageRequest],
    - the socket handlers of the client [ChatPage],
    followed by the properties of the specification that concern them. *)

From Stdlib Require Import ZArith NArith List String Ascii Bool Lia DecimalString Sorted.
From stdpp Require Import gmap strings list fin_maps.

Local Open Scope Z_scope.

#[local] Set Warnings "-clear-no-such-hyp".

(** ** JavaScript strings

    Identifiers (user ids, chat ids, socket ids, event names) are Rocq
    strings.  Message bodies are sequences of UTF-16 code units, so that
    [length] is JavaScript's [.length] and [trim] removes what
    [String.prototype.trim] removes. *)
Module Js.

(** WhiteSpace and LineTerminator code points of ECMAScript. *)
Definition isWhiteSpace (c : N) : bool :=
  ((c =? 9) || (c =? 10) || (c =? 11) || (c =? 12) || (c =? 13) || (c =? 32)
   || (c =? 160) || (c =? 5760) || ((8192 <=? c) && (c <=? 8202))
   || (c =? 8232) || (c =? 8233) || (c =? 8239) || (c =? 8287)
   || (c =? 12288) || (c =? 65279))%N.

Fixpoint trimStart (s : list N) : list N :=
  match s with
  | c :: s' => if isWhiteSpace c then trimStart s' else s
  | [] => []
  end.

Definition trimEnd (s : list N) : list N := rev (trimStart (rev s)).

Definition trim (s : list N) : list N := trimEnd (trimStart s).

(** A string literal of the source as code units. *)
Definition ofString (s : string) : list N :=
  map N_of_ascii (list_ascii_of_string s).

(** Truthiness of an optional string field: [undefined] and [""] are falsy. *)
Definition truthy (s : option string) : bool :=
  match s with
  | Some x => negb (String.eqb x "")
  | None => false
  end.

(** [a || b] on message bodies. *)
Definition orElse (a : option (list N)) (b : list N) : list N :=
  match a with
  | Some (c :: s) => c :: s
  | _ => b
  end.

(** [[a, b].sort()] with the default comparator: the elements are compared
    as strings, and the sort is stable. *)
Definition sort2 (a b : string) : string * string :=
  match String.compare b a with
  | Lt => (b, a)
  | _ => (a, b)
  end.

(** [Date.now().toString()]. *)
Definition numberToString (n : N) : string :=
  NilZero.string_of_uint (N.to_uint n).

End Js.

(** ** The ids of the document store

    What the driver's [ObjectId] makes of a string of 24 characters and
    how [toString()] spells the id: 24 hexadecimal digits, in either case,
    are the id with these digits, spelled in lower case.  Strings of other
    lengths are no ids here (some versions of the driver read a string of
    12 characters as the 12 bytes of an id; no run below has one).  The
    models take the cast as a parameter; this is the one of the concrete
    runs. *)
Module Mongo.

Definition isHexDigit (c : ascii) : bool :=
  let n := nat_of_ascii c in
  ((48 <=? n) && (n <=? 57) || (65 <=? n) && (n <=? 70)
   || (97 <=? n) && (n <=? 102))%nat.

Definition toLowerCase (c : ascii) : ascii :=
  let n := nat_of_ascii c in
  if ((65 <=? n) && (n <=? 90))%nat then ascii_of_nat (n + 32) else c.

Definition castObjectId (s : string) : option string :=
  let cs := list_ascii_of_string s in
  if (length cs =? 24)%nat && forallb isHexDigit cs then
    Some (string_of_list_ascii (map toLowerCase cs))
  else None.

End Mongo.

(** ** Events on the wire *)

Inductive Status := sending | sent | received.

#[global] Instance Status_eq_dec : EqDecision Status.
Proof. solve_decision. Defined.

Record Sender := { s_id : string; s_name : string; s_role : string }.

(** A message object as it travels in [new_message] and as the client keeps
    it in its [messages] array.  A field that the object does not carry
    reads [undefined], here [None]. *)
Record Msg := {
  _id : option N;
  tempId : option string;
  msg_chatId : string;
  msg_content : list N;
  msg_messageType : option string;
  msg_sender : Sender;
  msg_timestamp : Z;
  msg_isRead : option bool;
  msg_status : option Status
}.

(** The payload of [message_sent]. *)
Record Confirmation := {
  ms_success : bool;
  ms_messageId : N;
  ms_timestamp : Z;
  ms_tempId : option string
}.

Inductive ServerEvent :=
| EvError (message : string) (details : option string)
| EvChatJoined (chatId : string) (success : bool)
| EvNewMessage (m : Msg)
| EvMessageSent (c : Confirmation)
| EvMessagesRead (chatId readBy : string) (messageIds : option (list N))
| EvUserTyping (userId name : string)
| EvUserStopTyping (userId : string)
| EvUserStatusUpdate (userId status : string)
| EvNotify (name : string) (chatId : option string).

(** Where an [emit] goes: [socket.emit], [io.to(room).emit],
    [socket.to(room).emit] and [socket.broadcast.emit]. *)
Inductive Target :=
| ToSocket (socketId : string)
| IoTo (room : string)
| SocketTo (socketId room : string)
| SocketBroadcast (socketId : string).

Definition Emit : Type := Target * ServerEvent.

(** What one handler run sees of the outside: the clock, whether the
    document store accepts writes, and what [details] of a caught error
    evaluates to ([error.message] in development, [undefined] otherwise). *)
Record Env := { now : Z; storeWriteOk : bool; errorDetails : option string }.

(** ** Documents: [Chat] and [User] *)
Module Model.

Record Participant := { p_user : string; p_role : string }.

Record Message := {
  m_id : N;
  m_sender : string;
  m_content : list N;
  m_timestamp : Z;
  m_messageType : string;
  m_isRead : bool
}.

Record LastMessage := {
  lm_sender : string;
  lm_content : list N;
  lm_timestamp : Z
}.

Record Chat := {
  chatId : string;
  participants : list Participant;
  chatType : string;
  status : string;
  messages : list Message;
  lastMessage : option LastMessage
}.

Record MessageRequest := { toUserId : string; timestamp : Z }.

Record User := {
  role : string;
  isActive : bool;
  verificationStatus : option string;
  messageRequests : list MessageRequest
}.

(** The collections.  [_id] is the primary key of [users]; nothing in the
    source makes [chatId] unique, so [chats] is the list of documents in
    insertion order. *)
Record Db := {
  users : gmap string User;
  chats : list Chat;
  nextId : N
}.

Definition setUsers (us : gmap string User) (db : Db) : Db :=
  {| users := us; chats := chats db; nextId := nextId db |}.

Definition setChats (cs : list Chat) (db : Db) : Db :=
  {| users := users db; chats := cs; nextId := nextId db |}.

Definition hasChatId (k : string) (c : Chat) : bool := String.eqb (chatId c) k.

(** [Chat.findOne({ chatId })]. *)
Definition findOne (k : string) (cs : list Chat) : option Chat :=
  List.find (hasChatId k) cs.

(** [chat.save()] of a document obtained by [findOne]. *)
Fixpoint saveChat (c : Chat) (cs : list Chat) : list Chat :=
  match cs with
  | [] => []
  | c0 :: cs' => if hasChatId (chatId c) c0 then c :: cs' else c0 :: saveChat c cs'
  end.

Definition oneHour : Z := 60 * 60 * 1000.

(** [userSchema.methods.canSendMessageRequest]:
    [req.toUserId.toString() === toUserId.toString()] compares the stored
    id, in the canonical spelling of an [ObjectId], with the argument as it
    was passed. *)
Definition canSendMessageRequest (now : Z) (u : User) (to : string) : bool :=
  let oneHourAgo := now - oneHour in
  let recentRequests :=
    List.filter (fun req => String.eqb (toUserId req) to && (oneHourAgo <? timestamp req))
                (messageRequests u) in
  (length recentRequests <? 2)%nat.

(** The body of [addMessageRequest] for the id [stored] that its argument
    is cast to: the push, and the pruning of the entries older than an
    hour. *)
Definition logRequest (now : Z) (u : User) (stored : string) : User :=
  let pushed := messageRequests u ++ [ {| toUserId := stored; timestamp := now |} ] in
  let oneHourAgo := now - oneHour in
  {| role := role u; isActive := isActive u;
     verificationStatus := verificationStatus u;
     messageRequests := List.filter (fun req => oneHourAgo <? timestamp req) pushed |}.

Section Casting.

(** Mongoose's cast of a string to an [ObjectId], read back with
    [toString()]: the canonical spelling of the id, or [None] when the
    string is no id (a [CastError]).  The ids of the documents ([_id],
    [req.user._id], the keys of [users]) are in canonical spelling. *)
Variable castObjectId : string -> option string.

(** [userSchema.methods.addMessageRequest].  [toUserId] is an [ObjectId]
    in the schema, so the entry that is pushed holds the id that the
    argument is cast to.  [None]: the argument is no id, and the document
    cannot be saved. *)
Definition addMessageRequest (now : Z) (u : User) (to : string) : option User :=
  logRequest now u <$> castObjectId to.

End Casting.

End Model.

(** ** The controller [sendDirectMessageRequest] *)
Module Controller.
Import Model.

Record Response := {
  res_status : nat;
  res_success : bool;
  res_message : string;
  res_chatId : option string
}.

Definition greeting : list N :=
  Js.ofString "Hi, I would like to connect with you for legal assistance.".

(** [`direct_${[req.user._id, lawyerId].sort().join("_")}`] *)
Definition directChatId (userId lawyerId : string) : string :=
  let '(x, y) := Js.sort2 userId lawyerId in
  ("direct_" ++ x ++ "_" ++ y)%string.

Definition isVerifiedLawyer (u : User) : bool :=
  String.eqb (role u) "lawyer" && isActive u
  && bool_decide (verificationStatus u = Some "verified"%string).

Definition failure : Response :=
  {| res_status := 500; res_success := false;
     res_message := "Failed to send message request"; res_chatId := None |}.

Section Casting.

Variable castObjectId : string -> option string.

(** [sendDirectMessageRequest]; [userId] is [req.user._id] and [lawyerId]
    the parameter of the route as the client wrote it.  [User.findOne] and
    the documents that are saved hold the id that [lawyerId] is cast to;
    the test of the limit, the key of the room and the name of the
    notification room are built from [lawyerId] itself. *)
Definition sendDirectMessageRequest (env : Env) (userId lawyerId : string)
    (message : option (list N)) (db : Db) : Db * Response * list Emit :=
  match castObjectId lawyerId with
  | None => (db, failure, [])
  | Some lawyerKey =>
    match users db !! lawyerKey with
    | Some l =>
      if isVerifiedLawyer l then
        match users db !! userId with
        | None => (db, failure, [])
        | Some citizen =>
          if negb (canSendMessageRequest (now env) citizen lawyerId) then
            (db,
             {| res_status := 429; res_success := false;
                res_message :=
                  "You can only send 2 message requests per hour to the same lawyer";
                res_chatId := None |},
             [])
          else if negb (storeWriteOk env) then (db, failure, [])
          else
            match addMessageRequest castObjectId (now env) citizen lawyerId with
            | None => (db, failure, [])
            | Some citizen' =>
              let db1 := setUsers (<[userId := citizen']> (users db)) db in
              let chatId := directChatId userId lawyerId in
              let db2 :=
                match findOne chatId (chats db1) with
                | Some _ => db1
                | None =>
                  let text := Js.orElse message greeting in
                  let chat :=
                    {| Model.chatId := chatId;
                       participants := [ {| p_user := userId; p_role := "citizen" |};
                                         {| p_user := lawyerKey; p_role := "lawyer" |} ];
                       chatType := "direct";
                       status := "pending";
                       messages := [ {| m_id := nextId db1; m_sender := userId;
                                        m_content := text; m_timestamp := now env;
                                        m_messageType := "text"; m_isRead := false |} ];
                       lastMessage := Some {| lm_sender := userId; lm_content := text;
                                              lm_timestamp := now env |} |} in
                  {| users := users db1; chats := chats db1 ++ [chat];
                     nextId := N.succ (nextId db1) |}
                end in
              (db2,
               {| res_status := 200; res_success := true;
                  res_message := "Message request sent successfully";
                  res_chatId := Some chatId |},
               [ (IoTo ("user_" ++ lawyerId),
                  EvNotify "direct_message_request" (Some chatId)) ])
            end
        end
      else
        (db,
         {| res_status := 404; res_success := false;
            res_message := "Lawyer not found or not verified"; res_chatId := None |},
         [])
    | None =>
      (db,
       {| res_status := 404; res_success := false;
          res_message := "Lawyer not found or not verified"; res_chatId := None |},
       [])
    end
  end.

End Casting.

End Controller.

(** ** The helpers of utils/socketHelpers.js

    The gateway imports four helpers whose file is not part of the source
    tree.  Three are modelled here from the specification; the fourth,
    [createChatRoom], is a parameter of the gateway. *)
Module Helpers.
Import Model.

(** Modelled from the spec: [validateChatAccess] (utils/socketHelpers.js is
    missing).  "Looks up the room by key and checks the identity appears in
    its participant set"; a room that does not exist gives [false]. *)
Definition validateChatAccess (chatId userId : string) (db : Db) : bool :=
  match findOne chatId (chats db) with
  | Some c => existsb (fun p => String.eqb (p_user p) userId) (participants c)
  | None => false
  end.

(** Modelled from the spec: [checkMessageRateLimit] (utils/socketHelpers.js
    is missing).  A sliding window of [maxMessages] sends per [windowMs]
    milliseconds, keyed by the sender: timestamps older than the window are
    pruned on each check, and an allowed call records its timestamp. *)
Definition checkMessageRateLimit (maxMessages : nat) (windowMs : Z)
    (now : Z) (userId : string) (w : gmap string (list Z))
  : bool * gmap string (list Z) :=
  let recent := List.filter (fun t => now - windowMs <? t) (default [] (w !! userId)) in
  if (length recent <? maxMessages)%nat
  then (true, <[userId := recent ++ [now]]> w)
  else (false, <[userId := recent]> w).

(** Modelled from the spec: [saveMessageToDatabase] (utils/socketHelpers.js
    is missing), the store's [appendMessage(roomKey, sender, content, type)]:
    the message gets a store-assigned id and the room's [lastMessage]
    summary follows.  [None] is a rejected write. *)
Definition saveMessageToDatabase (env : Env) (chatId userId : string)
    (content : list N) (messageType : string) (db : Db) : option (Message * Db) :=
  if storeWriteOk env then
    match findOne chatId (chats db) with
    | Some c =>
      let m := {| m_id := nextId db; m_sender := userId; m_content := content;
                  m_timestamp := now env; m_messageType := messageType;
                  m_isRead := false |} in
      let c' := {| Model.chatId := Model.chatId c; participants := participants c;
                   chatType := chatType c; status := status c;
                   messages := messages c ++ [m];
                   lastMessage := Some {| lm_sender := userId; lm_content := content;
                                          lm_timestamp := now env |} |} in
      Some (m, {| users := users db; chats := saveChat c' (chats db);
                  nextId := N.succ (nextId db) |})
    | None => None
    end
  else None.

(** A message is unread for a user when somebody else sent it and its read
    flag is not set. *)
Definition unreadFor (userId : string) (m : Message) : bool :=
  negb (String.eqb (m_sender m) userId) && negb (m_isRead m).

(** Modelled from the spec: [chat.markAsRead(userId, messageIds?)]
    (models/Chat.js is missing).  "Any unread messages for this user in the
    room are marked read"; with an explicit id list, those among them. *)
Definition markAsRead (userId : string) (messageIds : option (list N)) (c : Chat) : Chat :=
  let selected (m : Message) :=
    match messageIds with
    | None => true
    | Some ids => existsb (N.eqb (m_id m)) ids
    end in
  {| Model.chatId := Model.chatId c; participants := participants c;
     chatType := chatType c; status := status c;
     messages :=
       map (fun m =>
              if unreadFor userId m && selected m
              then {| m_id := m_id m; m_sender := m_sender m; m_content := m_content m;
                      m_timestamp := m_timestamp m; m_messageType := m_messageType m;
                      m_isRead := true |}
              else m)
           (messages c);
     lastMessage := lastMessage c |}.

End Helpers.

(** ** The gateway [initializeSocket] *)
Module Gateway.
Import Model Helpers.

Record UserInfo := {
  ui_userId : string;
  ui_role : string;
  ui_name : string;
  ui_socketId : string;
  ui_status : option string
}.

(** What the authentication middleware leaves on the socket. *)
Record Socket := {
  id : string;
  userId : string;
  userRole : string;
  userName : string
}.

(** [activeUsers] and [activeChatRooms] are the two [Map]s of the source;
    [rooms] is socket.io's own room table ([socket.join] / [socket.leave]);
    [rateWindows] is the state of the rate limiter. *)
Record State := {
  activeUsers : gmap string UserInfo;
  activeChatRooms : gmap string (gset string);
  rooms : gmap string (gset string);
  db : Db;
  rateWindows : gmap string (list Z)
}.

Definition setActiveUsers (x : gmap string UserInfo) (st : State) : State :=
  {| activeUsers := x; activeChatRooms := activeChatRooms st; rooms := rooms st;
     db := db st; rateWindows := rateWindows st |}.

Definition setActiveChatRooms (x : gmap string (gset string)) (st : State) : State :=
  {| activeUsers := activeUsers st; activeChatRooms := x; rooms := rooms st;
     db := db st; rateWindows := rateWindows st |}.

Definition setRooms (x : gmap string (gset string)) (st : State) : State :=
  {| activeUsers := activeUsers st; activeChatRooms := activeChatRooms st; rooms := x;
     db := db st; rateWindows := rateWindows st |}.

Definition setDb (x : Db) (st : State) : State :=
  {| activeUsers := activeUsers st; activeChatRooms := activeChatRooms st;
     rooms := rooms st; db := x; rateWindows := rateWindows st |}.

Definition setRateWindows (x : gmap string (list Z)) (st : State) : State :=
  {| activeUsers := activeUsers st; activeChatRooms := activeChatRooms st;
     rooms := rooms st; db := db st; rateWindows := x |}.

(** *** Handlers as state transformers that emit and may throw *)

Inductive Result (A : Type) :=
| Ok (a : A)
| Throw.
Arguments Ok {A} a.
Arguments Throw {A}.

Definition M (A : Type) : Type := State -> Result A * State * list Emit.

Definition ret {A} (a : A) : M A := fun st => (Ok a, st, []).

Definition bind {A B} (m : M A) (k : A -> M B) : M B :=
  fun st =>
    match m st with
    | (Ok a, st1, out1) => let '(r, st2, out2) := k a st1 in (r, st2, out1 ++ out2)
    | (Throw, st1, out1) => (Throw, st1, out1)
    end.

Definition emit (t : Target) (e : ServerEvent) : M unit :=
  fun st => (Ok tt, st, [(t, e)]).

Definition throw {A} : M A := fun st => (Throw, st, []).

Definition gets {A} (f : State -> A) : M A := fun st => (Ok (f st), st, []).

Definition modify (f : State -> State) : M unit := fun st => (Ok tt, f st, []).

(** [try { body } catch (error) { handler }]: what [body] did before it
    threw stays done. *)
Definition tryCatch (body handler : M unit) : M unit :=
  fun st =>
    match body st with
    | (Ok a, st1, out1) => (Ok a, st1, out1)
    | (Throw, st1, out1) => let '(r, st2, out2) := handler st1 in (r, st2, out1 ++ out2)
    end.

Definition run (m : M unit) (st : State) : State * list Emit :=
  let '(_, st', out) := m st in (st', out).

Declare Scope gw_scope.
Delimit Scope gw_scope with gw.
Notation "x <~ m ; k" := (bind m (fun x => k))
  (at level 100, m at next level, k at level 200, right associativity) : gw_scope.
Notation "m ;> k" := (bind m (fun _ => k))
  (at level 100, k at level 200, right associativity) : gw_scope.

(** *** socket.io rooms and the room registry *)

Definition members (room : string) (m : gmap string (gset string)) : gset string :=
  default ∅ (m !! room).

(** [socket.join(room)] *)
Definition socketJoin (sid room : string) (m : gmap string (gset string))
  : gmap string (gset string) :=
  <[room := members room m ∪ {[sid]}]> m.

(** [socket.leave(room)] *)
Definition socketLeave (sid room : string) (m : gmap string (gset string))
  : gmap string (gset string) :=
  match m !! room with
  | Some s => <[room := s ∖ {[sid]}]> m
  | None => m
  end.

(** [if (!activeChatRooms.has(chatId)) activeChatRooms.set(chatId, new Set());
     activeChatRooms.get(chatId).add(socket.id);] *)
Definition registryAdd (sid chatId : string) (m : gmap string (gset string))
  : gmap string (gset string) :=
  let m1 := match m !! chatId with
            | Some _ => m
            | None => <[chatId := ∅]> m
            end in
  alter (fun s => s ∪ {[sid]}) chatId m1.

(** The body of [leave_chat] on the registry. *)
Definition registryRemove (sid chatId : string) (m : gmap string (gset string))
  : gmap string (gset string) :=
  match m !! chatId with
  | Some _ =>
    let m1 := alter (fun s => s ∖ {[sid]}) chatId m in
    if decide (size (members chatId m1) = 0%nat) then delete chatId m1 else m1
  | None => m
  end.

(** The [forEach] of [disconnect]: each set loses the socket, and an entry
    whose set became empty is deleted while the map is being walked. *)
Definition registryDrop (sid : string) (m : gmap string (gset string))
  : gmap string (gset string) :=
  map_fold (fun chatId (userSet : gset string) acc =>
              let userSet' := userSet ∖ {[sid]} in
              if decide (size userSet' = 0%nat)
              then delete chatId acc
              else <[chatId := userSet']> acc)
           m m.

(** Who receives an emit, read against the state at the time of the emit.
    [socket.to(room)] and [socket.broadcast] except the room that is named
    after the id of the emitting socket: they leave out every socket of that
    room, which is the emitting socket itself for as long as it has not
    left the room ([leave_chat] leaves a room of any name). *)
Definition recipients (st : State) (t : Target) : gset string :=
  match t with
  | ToSocket sid => {[sid]}
  | IoTo room => members room (rooms st)
  | SocketTo sid room => members room (rooms st) ∖ members sid (rooms st)
  | SocketBroadcast sid => dom (activeUsers st) ∖ members sid (rooms st)
  end.

(** The payload of [send_message], with the fields typed as the client
    sends them; a field that the payload lacks is [None]. *)
Record MessageData := {
  md_chatId : string;
  md_content : option (list N);
  md_messageType : option string;
  md_tempId : option string
}.

Inductive ClientEvent :=
| Connection
| JoinChat (chatId : string)
| LeaveChat (chatId : string)
| SendMessage (messageData : MessageData)
| TypingStart (chatId : string)
| TypingStop (chatId : string)
| ConsultationRequest (lawyerId : string)
| ConsultationUpdate (participants : list string)
| CaseAssigned (citizenId lawyerId caseType caseId : string)
| LawyerRequestSent (citizenId : string)
| CitizenRequestSent (lawyerId : string)
| RequestResponded (targetUserId : string) (accepted createChat : bool)
                   (caseType caseId citizenId lawyerId : string)
| DirectMessageRequest (lawyerId : string)
| MarkMessagesRead (chatId : string) (messageIds : option (list N))
| UpdateStatus (status : string)
| Disconnect.

Section Handlers.

(** The configured limit of the rate limiter. *)
Variable maxMessages : nat.
Variable windowMs : Z.

(** [createChatRoom(participants, chatType, caseRef?)] of the missing
    helper file: it yields the room and the store after it, or throws. *)
Variable createChatRoom :
  list Participant -> string -> option (string * string) -> Db -> option (Chat * Db).

Variable env : Env.
Variable socket : Socket.

Local Open Scope gw_scope.

(** The [connection] handler up to the registrations; socket.io has put
    the socket into the room of its own id before. *)
Definition connection : M unit :=
  modify (fun st => setRooms (socketJoin (id socket) (id socket) (rooms st)) st) ;>
  modify (fun st =>
    setActiveUsers
      (<[id socket := {| ui_userId := userId socket; ui_role := userRole socket;
                         ui_name := userName socket; ui_socketId := id socket;
                         ui_status := None |}]> (activeUsers st)) st) ;>
  modify (fun st => setRooms (socketJoin (id socket) ("user_" ++ userId socket) (rooms st)) st).

(** [await chat.save()] *)
Definition save (c : Chat) : M unit :=
  if storeWriteOk env
  then modify (fun st => setDb (setChats (saveChat c (chats (db st))) (db st)) st)
  else throw.

(** [join_chat] from its first resumption on.  The handler is [async]: it
    is suspended at [await validateChatAccess(...)] and goes on with the
    answer, [hasAccess], when the gateway has handled whatever arrived in
    between, which may be the [disconnect] of this very socket.  [joins]
    says whether [socket.join] still takes effect, which on a socket that
    has disconnected is up to the version of socket.io.  The rest of the
    handler is run to its end: it writes the rooms and the registry in one
    stretch, and its later awaits are those of the store. *)
Definition join_chat_resume (joins : bool) (chatId : string) (hasAccess : bool)
  : M unit :=
  tryCatch
    (if negb hasAccess then
       emit (ToSocket (id socket)) (EvError "Access denied to chat room" None)
     else
       (if joins
        then modify (fun st => setRooms (socketJoin (id socket) chatId (rooms st)) st)
        else ret tt) ;>
       modify (fun st => setActiveChatRooms
                           (registryAdd (id socket) chatId (activeChatRooms st)) st) ;>
       chat <~ gets (fun st => findOne chatId (chats (db st)));
       match chat with
       | Some c =>
         save (markAsRead (userId socket) None c) ;>
         emit (SocketTo (id socket) chatId) (EvMessagesRead chatId (userId socket) None)
       | None => ret tt
       end ;>
       emit (ToSocket (id socket)) (EvChatJoined chatId true))
    (emit (ToSocket (id socket)) (EvError "Failed to join chat" None)).

(** [join_chat] with no other event between its call of
    [validateChatAccess] and the end of the handler. *)
Definition join_chat (chatId : string) : M unit :=
  hasAccess <~ gets (fun st => validateChatAccess chatId (userId socket) (db st));
  join_chat_resume true chatId hasAccess.

Definition leave_chat (chatId : string) : M unit :=
  modify (fun st => setRooms (socketLeave (id socket) chatId (rooms st)) st) ;>
  modify (fun st => setActiveChatRooms
                      (registryRemove (id socket) chatId (activeChatRooms st)) st).

(** [!content]: a missing or empty body. *)
Definition falsy (content : option (list N)) : bool :=
  match content with
  | Some (_ :: _) => false
  | _ => true
  end.

Definition rateLimit : M bool :=
  fun st =>
    let '(ok, w) := checkMessageRateLimit maxMessages windowMs (now env)
                                          (userId socket) (rateWindows st) in
    (Ok ok, setRateWindows w st, []).

Definition persist (chatId : string) (content : list N) (messageType : string)
  : M Message :=
  fun st =>
    match saveMessageToDatabase env chatId (userId socket) content messageType (db st) with
    | Some (m, db') => (Ok m, setDb db' st, [])
    | None => (Throw, st, [])
    end.

Definition send_message (messageData : MessageData) : M unit :=
  tryCatch
    (let chatId := md_chatId messageData in
     let content := default [] (md_content messageData) in
     let messageType := default "text"%string (md_messageType messageData) in
     if falsy (md_content messageData) || (length (Js.trim content) =? 0)%nat then
       emit (ToSocket (id socket)) (EvError "Message content cannot be empty" None)
     else if (1000 <? length content)%nat then
       emit (ToSocket (id socket))
            (EvError "Message too long. Maximum 1000 characters." None)
     else
       allowed <~ rateLimit;
       if negb allowed then
         emit (ToSocket (id socket))
              (EvError "Message rate limit exceeded. Please slow down." None)
       else
         hasAccess <~ gets (fun st => validateChatAccess chatId (userId socket) (db st));
         if negb hasAccess then
           emit (ToSocket (id socket)) (EvError "Chat not found or access denied" None)
         else
           savedMessage <~ persist chatId content messageType;
           let messageToSend :=
             {| _id := Some (m_id savedMessage);
                tempId := None;
                msg_chatId := chatId;
                msg_content := m_content savedMessage;
                msg_messageType := Some (m_messageType savedMessage);
                msg_sender := {| s_id := userId socket; s_name := userName socket;
                                 s_role := userRole socket |};
                msg_timestamp := m_timestamp savedMessage;
                msg_isRead := Some (m_isRead savedMessage);
                msg_status := None |} in
           emit (IoTo chatId) (EvNewMessage messageToSend) ;>
           emit (ToSocket (id socket))
                (EvMessageSent {| ms_success := true;
                                  ms_messageId := m_id savedMessage;
                                  ms_timestamp := m_timestamp savedMessage;
                                  ms_tempId := None |}))
    (emit (ToSocket (id socket)) (EvError "Failed to send message" (errorDetails env))).

Definition typing_start (chatId : string) : M unit :=
  emit (SocketTo (id socket) chatId) (EvUserTyping (userId socket) (userName socket)).

Definition typing_stop (chatId : string) : M unit :=
  emit (SocketTo (id socket) chatId) (EvUserStopTyping (userId socket)).

Definition consultation_request (lawyerId : string) : M unit :=
  emit (SocketTo (id socket) ("user_" ++ lawyerId))
       (EvNotify "new_consultation_request" None).

Fixpoint consultation_update (participants : list string) : M unit :=
  match participants with
  | [] => ret tt
  | participantId :: rest =>
    (if negb (String.eqb participantId (userId socket))
     then emit (SocketTo (id socket) ("user_" ++ participantId))
               (EvNotify "consultation_updated" None)
     else ret tt) ;>
    consultation_update rest
  end.

Definition createRoom (participants : list Participant) (chatType : string)
    (caseRef : option (string * string)) : M Chat :=
  fun st =>
    match createChatRoom participants chatType caseRef (db st) with
    | Some (chat, db') => (Ok chat, setDb db' st, [])
    | None => (Throw, st, [])
    end.

Definition case_assigned (citizenId lawyerId caseType caseId : string) : M unit :=
  tryCatch
    (chat <~ createRoom [ {| p_user := citizenId; p_role := "citizen" |};
                          {| p_user := lawyerId; p_role := "lawyer" |} ]
                        caseType (Some (caseType, caseId));
     emit (SocketTo (id socket) ("user_" ++ citizenId))
          (EvNotify "case_assignment_update" (Some (Model.chatId chat))) ;>
     emit (SocketTo (id socket) ("user_" ++ lawyerId))
          (EvNotify "new_case_assigned" (Some (Model.chatId chat))))
    (emit (ToSocket (id socket)) (EvError "Failed to process case assignment" None)).

Definition lawyer_request_sent (citizenId : string) : M unit :=
  emit (SocketTo (id socket) ("user_" ++ citizenId)) (EvNotify "new_lawyer_request" None).

Definition citizen_request_sent (lawyerId : string) : M unit :=
  emit (SocketTo (id socket) ("user_" ++ lawyerId)) (EvNotify "new_citizen_request" None).

Definition request_responded (targetUserId : string) (accepted createChat : bool)
    (caseType caseId citizenId lawyerId : string) : M unit :=
  tryCatch
    (created <~
       (if createChat && accepted then
          chat <~ createRoom [ {| p_user := citizenId; p_role := "citizen" |};
                               {| p_user := lawyerId; p_role := "lawyer" |} ]
                             caseType (Some (caseType, caseId));
          ret (Some (Model.chatId chat))
        else ret None);
     emit (SocketTo (id socket) ("user_" ++ targetUserId))
          (EvNotify "request_response" created))
    (emit (ToSocket (id socket)) (EvError "Failed to process request response" None)).

Definition direct_message_request (lawyerId : string) : M unit :=
  tryCatch
    (chat <~ createRoom [ {| p_user := userId socket; p_role := userRole socket |};
                          {| p_user := lawyerId; p_role := "lawyer" |} ]
                        "direct" None;
     emit (SocketTo (id socket) ("user_" ++ lawyerId))
          (EvNotify "new_direct_message_request" (Some (Model.chatId chat))) ;>
     emit (ToSocket (id socket))
          (EvNotify "direct_message_request_sent" (Some (Model.chatId chat))))
    (emit (ToSocket (id socket)) (EvError "Failed to send direct message request" None)).

Definition mark_messages_read (chatId : string) (messageIds : option (list N)) : M unit :=
  tryCatch
    (hasAccess <~ gets (fun st => validateChatAccess chatId (userId socket) (db st));
     if negb hasAccess then ret tt
     else
       chat <~ gets (fun st => findOne chatId (chats (db st)));
       match chat with
       | Some c =>
         save (markAsRead (userId socket) messageIds c) ;>
         emit (SocketTo (id socket) chatId)
              (EvMessagesRead chatId (userId socket) messageIds)
       | None => ret tt
       end)
    (ret tt).

Definition update_status (status : string) : M unit :=
  user <~ gets (fun st => activeUsers st !! id socket);
  match user with
  | Some u =>
    modify (fun st =>
      setActiveUsers
        (<[id socket := {| ui_userId := ui_userId u; ui_role := ui_role u;
                           ui_name := ui_name u; ui_socketId := ui_socketId u;
                           ui_status := Some status |}]> (activeUsers st)) st) ;>
    emit (SocketBroadcast (id socket)) (EvUserStatusUpdate (userId socket) status)
  | None => ret tt
  end.

(** The [disconnect] handler; socket.io itself takes the socket out of its
    rooms. *)
Definition disconnect : M unit :=
  modify (fun st => setRooms ((fun s => s ∖ {[id socket]}) <$> rooms st) st) ;>
  modify (fun st => setActiveUsers (delete (id socket) (activeUsers st)) st) ;>
  modify (fun st => setActiveChatRooms (registryDrop (id socket) (activeChatRooms st)) st) ;>
  emit (SocketBroadcast (id socket)) (EvUserStatusUpdate (userId socket) "offline").

Definition handle (ev : ClientEvent) : M unit :=
  match ev with
  | Connection => connection
  | JoinChat chatId => join_chat chatId
  | LeaveChat chatId => leave_chat chatId
  | SendMessage messageData => send_message messageData
  | TypingStart chatId => typing_start chatId
  | TypingStop chatId => typing_stop chatId
  | ConsultationRequest lawyerId => consultation_request lawyerId
  | ConsultationUpdate participants => consultation_update participants
  | CaseAssigned citizenId lawyerId caseType caseId =>
    case_assigned citizenId lawyerId caseType caseId
  | LawyerRequestSent citizenId => lawyer_request_sent citizenId
  | CitizenRequestSent lawyerId => citizen_request_sent lawyerId
  | RequestResponded targetUserId accepted createChat caseType caseId citizenId lawyerId =>
    request_responded targetUserId accepted createChat caseType caseId citizenId lawyerId
  | DirectMessageRequest lawyerId => direct_message_request lawyerId
  | MarkMessagesRead chatId messageIds => mark_messages_read chatId messageIds
  | UpdateStatus status => update_status status
  | Disconnect => disconnect
  end.

(** One event of one connection, with the handler run to its end before
    the next event is handled: the state after it and what was emitted.
    The handlers that await can in fact be interleaved with other events at
    their awaits; [join_chat_resume] is what remains of [join_chat] then. *)
Definition step (ev : ClientEvent) (st : State) : State * list Emit :=
  run (handle ev) st.

End Handlers.

End Gateway.

(** ** The client chat page [ChatPage] *)
Module Client.

Record ChatPage := {
  chatId : string;
  user : Sender;
  connected : bool;
  messages : list Msg;
  newMessage : list N;
  isSending : bool
}.

Definition setMessages (f : list Msg -> list Msg) (st : ChatPage) : ChatPage :=
  {| chatId := chatId st; user := user st; connected := connected st;
     messages := f (messages st); newMessage := newMessage st;
     isSending := isSending st |}.

Definition setIsSending (b : bool) (st : ChatPage) : ChatPage :=
  {| chatId := chatId st; user := user st; connected := connected st;
     messages := messages st; newMessage := newMessage st; isSending := b |}.

(** [{ ...messageData, status }] *)
Definition withStatus (s : Status) (m : Msg) : Msg :=
  {| _id := _id m; tempId := tempId m; msg_chatId := msg_chatId m;
     msg_content := msg_content m; msg_messageType := msg_messageType m;
     msg_sender := msg_sender m; msg_timestamp := msg_timestamp m;
     msg_isRead := msg_isRead m; msg_status := Some s |}.

(** [{ ...msg, _id: data.messageId, status: 'sent', timestamp: data.timestamp }] *)
Definition confirmed (data : Confirmation) (m : Msg) : Msg :=
  {| _id := Some (ms_messageId data); tempId := tempId m; msg_chatId := msg_chatId m;
     msg_content := msg_content m; msg_messageType := msg_messageType m;
     msg_sender := msg_sender m; msg_timestamp := ms_timestamp data;
     msg_isRead := msg_isRead m; msg_status := Some sent |}.

(** [useSocketEvent('new_message', ...)] *)
Definition on_new_message (messageData : Msg) (st : ChatPage) : ChatPage :=
  if String.eqb (msg_chatId messageData) (chatId st) then
    setMessages (fun prev =>
      let messageExists :=
        existsb (fun msg =>
                   bool_decide (_id msg = _id messageData)
                   || (Js.truthy (tempId msg)
                       && bool_decide (tempId msg = tempId messageData)))
                prev in
      if messageExists then
        map (fun msg =>
               if bool_decide (tempId msg = tempId messageData)
               then withStatus sent messageData
               else msg)
            prev
      else prev ++ [withStatus received messageData]) st
  else st.

(** [useSocketEvent('message_sent', ...)] *)
Definition on_message_sent (data : Confirmation) (st : ChatPage) : ChatPage :=
  let st1 := setIsSending false st in
  if Js.truthy (ms_tempId data) then
    setMessages (map (fun msg =>
                        if bool_decide (tempId msg = ms_tempId data)
                        then confirmed data msg
                        else msg)) st1
  else st1.

(** [useSocketEvent('error', ...)] *)
Definition on_error (st : ChatPage) : ChatPage :=
  setMessages (List.filter (fun msg => negb (bool_decide (msg_status msg = Some sending))))
              (setIsSending false st).

(** [sendMessage]: the optimistic append and the [send_message] it emits. *)
Definition sendMessage (clock : N) (st : ChatPage)
  : ChatPage * option Gateway.MessageData :=
  if (length (Js.trim (newMessage st)) =? 0)%nat || isSending st || negb (connected st)
  then (st, None)
  else
    let tempId := Js.numberToString clock in
    let messageData :=
      {| _id := None; tempId := Some tempId; msg_chatId := chatId st;
         msg_content := Js.trim (newMessage st); msg_messageType := None;
         msg_sender := user st; msg_timestamp := Z.of_N clock;
         msg_isRead := None; msg_status := Some sending |} in
    ({| chatId := chatId st; user := user st; connected := connected st;
        messages := messages st ++ [messageData]; newMessage := [];
        isSending := true |},
     Some {| Gateway.md_chatId := chatId st;
             Gateway.md_content := Some (msg_content messageData);
             Gateway.md_messageType := None;
             Gateway.md_tempId := Some tempId |}).

(** The timer of [sendMessage] firing after five seconds. *)
Definition on_send_timeout (st : ChatPage) : ChatPage := setIsSending false st.

(** How many displayed messages carry the correlation id [x]. *)
Definition shown (x : string) (st : ChatPage) : nat :=
  length (List.filter (fun msg => bool_decide (tempId msg = Some x)) (messages st)).

End Client.

(** ** Vocabulary of the properties *)

(** The invariant of the room registry: every entry is a non-empty set of
    connected sockets. *)
Definition registryInv (st : Gateway.State) : Prop :=
  forall chatId s, Gateway.activeChatRooms st !! chatId = Some s ->
    s ≠ ∅ ∧ s ⊆ dom (Gateway.activeUsers st).

(** What remains of a registry entry once a socket is taken out of it. *)
Definition withoutSocket (sid : string) (s : gset string) : option (gset string) :=
  if decide (size (s ∖ {[sid]}) = 0%nat) then None else Some (s ∖ {[sid]}).

(** The raw body of a [send_message] payload; a missing body reads as the
    empty one. *)
Definition rawContent (md : Gateway.MessageData) : list N :=
  default [] (Gateway.md_content md).

(** A message is persisted in a room of the store. *)
Definition persisted (db : Model.Db) (chatId : string) (m : Model.Message) : Prop :=
  exists c, Model.findOne chatId (Model.chats db) = Some c ∧ In m (Model.messages c).

Definition isNewMessage (e : ServerEvent) : bool :=
  match e with
  | EvNewMessage _ => true
  | _ => false
  end.

(** How many [new_message] events of [out] reach the socket [sid]. *)
Definition newMessagesTo (st : Gateway.State) (sid : string) (out : list Emit) : nat :=
  length (List.filter (fun te : Emit =>
                         isNewMessage te.2 && bool_decide (sid ∈ Gateway.recipients st te.1))
                      out).

(** The user is not in the participant set of the room, if the room exists. *)
Definition notParticipant (db : Model.Db) (chatId userId : string) : Prop :=
  forall c, Model.findOne chatId (Model.chats db) = Some c ->
    ~ In userId (map Model.p_user (Model.participants c)).

(** The reasons with which [send_message] rejects a message. *)
Definition sendErrors : list string :=
  [ "Message content cannot be empty";
    "Message too long. Maximum 1000 characters.";
    "Message rate limit exceeded. Please slow down.";
    "Chat not found or access denied";
    "Failed to send message" ]%string.

(** How many rooms of the collection carry the key [k]. *)
Definition roomsWithKey (k : string) (cs : list Model.Chat) : nat :=
  length (List.filter (Model.hasChatId k) cs).

(** A body that passes the validation of [send_message]. *)
Definition validBody (md : Gateway.MessageData) : Prop :=
  Js.trim (rawContent md) ≠ [] ∧ (length (rawContent md) <= 1000)%nat.

(** The answer of the gateway to a sender over the limit. *)
Definition rateLimitError (socket : Gateway.Socket) : Emit :=
  (ToSocket (Gateway.id socket),
   EvError "Message rate limit exceeded. Please slow down." None).

(** One socket sending one message after the other: the state after the
    last one and what each of them made the gateway emit. *)
Fixpoint sendAll (maxMessages : nat) (windowMs : Z)
    (createChatRoom : list Model.Participant -> string -> option (string * string) ->
                      Model.Db -> option (Model.Chat * Model.Db))
    (socket : Gateway.Socket) (sends : list (Env * Gateway.MessageData))
    (st : Gateway.State) : Gateway.State * list (list Emit) :=
  match sends with
  | [] => (st, [])
  | (env, md) :: rest =>
    let '(st1, out) := Gateway.step maxMessages windowMs createChatRoom env socket
                                    (Gateway.SendMessage md) st in
    let '(st2, outs) := sendAll maxMessages windowMs createChatRoom socket rest st1 in
    (st2, out :: outs)
  end.

(** ** A small world for concrete runs *)
Module Scenario.
Import Model Gateway.

(** Two sends per hour. *)
Definition limit : nat := 2.
Definition window : Z := 3600000.

(** A room service that is down: [createChatRoom] throws. *)
Definition noRoomService (_ : list Participant) (_ : string)
    (_ : option (string * string)) (_ : Db) : option (Chat * Db) := None.

Definition alice : Socket :=
  {| id := "socket-a"; userId := "alice"; userRole := "citizen"; userName := "Alice" |}.
Definition bob : Socket :=
  {| id := "socket-b"; userId := "bob"; userRole := "lawyer"; userName := "Bob" |}.
Definition carol : Socket :=
  {| id := "socket-c"; userId := "carol"; userRole := "citizen"; userName := "Carol" |}.

Definition citizen : User :=
  {| role := "citizen"; isActive := true; verificationStatus := None;
     messageRequests := [] |}.
Definition lawyer : User :=
  {| role := "lawyer"; isActive := true; verificationStatus := Some "verified"%string;
     messageRequests := [] |}.

(** The direct chat of Alice and Bob, with one message of Bob that Alice
    has not read. *)
Definition room : Chat :=
  {| chatId := "direct_alice_bob";
     participants := [ {| p_user := "alice"; p_role := "citizen" |};
                       {| p_user := "bob"; p_role := "lawyer" |} ];
     chatType := "direct";
     status := "active";
     messages := [ {| m_id := 0; m_sender := "bob";
                      m_content := Js.ofString "Good morning";
                      m_timestamp := 1000; m_messageType := "text";
                      m_isRead := false |} ];
     lastMessage := Some {| lm_sender := "bob"; lm_content := Js.ofString "Good morning";
                            lm_timestamp := 1000 |} |}.

Definition store : Db :=
  {| users := <["alice" := citizen]> (<["bob" := lawyer]> (<["carol" := citizen]> ∅));
     chats := [room];
     nextId := 1 |}.

Definition at_ (t : Z) : Env :=
  {| now := t; storeWriteOk := true; errorDetails := None |}.

Definition storeDownAt (t : Z) : Env :=
  {| now := t; storeWriteOk := false; errorDetails := None |}.

Definition gateway := Gateway.step limit window noRoomService.

(** The three users are connected and Bob has the chat open. *)
Definition start : State :=
  let st0 := {| activeUsers := ∅; activeChatRooms := ∅; rooms := ∅; db := store;
                rateWindows := ∅ |} in
  let st1 := (gateway (at_ 2000) alice Connection st0).1 in
  let st2 := (gateway (at_ 2001) bob Connection st1).1 in
  let st3 := (gateway (at_ 2002) carol Connection st2).1 in
  (gateway (at_ 2003) bob (JoinChat "direct_alice_bob") st3).1.

Definition say (text : string) (tempId : string) : MessageData :=
  {| md_chatId := "direct_alice_bob"; md_content := Some (Js.ofString text);
     md_messageType := None; md_tempId := Some tempId |}.

End Scenario.

#[global] Instance Target_eq_dec : EqDecision Target.
Proof. solve_decision. Defined.

(** ** More of JavaScript: [split], [slice], [Math.ceil], stable [sort] *)
Module JsMore.

(** [s.split(sep)] for a separator of one character. *)
Fixpoint split (sep : ascii) (s : string) : list string :=
  match s with
  | EmptyString => [EmptyString]
  | String c s' =>
    if Ascii.eqb c sep then EmptyString :: split sep s'
    else match split sep s' with
         | h :: t => String c h :: t
         | [] => [String c EmptyString]
         end
  end.

(** The relative index of [Array.prototype.slice]: a negative index counts
    from the end, and both ends are clamped to the array. *)
Definition relativeIndex (len k : Z) : Z :=
  if k <? 0 then Z.max (len + k) 0 else Z.min k len.

(** [items.slice(start, finish)] *)
Definition slice {A} (start finish : Z) (items : list A) : list A :=
  let len := Z.of_nat (length items) in
  let from := relativeIndex len start in
  let to := relativeIndex len finish in
  firstn (Z.to_nat (to - from)) (skipn (Z.to_nat from) items).

(** [Math.ceil(a / b)] on integers, for [b] other than 0. *)
Definition ceilDiv (a b : Z) : Z := - ((- a) / b).

(** [items.sort((a, b) => key(b) - key(a))]: descending by the key; the
    sort of an array is stable, so equal keys keep their order. *)
Fixpoint insertDesc {A} (key : A -> Z) (x : A) (sorted : list A) : list A :=
  match sorted with
  | [] => [x]
  | y :: rest => if key y <=? key x then x :: y :: rest
                 else y :: insertDesc key x rest
  end.

Definition sortDesc {A} (key : A -> Z) (items : list A) : list A :=
  foldr (insertDesc key) [] items.

End JsMore.

(** ** Paging of the listings

    The block that ends [getMyLawyers], [getMyCases], [getPendingRequests],
    [getReceivedOffers], [getAvailableCases], [getMyAssignedCases],
    [getMyDirectClients] and [getMyClients].  [page] and [limit] are the
    integers that the query names by decimal numerals (or the defaults).
    The numbers of JavaScript are doubles: the arithmetic of the block is
    that of the integers as long as [page], [limit] and the two indices are
    integers that a double holds exactly (at most [2 ^ 53] in size), and
    the quotient [length / limit] of an array length (below [2 ^ 32]) by
    such a [limit] other than 0 is rounded to a double with the same
    ceiling.  For all other inputs the block is not modelled: [None]. *)
Module Paging.

Record Pagination := {
  current : Z;
  pages : option Z;
  total : Z
}.

(** The integers between [- 2 ^ 53] and [2 ^ 53], which a double holds
    exactly. *)
Definition exact (z : Z) : bool := (- 2 ^ 53 <=? z) && (z <=? 2 ^ 53).

Definition paginate {A} (page limit : Z) (items : list A)
  : option (list A * Pagination) :=
  let startIndex := (page - 1) * limit in
  let endIndex := startIndex + limit in
  if exact page && exact limit && exact (page - 1) && exact startIndex
     && exact endIndex && (Z.of_nat (length items) <? 2 ^ 32)
  then
    Some (JsMore.slice startIndex endIndex items,
          {| current := page;
             pages := if limit =? 0 then None
                      else Some (JsMore.ceilDiv (Z.of_nat (length items)) limit);
             total := Z.of_nat (length items) |})
  else None.

End Paging.

(** ** Cases and the requests on them

    [requestLawyerForCase] and [getPendingRequests] of the citizen
    controller and [offerHelpOnCase] of the lawyer controller.  The
    schemas of [Query] and [Dispute] are not in the source tree; a case has
    the fields that these handlers read and write. *)
Module Cases.

Record Request := {
  lawyerId : string;
  message : string;
  proposedFee : Z;
  estimatedDuration : option string;
  requestedAt : Z;
  status : string
}.

Record Case := {
  citizen : string;
  title : string;
  createdAt : Z;
  caseStatus : string;
  assignedLawyer : option string;
  citizenRequests : list Request;
  lawyerRequests : list Request
}.

(** The two collections, each in its natural order, keyed by [_id] in
    the canonical spelling of the id. *)
Record Db := {
  queries : list (string * Case);
  disputes : list (string * Case);
  users : gmap string Model.User
}.

Inductive Notice :=
| ToEveryone (name : string)
| ToRoom (room name : string).

(** [Model.findById(caseId)] for an id in canonical spelling. *)
Definition findById (caseId : string) (cs : list (string * Case)) : option Case :=
  snd <$> List.find (fun kc => String.eqb kc.1 caseId) cs.

(** [caseDoc.save()] *)
Fixpoint saveCase (caseId : string) (c : Case) (cs : list (string * Case))
  : list (string * Case) :=
  match cs with
  | [] => []
  | kc :: rest => if String.eqb kc.1 caseId then (caseId, c) :: rest
                  else kc :: saveCase caseId c rest
  end.

Definition collection (caseType : string) (db : Db) : list (string * Case) :=
  if String.eqb caseType "query" then queries db else disputes db.

Definition setCollection (caseType : string) (cs : list (string * Case)) (db : Db) : Db :=
  if String.eqb caseType "query"
  then {| queries := cs; disputes := disputes db; users := users db |}
  else {| queries := queries db; disputes := cs; users := users db |}.

Definition reply (status : nat) (success : bool) (message : string)
  : Controller.Response :=
  {| Controller.res_status := status; Controller.res_success := success;
     Controller.res_message := message; Controller.res_chatId := None |}.

(** [a || b] on optional strings. *)
Definition orString (a : option string) (b : string) : string :=
  if Js.truthy a then default b a else b.

(** [["query", "dispute"].includes(caseType)] *)
Definition validCaseType (caseType : string) : bool :=
  String.eqb caseType "query" || String.eqb caseType "dispute".

(** [`${caseType.charAt(0).toUpperCase() + caseType.slice(1)} not found`]
    for a valid case type. *)
Definition notFound (caseType : string) : string :=
  if String.eqb caseType "query" then "Query not found" else "Dispute not found".

Definition available (c : Case) : bool :=
  String.eqb (caseStatus c) "pending" || String.eqb (caseStatus c) "open".

Definition pendingFrom (lawyer : string) (r : Request) : bool :=
  String.eqb (lawyerId r) lawyer && String.eqb (status r) "pending".

Definition withCitizenRequests (rs : list Request) (c : Case) : Case :=
  {| citizen := citizen c; title := title c; createdAt := createdAt c;
     caseStatus := caseStatus c; assignedLawyer := assignedLawyer c;
     citizenRequests := rs; lawyerRequests := lawyerRequests c |}.

Definition withLawyerRequests (rs : list Request) (c : Case) : Case :=
  {| citizen := citizen c; title := title c; createdAt := createdAt c;
     caseStatus := caseStatus c; assignedLawyer := assignedLawyer c;
     citizenRequests := citizenRequests c; lawyerRequests := rs |}.

Section Casting.

(** Mongoose's cast of a string to an [ObjectId], as in [Model]. *)
Variable castObjectId : string -> option string.

(** [requestLawyerForCase]; [userId] is [req.user._id]; [caseId] and
    [lawyer] are the parameters of the route as the client wrote them.
    [Model.findById] and [User.findOne] cast them, and a cast that fails
    throws; the request that is pushed holds the id that [lawyer] is cast
    to; the search for an existing request compares the stored ids with
    [lawyer] itself. *)
Definition requestLawyerForCase (env : Env) (userId caseType caseId lawyer : string)
    (text : option string) (fee : option Z) (db : Db)
  : Db * Controller.Response * list Notice :=
  if negb (validCaseType caseType) then
    (db, reply 400 false "Invalid case type. Must be 'query' or 'dispute'", [])
  else
    match castObjectId caseId with
    | None => (db, reply 500 false "Failed to send request", [])
    | Some caseKey =>
      match findById caseKey (collection caseType db) with
      | None => (db, reply 404 false (notFound caseType), [])
      | Some caseDoc =>
        if negb (String.eqb (citizen caseDoc) userId) then
          (db, reply 403 false "Access denied", [])
        else if negb (available caseDoc) then
          (db, reply 400 false "Case is not available for lawyer assignment", [])
        else
          match castObjectId lawyer with
          | None => (db, reply 500 false "Failed to send request", [])
          | Some lawyerKey =>
            if negb (match users db !! lawyerKey with
                     | Some l => Controller.isVerifiedLawyer l
                     | None => false
                     end) then
              (db, reply 404 false "Lawyer not found or not verified", [])
            else
              match List.find (pendingFrom lawyer) (citizenRequests caseDoc) with
              | Some _ =>
                (db, reply 400 false
                       "You have already sent a request to this lawyer for this case", [])
              | None =>
                if negb (storeWriteOk env) then
                  (db, reply 500 false "Failed to send request", [])
                else
                  let request :=
                    {| lawyerId := lawyerKey;
                       message :=
                         orString text
                           ("I would like to request your assistance with this "
                            ++ caseType);
                       proposedFee := default 0 fee;
                       estimatedDuration := None;
                       requestedAt := now env;
                       status := "pending" |} in
                  let caseDoc' :=
                    withCitizenRequests (citizenRequests caseDoc ++ [request]) caseDoc in
                  (setCollection caseType
                     (saveCase caseKey caseDoc' (collection caseType db)) db,
                   reply 200 true "Request sent to lawyer successfully",
                   [ToEveryone "citizen_request_sent"])
              end
          end
      end
    end.

(** [offerHelpOnCase]; [userId] is [req.user._id].  In the search for an
    existing offer the parameter of the callback is called [req] like the
    request of the handler, so [req.user] is read off an entry of
    [lawyerRequests], where it is [undefined]: the first call of the
    callback throws, and the handler ends in its [catch]. *)
Definition offerHelpOnCase (env : Env) (userId caseType caseId : string)
    (text : option string) (fee : option Z) (duration : option string) (db : Db)
  : Db * Controller.Response * list Notice :=
  if negb (validCaseType caseType) then
    (db, reply 400 false "Invalid case type. Must be 'query' or 'dispute'", [])
  else
    match castObjectId caseId with
    | None => (db, reply 500 false "Failed to send offer", [])
    | Some caseKey =>
      match findById caseKey (collection caseType db) with
      | None => (db, reply 404 false (notFound caseType), [])
      | Some caseDoc =>
        if negb (available caseDoc) then
          (db, reply 400 false "Case is not available for offers", [])
        else if bool_decide (assignedLawyer caseDoc ≠ None) then
          (db, reply 400 false "Case is already assigned to a lawyer", [])
        else
          match lawyerRequests caseDoc with
          | _ :: _ => (db, reply 500 false "Failed to send offer", [])
          | [] =>
            if negb (storeWriteOk env) then
              (db, reply 500 false "Failed to send offer", [])
            else
              let offer :=
                {| lawyerId := userId;
                   message := orString text ("I would like to help you with this "
                                             ++ caseType);
                   proposedFee := default 0 fee;
                   estimatedDuration := duration;
                   requestedAt := now env;
                   status := "pending" |} in
              let caseDoc' :=
                withLawyerRequests (lawyerRequests caseDoc ++ [offer]) caseDoc in
              (setCollection caseType
                 (saveCase caseKey caseDoc' (collection caseType db)) db,
               reply 200 true "Offer sent successfully",
               [ToRoom ("user_" ++ citizen caseDoc) "new_lawyer_offer"])
          end
      end
    end.

End Casting.

(** An entry of the listing of [getPendingRequests]. *)
Record Listed := {
  request : Request;
  caseType : string;
  caseId : string;
  caseTitle : string;
  caseCreatedAt : Z
}.

Definition isPending (r : Request) : bool := String.eqb (status r) "pending".

(** [Model.find({ citizen, "citizenRequests.status": "pending" })] and the
    two nested [forEach] loops over what it finds. *)
Definition pendingOf (userId type : string) (cs : list (string * Case)) : list Listed :=
  flat_map
    (fun kc : string * Case =>
       map (fun r => {| request := r; caseType := type; caseId := kc.1;
                        caseTitle := title kc.2; caseCreatedAt := createdAt kc.2 |})
           (List.filter isPending (citizenRequests kc.2)))
    (List.filter
       (fun kc : string * Case =>
          String.eqb (citizen kc.2) userId && existsb isPending (citizenRequests kc.2))
       cs).

(** [getPendingRequests] with its [caseType] filter. *)
Definition getPendingRequests (userId : string) (page limit : Z)
    (only : option string) (db : Db) : option (list Listed * Paging.Pagination) :=
  let fromQueries :=
    if negb (Js.truthy only) || bool_decide (only = Some "query"%string)
    then pendingOf userId "query" (queries db) else [] in
  let fromDisputes :=
    if negb (Js.truthy only) || bool_decide (only = Some "dispute"%string)
    then pendingOf userId "dispute" (disputes db) else [] in
  let requests :=
    JsMore.sortDesc (fun l => requestedAt (request l)) (fromQueries ++ fromDisputes) in
  Paging.paginate page limit requests.

End Cases.

(** ** The lawyer controller: [acceptDirectRequest] *)
Module Lawyer.
Import Model.

Record Response := {
  res_status : nat;
  res_success : bool;
  res_message : string;
  res_chat : option Chat
}.

(** The filter of [Chat.findOne({ chatId, "participants.user": lawyerId,
    chatType: "direct" })]. *)
Definition isDirectChatOf (key lawyerId : string) (c : Chat) : bool :=
  String.eqb (chatId c) key
  && existsb (fun p => String.eqb (p_user p) lawyerId) (participants c)
  && String.eqb (chatType c) "direct".

(** [chat.save()] of the document that the query found: the first one
    that passes the filter. *)
Fixpoint saveFirst (found : Chat -> bool) (c : Chat) (cs : list Chat) : list Chat :=
  match cs with
  | [] => []
  | c0 :: cs' => if found c0 then c :: cs' else c0 :: saveFirst found c cs'
  end.

Definition activated (c : Chat) : Chat :=
  {| chatId := chatId c; participants := participants c; chatType := chatType c;
     status := "active"; messages := messages c; lastMessage := lastMessage c |}.

(** [chat.participants.find(p => p.user.role === "citizen")] on the
    populated participants: a participant whose user document is gone is
    populated with [null], and reading its role throws ([None]). *)
Fixpoint findCitizen (us : gmap string User) (ps : list Participant)
  : option (option Participant) :=
  match ps with
  | [] => Some None
  | p :: ps' =>
    match us !! p_user p with
    | None => None
    | Some u => if String.eqb (role u) "citizen" then Some (Some p)
                else findCitizen us ps'
    end
  end.

Definition failure : Response :=
  {| res_status := 500; res_success := false;
     res_message := "Failed to accept request"; res_chat := None |}.

(** [acceptDirectRequest]; [lawyerId] is [req.user._id]. *)
Definition acceptDirectRequest (env : Env) (lawyerId key : string) (db : Db)
  : Db * Response * list Emit :=
  match List.find (isDirectChatOf key lawyerId) (chats db) with
  | None =>
    (db,
     {| res_status := 404; res_success := false;
        res_message := "Chat request not found"; res_chat := None |},
     [])
  | Some chat =>
    if negb (storeWriteOk env) then (db, failure, [])
    else
      let chat' := activated chat in
      let db' := setChats (saveFirst (isDirectChatOf key lawyerId) chat' (chats db)) db in
      match findCitizen (users db) (participants chat') with
      | None => (db', failure, [])
      | Some citizen =>
        (db',
         {| res_status := 200; res_success := true;
            res_message := "Direct message request accepted successfully";
            res_chat := Some chat' |},
         match citizen with
         | Some p => [ (IoTo ("user_" ++ p_user p),
                        EvNotify "direct_request_accepted" (Some key)) ]
         | None => []
         end)
      end
  end.

End Lawyer.

(** ** The authentication of a socket

    The middleware [io.use] of the gateway.  [verifyAccessToken] (utils/jwt.js)
    and the [User] collection are parameters: the first yields the user id
    of a token or throws ([None]), the second is [User.findById] with the
    fields that the middleware reads. *)
Module Auth.

Record Handshake := {
  authToken : option string;
  authorization : option string
}.

Record Account := {
  _id : string;
  name : string;
  role : string;
  isActive : bool
}.

(** [socket.handshake.auth.token ||
     socket.handshake.headers.authorization?.split(" ")[1]] *)
Definition tokenOf (h : Handshake) : option string :=
  if Js.truthy (authToken h) then authToken h
  else match authorization h with
       | Some header => nth_error (JsMore.split " " header) 1
       | None => None
       end.

Section Middleware.

Variable verifyAccessToken : string -> option string.
Variable findById : string -> option Account.

(** The middleware: the identity put on the socket, or the message of the
    error handed to [next]. *)
Definition authenticate (socketId : string) (h : Handshake)
  : Gateway.Socket + string :=
  let token := tokenOf h in
  if negb (Js.truthy token) then inr "Authentication token required"%string
  else
    match verifyAccessToken (default ""%string token) with
    | None => inr "Authentication failed"%string
    | Some decodedId =>
      match findById decodedId with
      | Some user =>
        if isActive user then
          inl {| Gateway.id := socketId; Gateway.userId := _id user;
                 Gateway.userRole := role user; Gateway.userName := name user |}
        else inr "User not found or inactive"%string
      | None => inr "User not found or inactive"%string
      end
    end.

End Middleware.

End Auth.

(** ** The client: the peer of a direct chat *)
Module Peer.

(** The head of [createDirectChatIfNeeded]: the id of the user with whom
    the direct chat [chatId] is to be created, or [None] when the handler
    returns at once. *)
Definition otherUserId (chatId currentUserId : string) : option string :=
  let parts := JsMore.split "_" chatId in
  if negb (length parts =? 3)%nat then None
  else
    let userId1 := nth 1 parts ""%string in
    let userId2 := nth 2 parts ""%string in
    Some (if String.eqb userId1 currentUserId then userId2 else userId1).

End Peer.

(** No two pending requests of a case name the same lawyer. *)
Definition onePendingPerLawyer (rs : list Cases.Request) : Prop :=
  forall lawyer, (length (List.filter (Cases.pendingFrom lawyer) rs) <= 1)%nat.

(** Carol, a citizen, and the lawyers Bob and Dan under the ids that the
    store gave them; [bobInCapitals] is the id of Bob as a client may write
    it in the path of a request. *)
Module Office.
Import Model.

Definition carol : string := "65a1f3c2b4d5e6f708192a01".
Definition bob : string := "65a1f3c2b4d5e6f708192ab0".
Definition bobInCapitals : string := "65A1F3C2B4D5E6F708192AB0".
Definition dan : string := "65a1f3c2b4d5e6f708192ad0".

Definition store : Db :=
  {| users := <[carol := Scenario.citizen]>
                (<[bob := Scenario.lawyer]> (<[dan := Scenario.lawyer]> ∅));
     chats := [];
     nextId := 1 |}.

(** A socket of Bob, and a gateway with nobody connected. *)
Definition bobSocket : Gateway.Socket :=
  {| Gateway.id := "socket-o"; Gateway.userId := bob; Gateway.userRole := "lawyer";
     Gateway.userName := "Bob" |}.

Definition idle : Gateway.State :=
  {| Gateway.activeUsers := ∅; Gateway.activeChatRooms := ∅; Gateway.rooms := ∅;
     Gateway.db := store; Gateway.rateWindows := ∅ |}.

End Office.

(** A query of Carol with a pending request to Dan, and a dispute of hers
    that nobody was asked about. *)
Module CaseScenario.
Import Cases.

Definition tenancyId : string := "65a1f3c2b4d5e6f7081c0001".
Definition boundaryId : string := "65a1f3c2b4d5e6f7081c0002".

Definition toDan : Request :=
  {| lawyerId := Office.dan; message := "Please advise"; proposedFee := 0;
     estimatedDuration := None; requestedAt := 1000; status := "pending" |}.

Definition tenancy : Case :=
  {| citizen := Office.carol; title := "Tenancy"; createdAt := 500;
     caseStatus := "open"; assignedLawyer := None; citizenRequests := [toDan];
     lawyerRequests := [] |}.

Definition boundary : Case :=
  {| citizen := Office.carol; title := "Boundary"; createdAt := 700;
     caseStatus := "pending"; assignedLawyer := None; citizenRequests := [];
     lawyerRequests := [] |}.

Definition db : Db :=
  {| queries := [(tenancyId, tenancy)]; disputes := [(boundaryId, boundary)];
     users := Model.users Office.store |}.

End CaseScenario.


(** How often the character [c] occurs in the string [s]. *)
Fixpoint occurs (c : ascii) (s : string) : nat :=
  match s with
  | EmptyString => 0
  | String c' s' => (if Ascii.eqb c' c then 1 else 0) + occurs c s'
  end.


(** The three listeners of the chat page, by the name of the event; the
    page listens to no other event. *)
Definition receive (e : ServerEvent) (page : Client.ChatPage) : Client.ChatPage :=
  match e with
  | EvNewMessage messageData => Client.on_new_message messageData page
  | EvMessageSent data => Client.on_message_sent data page
  | EvError _ _ => Client.on_error page
  | _ => page
  end.

(** What of [out] reaches the socket [sid], in the order of the emits. *)
Definition delivered (st : Gateway.State) (sid : string) (out : list Emit)
  : list ServerEvent :=
  map snd (List.filter (fun te : Emit => bool_decide (sid ∈ Gateway.recipients st te.1))
                       out).

(** The page after the events in their order. *)
Definition receiveAll (events : list ServerEvent) (page : Client.ChatPage)
  : Client.ChatPage :=
  foldl (fun p e => receive e p) page events.

(** The chat page of Bob on his chat with Alice, with the message of the
    store on it and a draft. *)
Module PageScenario.

Definition fetched : Msg :=
  {| _id := Some 0%N; tempId := None; msg_chatId := "direct_alice_bob";
     msg_content := Js.ofString "Good morning"; msg_messageType := Some "text"%string;
     msg_sender := {| s_id := "bob"; s_name := "Bob"; s_role := "lawyer" |};
     msg_timestamp := 1000; msg_isRead := Some false; msg_status := None |}.

Definition page : Client.ChatPage :=
  {| Client.chatId := "direct_alice_bob";
     Client.user := {| s_id := "bob"; s_name := "Bob"; s_role := "lawyer" |};
     Client.connected := true;
     Client.messages := [fetched];
     Client.newMessage := Js.ofString " See you at ten ";
     Client.isSending := false |}.

End PageScenario.



(** * Properties *)

(** ** The document store *)
Section StoreFacts.
Import Model Helpers.

Lemma findOne_chatId k cs c : findOne k cs = Some c -> chatId c = k.
Proof.
  unfold findOne. intros H. apply find_some in H as [_ H].
  unfold hasChatId in H. by apply String.eqb_eq in H.
Qed.

(** Saving a document puts it where [findOne] found its old version. *)
Lemma findOne_saveChat k cs c c' :
  findOne k cs = Some c -> chatId c' = k -> findOne k (saveChat c' cs) = Some c'.
Proof.
  unfold findOne. intros Hf Hk. induction cs as [|c0 cs IH]; simpl in *; [done|].
  rewrite Hk. destruct (hasChatId k c0) eqn:E; simpl.
  - unfold hasChatId. rewrite Hk. by rewrite String.eqb_refl.
  - rewrite E. by apply IH.
Qed.

Lemma length_saveChat c cs : length (saveChat c cs) = length cs.
Proof.
  induction cs as [|c0 cs IH]; simpl; [done|]. destruct (hasChatId _ _); simpl; congruence.
Qed.

Lemma validateChatAccess_true chatId userId db :
  validateChatAccess chatId userId db = true <->
  exists c, findOne chatId (chats db) = Some c ∧ In userId (map p_user (participants c)).
Proof.
  unfold validateChatAccess. destruct (findOne _ _) as [c|]; split.
  - intros H. exists c. split; [done|]. apply existsb_exists in H as (p & Hp & He).
    apply String.eqb_eq in He. subst. by apply in_map.
  - intros (c' & [= <-] & Hin). apply in_map_iff in Hin as (p & <- & Hp).
    apply existsb_exists. exists p. split; [done|]. apply String.eqb_refl.
  - done.
  - by intros (c & ? & _).
Qed.

Lemma validateChatAccess_false chatId userId db :
  notParticipant db chatId userId -> validateChatAccess chatId userId db = false.
Proof.
  intros Hn. destruct (validateChatAccess _ _ _) eqn:E; [|done].
  apply validateChatAccess_true in E as (c & Hc & Hin). by destruct (Hn c Hc).
Qed.

Lemma saveMessageToDatabase_Some env chatId userId content mt db m db' :
  saveMessageToDatabase env chatId userId content mt db = Some (m, db') ->
  storeWriteOk env = true
  ∧ m = {| m_id := nextId db; m_sender := userId; m_content := content;
           m_timestamp := now env; m_messageType := mt; m_isRead := false |}
  ∧ exists c, findOne chatId (chats db) = Some c
      ∧ findOne chatId (chats db') =
          Some {| Model.chatId := Model.chatId c; participants := participants c;
                  chatType := chatType c; status := status c;
                  messages := messages c ++ [m];
                  lastMessage := Some {| lm_sender := userId; lm_content := content;
                                         lm_timestamp := now env |} |}.
Proof.
  unfold saveMessageToDatabase. destruct (storeWriteOk env); [|done].
  destruct (findOne _ _) as [c|] eqn:E; [|done]. intros [= <- <-].
  split; [done|]. split; [done|]. exists c. split; [done|]. simpl.
  apply (findOne_saveChat _ _ c); [done|]. simpl. by eapply findOne_chatId.
Qed.

Lemma saveMessageToDatabase_is_Some env chatId userId content mt db :
  storeWriteOk env = true -> validateChatAccess chatId userId db = true ->
  exists m db', saveMessageToDatabase env chatId userId content mt db = Some (m, db').
Proof.
  intros Hw Ha. apply validateChatAccess_true in Ha as (c & Hc & _).
  unfold saveMessageToDatabase. rewrite Hw, Hc. eauto.
Qed.

End StoreFacts.

(** ** The room registry *)
Section Registry.
Import Gateway.

Lemma registryAdd_lookup sid chatId (m : gmap string (gset string)) k :
  registryAdd sid chatId m !! k =
  if decide (k = chatId) then Some (members chatId m ∪ {[sid]}) else m !! k.
Proof.
  unfold registryAdd, members. case_decide as Hk.
  - subst k. rewrite lookup_alter_eq.
    destruct (m !! chatId) as [s|] eqn:E; simpl.
    + by rewrite E.
    + by rewrite lookup_insert_eq.
  - rewrite lookup_alter_ne by done.
    destruct (m !! chatId); [done|]. by rewrite lookup_insert_ne.
Qed.

Lemma registryRemove_lookup sid chatId (m : gmap string (gset string)) k :
  registryRemove sid chatId m !! k =
  if decide (k = chatId) then m !! k ≫= withoutSocket sid else m !! k.
Proof.
  unfold registryRemove, members, withoutSocket.
  destruct (m !! chatId) as [s|] eqn:E.
  - rewrite lookup_alter_eq, E. simpl.
    case_decide as Hs; case_decide as Hk; subst; rewrite ?E; simpl.
    + rewrite lookup_delete_eq. by rewrite decide_True.
    + rewrite lookup_delete_ne, lookup_alter_ne by done. done.
    + rewrite lookup_alter_eq, E. simpl. by rewrite decide_False.
    + by rewrite lookup_alter_ne.
  - case_decide; subst; by rewrite ?E.
Qed.

Lemma registryDrop_fold sid (b m : gmap string (gset string)) k :
  map_fold (fun chatId (userSet : gset string) acc =>
              let userSet' := userSet ∖ {[sid]} in
              if decide (size userSet' = 0%nat)
              then delete chatId acc
              else <[chatId := userSet']> acc) b m !! k =
  match m !! k with
  | Some s => withoutSocket sid s
  | None => b !! k
  end.
Proof.
  revert k. apply (map_fold_weak_ind (fun r m' => forall k, r !! k =
    match m' !! k with Some s => withoutSocket sid s | None => b !! k end)).
  - intros k. by rewrite lookup_empty.
  - intros i x m' r Hi IH k. simpl. unfold withoutSocket in *.
    destruct (decide (k = i)) as [->|Hk].
    + rewrite lookup_insert_eq. case_decide.
      * by rewrite lookup_delete_eq.
      * by rewrite lookup_insert_eq.
    + rewrite (lookup_insert_ne m') by done. rewrite <- IH.
      case_decide; [by rewrite lookup_delete_ne | by rewrite lookup_insert_ne].
Qed.

Lemma registryDrop_lookup sid (m : gmap string (gset string)) k :
  registryDrop sid m !! k = m !! k ≫= withoutSocket sid.
Proof.
  unfold registryDrop. rewrite registryDrop_fold. by destruct (m !! k).
Qed.

Lemma withoutSocket_Some sid s s' :
  withoutSocket sid s = Some s' -> s' = s ∖ {[sid]} ∧ s' ≠ ∅.
Proof.
  unfold withoutSocket. case_decide as Hs; [done|]. intros [= <-]. split; [done|].
  intros Hempty. apply Hs. rewrite Hempty. apply size_empty.
Qed.

End Registry.

(** ** Message requests: the [User] methods and the controller *)
Section ControllerFacts.
Import Model Controller.

Variable castObjectId : string -> option string.

Local Abbreviation sendDirectMessageRequest :=
  (Controller.sendDirectMessageRequest castObjectId).

Lemma sort2_sym a b : Js.sort2 a b = Js.sort2 b a ∨ a = b.
Proof.
  unfold Js.sort2. rewrite (String.compare_antisym b a).
  destruct (String.compare a b) eqn:E; simpl; auto.
  right. by apply String.compare_eq_iff.
Qed.

Lemma directChatId_sym a b : directChatId a b = directChatId b a.
Proof.
  unfold directChatId. destruct (sort2_sym a b) as [-> | ->]; done.
Qed.

(** Logging a request touches the request log only. *)
Lemma isVerifiedLawyer_logRequest t u stored :
  isVerifiedLawyer (logRequest t u stored) = isVerifiedLawyer u.
Proof. done. Qed.

(** The outcome of a request, read off its status code. *)
Lemma sendDirectMessageRequest_200 env userId lawyerId message db :
  (sendDirectMessageRequest env userId lawyerId message db).1.2.(res_status) = 200%nat <->
  exists lawyerKey l citizen,
    castObjectId lawyerId = Some lawyerKey
    ∧ users db !! lawyerKey = Some l ∧ isVerifiedLawyer l = true
    ∧ users db !! userId = Some citizen
    ∧ canSendMessageRequest (now env) citizen lawyerId = true
    ∧ storeWriteOk env = true.
Proof.
  unfold Controller.sendDirectMessageRequest, addMessageRequest.
  destruct (castObjectId lawyerId) as [k|] eqn:Ek; simpl;
    [|split; [done|by intros (?&?&?&?&_)]].
  destruct (users db !! k) as [l|] eqn:El; simpl;
    [|split; [done|intros (?&?&?&?&?&_); simplify_eq]].
  destruct (isVerifiedLawyer l) eqn:Ev; simpl;
    [|split; [done|intros (?&?&?&?&?&?&_); simplify_eq; congruence]].
  destruct (users db !! userId) as [citizen|] eqn:Ec; simpl;
    [|split; [done|intros (?&?&?&_&_&_&?&_); simplify_eq]].
  destruct (canSendMessageRequest _ _ _) eqn:Ecan; simpl;
    [|split; [done|intros (?&?&?&_&_&_&?&?&_); simplify_eq; congruence]].
  destruct (storeWriteOk env); simpl.
  - split; [|done]. intros _. by exists k, l, citizen.
  - split; [done|]. by intros (?&?&?&_&_&_&_&_&?).
Qed.

Lemma sendDirectMessageRequest_db env userId lawyerId message db citizen lawyerKey :
  (sendDirectMessageRequest env userId lawyerId message db).1.2.(res_status) = 200%nat ->
  users db !! userId = Some citizen ->
  castObjectId lawyerId = Some lawyerKey ->
  let db' := (sendDirectMessageRequest env userId lawyerId message db).1.1 in
  users db' = <[userId := logRequest (now env) citizen lawyerKey]> (users db)
  ∧ (findOne (directChatId userId lawyerId) (chats db) ≠ None -> chats db' = chats db)
  ∧ (findOne (directChatId userId lawyerId) (chats db) = None ->
     exists chat, chats db' = chats db ++ [chat]
       ∧ chatId chat = directChatId userId lawyerId
       ∧ map p_user (participants chat) = [userId; lawyerKey])
  ∧ (sendDirectMessageRequest env userId lawyerId message db).1.2.(res_chatId)
      = Some (directChatId userId lawyerId)
  ∧ (sendDirectMessageRequest env userId lawyerId message db).2
      = [ (IoTo ("user_" ++ lawyerId),
           EvNotify "direct_message_request" (Some (directChatId userId lawyerId))) ].
Proof.
  intros H Hc Hk. pose proof H as H'.
  apply sendDirectMessageRequest_200 in H' as (k & l & c & Hk' & Hl & Hv & Hc' & Hcan & Hw).
  rewrite Hc in Hc'. injection Hc' as <-. rewrite Hk in Hk'. injection Hk' as <-.
  unfold Controller.sendDirectMessageRequest, addMessageRequest.
  rewrite Hk, Hl, Hv, Hc, Hcan, Hw. simpl.
  destruct (findOne _ _) eqn:E; simpl.
  - split; [done|]. split; [done|]. split; [done|]. done.
  - split; [done|]. split; [done|]. split; [|done].
    intros _. eexists. split; [done|]. done.
Qed.

(** A request that is not answered with 200 leaves the database alone and
    notifies nobody. *)
Lemma sendDirectMessageRequest_rejected env userId lawyerId message db :
  (sendDirectMessageRequest env userId lawyerId message db).1.2.(res_status) ≠ 200%nat ->
  (sendDirectMessageRequest env userId lawyerId message db).1.1 = db
  ∧ (sendDirectMessageRequest env userId lawyerId message db).2 = [].
Proof.
  unfold Controller.sendDirectMessageRequest, addMessageRequest.
  destruct (castObjectId lawyerId) as [k|]; simpl; [|done].
  destruct (users db !! k) as [l|]; simpl; [|done].
  destruct (isVerifiedLawyer l); simpl; [|done].
  destruct (users db !! userId) as [citizen|]; simpl; [|done].
  destruct (canSendMessageRequest _ _ _); simpl; [|done].
  destruct (storeWriteOk env); simpl; done.
Qed.

Lemma findOne_app_new k cs chat :
  findOne k cs = None -> chatId chat = k -> findOne k (cs ++ [chat]) = Some chat.
Proof.
  unfold findOne. intros Hn Hk. induction cs as [|c cs IH]; simpl in *.
  - unfold hasChatId. by rewrite Hk, String.eqb_refl.
  - destruct (hasChatId k c); [done|]. by apply IH.
Qed.

Lemma roomsWithKey_fresh k cs chat :
  findOne k cs = None -> chatId chat = k -> roomsWithKey k (cs ++ [chat]) = 1%nat.
Proof.
  unfold findOne, roomsWithKey. intros Hn Hk. rewrite List.filter_app, length_app.
  assert (List.filter (hasChatId k) cs = []) as ->.
  { induction cs as [|c cs IH]; simpl in *; [done|].
    destruct (hasChatId k c); [done|]. by apply IH. }
  simpl. unfold hasChatId. by rewrite Hk, String.eqb_refl.
Qed.

(** Requests that spell the lawyer alike share one room.  The key of
    a direct chat is ["direct_"] followed by the id of the requester and
    the id of the lawyer as the request spells it, in sorted order, so it
    is the same for both orders of the two strings.  Once a request has
    succeeded, the room with that key exists, and a second request with the
    same spelling leaves the collection of rooms as it is (no second room,
    the existing one unchanged) and, when it is answered with 200, returns
    the same key; if no room had the key before, exactly one has it after
    both. *)
Lemma direct_chat_request_is_idempotent env1 env2 userId lawyerId message1 message2 db :
  let first := sendDirectMessageRequest env1 userId lawyerId message1 db in
  let second := sendDirectMessageRequest env2 userId lawyerId message2 first.1.1 in
  let key := directChatId userId lawyerId in
  res_status first.1.2 = 200%nat ->
  key = directChatId lawyerId userId
  ∧ (exists x y, Js.sort2 userId lawyerId = (x, y)
       ∧ key = ("direct_" ++ x ++ "_" ++ y)%string
       ∧ (String.compare x y = Lt ∨ String.compare x y = Eq))
  ∧ res_chatId first.1.2 = Some key
  ∧ (exists room, findOne key (chats first.1.1) = Some room
       ∧ findOne key (chats second.1.1) = Some room)
  ∧ chats second.1.1 = chats first.1.1
  ∧ (findOne key (chats db) = None -> roomsWithKey key (chats second.1.1) = 1%nat)
  ∧ (res_status second.1.2 = 200%nat -> res_chatId second.1.2 = Some key).
Proof.
  intros first second key H1.
  pose proof H1 as H1'.
  apply sendDirectMessageRequest_200 in H1'
    as (k & l & citizen & Hk & Hl & Hv & Hc & Hcan & Hw).
  destruct (sendDirectMessageRequest_db env1 userId lawyerId message1 db citizen k H1 Hc Hk)
    as (Hu & Hsame & Hnew & Hkey & _).
  fold first in Hu, Hsame, Hnew, Hkey. fold key in Hsame, Hnew, Hkey.
  assert (Hroom : exists room, findOne key (chats first.1.1) = Some room).
  { destruct (findOne key (chats db)) as [room|] eqn:E.
    - exists room. rewrite Hsame; done.
    - destruct Hnew as (chat & -> & Hid & _); [done|]. exists chat.
      by apply findOne_app_new. }
  assert (Hc2 : users first.1.1 !! userId = Some (logRequest (now env1) citizen k))
    by (rewrite Hu; apply lookup_insert_eq).
  assert (Hchats : chats second.1.1 = chats first.1.1).
  { destruct (decide (res_status second.1.2 = 200%nat)) as [H2|H2].
    - destruct (sendDirectMessageRequest_db env2 userId lawyerId message2 first.1.1 _ k
                  H2 Hc2 Hk) as (_ & Hsame2 & _).
      apply Hsame2. destruct Hroom as [room Hr]. fold key. by rewrite Hr.
    - unfold second. by destruct (sendDirectMessageRequest_rejected _ _ _ _ _ H2) as [-> _]. }
  split; [apply directChatId_sym|]. split.
  { subst key. unfold directChatId, Js.sort2.
    rewrite (String.compare_antisym lawyerId userId).
    destruct (String.compare userId lawyerId) eqn:E; simpl.
    - exists userId, lawyerId. auto.
    - exists userId, lawyerId. auto.
    - exists lawyerId, userId. split; [done|]. split; [done|]. left.
      rewrite String.compare_antisym, E. done. }
  split; [done|]. split.
  { destruct Hroom as [room Hr]. exists room. by rewrite Hchats. }
  split; [done|]. split.
  - intros Hnone. rewrite Hchats. destruct (Hnew Hnone) as (chat & -> & Hid & _).
    by apply roomsWithKey_fresh.
  - intros H2.
    by destruct (sendDirectMessageRequest_db env2 userId lawyerId message2 first.1.1 _ k
                   H2 Hc2 Hk) as (_ & _ & _ & ? & _).
Qed.

(** *** The limit of two requests per hour *)

Lemma oneHour_pos : 0 < oneHour.
Proof. done. Qed.

Lemma messageRequests_logRequest t u stored :
  messageRequests (logRequest t u stored) =
  List.filter (fun req => t - oneHour <? timestamp req) (messageRequests u)
  ++ [ {| toUserId := stored; timestamp := t |} ].
Proof.
  unfold logRequest. simpl. rewrite List.filter_app. simpl.
  pose proof oneHour_pos. by rewrite (proj2 (Z.ltb_lt _ _)) by lia.
Qed.

Lemma messageRequests_logRequest_twice t1 t2 u stored :
  t2 - oneHour < t1 ->
  messageRequests (logRequest t2 (logRequest t1 u stored) stored) =
  List.filter (fun req => t2 - oneHour <? timestamp req)
    (List.filter (fun req => t1 - oneHour <? timestamp req) (messageRequests u))
  ++ [ {| toUserId := stored; timestamp := t1 |};
       {| toUserId := stored; timestamp := t2 |} ].
Proof.
  intros Hw. rewrite !messageRequests_logRequest, List.filter_app. simpl.
  rewrite (proj2 (Z.ltb_lt _ _) Hw). by rewrite <- app_assoc.
Qed.

(** Two logged requests to one lawyer that lie less than an hour back
    close the window for a third that names the lawyer as the log does. *)
Lemma third_request_in_window u to t1 t2 t3 :
  t1 <= t2 -> t2 <= t3 -> t3 - oneHour < t1 ->
  canSendMessageRequest t3 (logRequest t2 (logRequest t1 u to) to) to = false.
Proof.
  intros H12 H23 Hw. unfold canSendMessageRequest.
  rewrite messageRequests_logRequest_twice by lia. rewrite List.filter_app. simpl.
  rewrite String.eqb_refl. simpl.
  rewrite (proj2 (Z.ltb_lt (t3 - oneHour) t1)) by lia.
  rewrite (proj2 (Z.ltb_lt (t3 - oneHour) t2)) by lia.
  rewrite length_app. simpl. apply Nat.ltb_ge. lia.
Qed.

Lemma filter_nil_weaken {A} (P Q R : A -> bool) (l : list A) :
  (forall x, Q x = true -> P x = true) ->
  List.filter P l = [] -> List.filter Q (List.filter R l) = [].
Proof.
  intros HQP. induction l as [|x l IH]; simpl; [done|].
  destruct (P x) eqn:EP; [done|]. intros Hl.
  destruct (R x); simpl; [|by apply IH].
  destruct (Q x) eqn:EQ; [|by apply IH]. apply HQP in EQ. congruence.
Qed.

(** Once both requests are an hour old, the window is open again. *)
Lemma request_after_window u to t1 t2 t4 :
  canSendMessageRequest t2 (logRequest t1 u to) to = true ->
  t1 <= t2 -> t2 - oneHour < t1 -> t2 <= t4 - oneHour ->
  canSendMessageRequest t4 (logRequest t2 (logRequest t1 u to) to) to = true.
Proof.
  intros Hcan H12 Hw H4. unfold canSendMessageRequest in *.
  rewrite messageRequests_logRequest_twice by lia.
  rewrite messageRequests_logRequest in Hcan.
  rewrite List.filter_app in *. simpl in *. rewrite String.eqb_refl in *. simpl in *.
  rewrite (proj2 (Z.ltb_lt (t2 - oneHour) t1)) in Hcan by lia.
  rewrite (proj2 (Z.ltb_ge (t4 - oneHour) t1)) by lia.
  rewrite (proj2 (Z.ltb_ge (t4 - oneHour) t2)) by lia.
  rewrite length_app in Hcan. simpl in Hcan. apply Nat.ltb_lt in Hcan.
  rewrite app_nil_r.
  rewrite (filter_nil_weaken
             (fun req => (toUserId req =? to)%string && (t2 - oneHour <? timestamp req))).
  - done.
  - intros x Hx. apply andb_prop in Hx as [-> Hx]. simpl.
    apply Z.ltb_lt in Hx. apply Z.ltb_lt. lia.
  - destruct (List.filter _ _); [done|]. simpl in Hcan. lia.
Qed.

Lemma sendDirectMessageRequest_429 env userId lawyerId message db lawyerKey l citizen :
  castObjectId lawyerId = Some lawyerKey ->
  users db !! lawyerKey = Some l -> isVerifiedLawyer l = true ->
  users db !! userId = Some citizen ->
  canSendMessageRequest (now env) citizen lawyerId = false ->
  sendDirectMessageRequest env userId lawyerId message db =
  (db,
   {| res_status := 429; res_success := false;
      res_message := "You can only send 2 message requests per hour to the same lawyer";
      res_chatId := None |},
   []).
Proof.
  intros Hk Hl Hv Hc Hcan. unfold Controller.sendDirectMessageRequest.
  by rewrite Hk, Hl, Hv, Hc, Hcan.
Qed.

(** The message-request limiter of the controller, for a request that
    spells the id of the lawyer as the store does: after two accepted
    requests of a citizen to one lawyer, a third within the hour of the
    first is answered with 429 and changes nothing; a request made an hour
    or more after the second is accepted again. *)
Lemma message_request_window env1 env2 env3 userId lawyerId m1 m2 m3 db :
  castObjectId lawyerId = Some lawyerId ->
  let r1 := sendDirectMessageRequest env1 userId lawyerId m1 db in
  let r2 := sendDirectMessageRequest env2 userId lawyerId m2 r1.1.1 in
  let r3 := sendDirectMessageRequest env3 userId lawyerId m3 r2.1.1 in
  res_status r1.1.2 = 200%nat -> res_status r2.1.2 = 200%nat ->
  now env1 <= now env2 -> now env2 <= now env3 -> now env3 - oneHour < now env1 ->
  r3 = (r2.1.1,
        {| res_status := 429; res_success := false;
           res_message := "You can only send 2 message requests per hour to the same lawyer";
           res_chatId := None |},
        [])
  ∧ forall env4 m4,
      now env2 <= now env4 - oneHour -> storeWriteOk env4 = true ->
      res_status (sendDirectMessageRequest env4 userId lawyerId m4 r3.1.1).1.2 = 200%nat.
Proof.
  intros Hk r1 r2 r3 H1 H2 H12 H23 Hw.
  pose proof H1 as H1'.
  apply sendDirectMessageRequest_200 in H1'
    as (k & l & c & Hk' & Hl & Hv & Hc & Hcan1 & Hw1).
  rewrite Hk in Hk'. injection Hk' as <-.
  destruct (sendDirectMessageRequest_db env1 userId lawyerId m1 db c lawyerId H1 Hc Hk)
    as (Hu1 & _).
  fold r1 in Hu1.
  assert (Hc1 : users r1.1.1 !! userId = Some (logRequest (now env1) c lawyerId))
    by (rewrite Hu1; apply lookup_insert_eq).
  pose proof H2 as H2'.
  apply sendDirectMessageRequest_200 in H2'
    as (k2 & l2 & c2 & Hk2 & Hl2 & Hv2 & Hc2 & Hcan2 & Hw2).
  rewrite Hk in Hk2. injection Hk2 as <-.
  fold r1 in Hl2, Hc2. rewrite Hc1 in Hc2. injection Hc2 as <-.
  destruct (sendDirectMessageRequest_db env2 userId lawyerId m2 r1.1.1 _ lawyerId H2 Hc1 Hk)
    as (Hu2 & _).
  fold r2 in Hu2.
  set (c3 := logRequest (now env2) (logRequest (now env1) c lawyerId) lawyerId) in *.
  assert (Hc3 : users r2.1.1 !! userId = Some c3) by (rewrite Hu2; apply lookup_insert_eq).
  assert (Hl3 : exists l3, users r2.1.1 !! lawyerId = Some l3 ∧ isVerifiedLawyer l3 = true).
  { destruct (decide (lawyerId = userId)) as [->|Hne].
    - exists c3. split; [done|]. rewrite Hc1 in Hl2. injection Hl2 as <-. done.
    - exists l2. split; [|done]. rewrite Hu2. by rewrite lookup_insert_ne. }
  destruct Hl3 as (l3 & Hl3 & Hv3).
  assert (Hr3 : r3 = (r2.1.1,
        {| res_status := 429; res_success := false;
           res_message := "You can only send 2 message requests per hour to the same lawyer";
           res_chatId := None |}, [])).
  { unfold r3. apply (sendDirectMessageRequest_429 _ _ _ _ _ lawyerId l3 c3); [done..|].
    by apply third_request_in_window. }
  split; [done|]. intros env4 m4 H4 Hw4. rewrite Hr3. simpl.
  apply sendDirectMessageRequest_200. exists lawyerId, l3, c3.
  split; [done|]. split; [done|]. split; [done|]. split; [done|]. split; [|done].
  apply request_after_window; [done|done|lia|done].
Qed.

End ControllerFacts.

(** ** Handler runs *)
Section GatewayFacts.
Import Model Helpers Gateway.

Variable maxMessages : nat.
Variable windowMs : Z.
Variable createChatRoom :
  list Participant -> string -> option (string * string) -> Db -> option (Chat * Db).

Local Abbreviation step := (Gateway.step maxMessages windowMs createChatRoom).

Ltac gw_unfold :=
  unfold Gateway.step, run, handle, connection, join_chat, join_chat_resume, leave_chat,
    send_message,
    typing_start, typing_stop, consultation_request, case_assigned,
    lawyer_request_sent, citizen_request_sent, request_responded,
    direct_message_request, mark_messages_read, update_status, disconnect,
    tryCatch, bind, gets, modify, emit, ret, throw, save, createRoom, persist,
    rateLimit in *.

Ltac gw_cases :=
  gw_unfold; simpl in *; repeat (case_match; gw_unfold; simpl in *; simplify_eq).

Lemma consultation_update_run socket ps st :
  exists out, consultation_update socket ps st = (Ok tt, st, out).
Proof.
  induction ps as [|p ps [out IH]]; simpl.
  - by exists [].
  - unfold bind. destruct (negb _); unfold emit, ret; rewrite IH; eauto.
Qed.

(** Apart from [join_chat], [leave_chat] and [disconnect], no handler
    writes the registry, and none but [disconnect] shrinks the set of
    connected sockets. *)
Lemma step_registry env socket ev st :
  activeChatRooms (step env socket ev st).1 =
  match ev with
  | JoinChat chatId =>
    if validateChatAccess chatId (userId socket) (db st)
    then registryAdd (id socket) chatId (activeChatRooms st)
    else activeChatRooms st
  | LeaveChat chatId => registryRemove (id socket) chatId (activeChatRooms st)
  | Disconnect => registryDrop (id socket) (activeChatRooms st)
  | _ => activeChatRooms st
  end.
Proof.
  destruct ev;
    try (unfold Gateway.step, run, handle;
         destruct (consultation_update_run socket participants0 st) as [out ->]; done);
    gw_cases; done.
Qed.

Lemma step_connected env socket ev st :
  dom (activeUsers (step env socket ev st).1) =
  match ev with
  | Connection => {[id socket]} ∪ dom (activeUsers st)
  | Disconnect => dom (activeUsers st) ∖ {[id socket]}
  | _ => dom (activeUsers st)
  end.
Proof.
  destruct ev;
    try (unfold Gateway.step, run, handle;
         destruct (consultation_update_run socket participants0 st) as [out ->]; done);
    gw_cases; rewrite ?dom_insert_L, ?dom_delete_L; try done.
  unfold setActiveUsers; simpl. rewrite dom_insert_L.
  apply set_eq. intros x. rewrite elem_of_union, elem_of_singleton.
  split; [|tauto]. intros [->|]; [|done]. apply elem_of_dom. eauto.
Qed.

(** A handler that runs from its event to its end with no other handler
    in between keeps each registry entry a non-empty set of connected
    sockets; [join_chat] of a member puts the socket into the entry of the
    room (creating it when absent); [leave_chat] takes the socket out of
    that entry and [disconnect] out of every entry, and an entry left empty
    is deleted.  ([join_chat] is the one handler that suspends before it
    writes the registry: for its two halves see [join_chat_resume].) *)
Lemma uninterrupted_step_keeps_registryInv env socket ev st :
  registryInv st ->
  ev = Connection ∨ id socket ∈ dom (activeUsers st) ->
  let st' := (step env socket ev st).1 in
  registryInv st'
  ∧ (forall chatId, ev = JoinChat chatId ->
       validateChatAccess chatId (userId socket) (db st) = true ->
       activeChatRooms st' !! chatId =
         Some (members chatId (activeChatRooms st) ∪ {[id socket]}))
  ∧ (forall chatId k, ev = LeaveChat chatId ->
       activeChatRooms st' !! k =
         if decide (k = chatId)
         then activeChatRooms st !! k ≫= withoutSocket (id socket)
         else activeChatRooms st !! k)
  ∧ (forall k, ev = Disconnect ->
       activeChatRooms st' !! k = activeChatRooms st !! k ≫= withoutSocket (id socket)).
Proof.
  intros Hinv Hconn st'. subst st'. split; [|split; [|split]].
  - intros k s. rewrite step_connected, step_registry. intros Hk.
    assert (Hreg : forall s0, activeChatRooms st !! k = Some s0 ->
              s0 ≠ ∅ ∧ s0 ⊆ dom (activeUsers st)) by (intros; by eapply Hinv).
    destruct ev; try (destruct (Hreg _ Hk); split; [done|set_solver]).
    + destruct (validateChatAccess _ _ _); [|by apply Hreg].
      rewrite registryAdd_lookup in Hk. case_decide; [|by apply Hreg].
      simplify_eq. destruct Hconn as [|Hin]; [done|]. split; [set_solver|].
      unfold members. destruct (activeChatRooms st !! chatId0) as [s0|] eqn:E; simpl.
      * destruct (Hreg _ eq_refl). set_solver.
      * set_solver.
    + rewrite registryRemove_lookup in Hk. case_decide; [|by apply Hreg].
      destruct (activeChatRooms st !! k) as [s0|] eqn:E; [|done]. simpl in Hk.
      apply withoutSocket_Some in Hk as [-> ?]. destruct (Hreg _ eq_refl).
      split; [done|set_solver].
    + rewrite registryDrop_lookup in Hk.
      destruct (activeChatRooms st !! k) as [s0|] eqn:E; [|done]. simpl in Hk.
      apply withoutSocket_Some in Hk as [-> ?]. destruct (Hreg _ eq_refl).
      split; [done|set_solver].
  - intros chatId -> Hacc. rewrite step_registry, Hacc, registryAdd_lookup.
    by rewrite decide_True.
  - intros chatId k ->. by rewrite step_registry, registryRemove_lookup.
  - intros k ->. by rewrite step_registry, registryDrop_lookup.
Qed.

(** *** [send_message] *)

Lemma falsy_trim content :
  falsy content || (length (Js.trim (default [] content)) =? 0)%nat =
  (length (Js.trim (default [] content)) =? 0)%nat.
Proof. destruct content as [[|c s]|]; done. Qed.

(** The run of [send_message], branch by branch. *)
Lemma send_message_run env socket md st :
  step env socket (SendMessage md) st =
  let chatId := md_chatId md in
  let content := rawContent md in
  let toSender e := [(ToSocket (id socket), e)] in
  if (length (Js.trim content) =? 0)%nat then
    (st, toSender (EvError "Message content cannot be empty" None))
  else if (1000 <? length content)%nat then
    (st, toSender (EvError "Message too long. Maximum 1000 characters." None))
  else
    let chk := checkMessageRateLimit maxMessages windowMs (now env) (userId socket)
                                     (rateWindows st) in
    let st1 := setRateWindows chk.2 st in
    if negb chk.1 then
      (st1, toSender (EvError "Message rate limit exceeded. Please slow down." None))
    else if negb (validateChatAccess chatId (userId socket) (db st)) then
      (st1, toSender (EvError "Chat not found or access denied" None))
    else
      match saveMessageToDatabase env chatId (userId socket) content
                                  (default "text"%string (md_messageType md)) (db st) with
      | Some (m, db') =>
        (setDb db' st1,
         [ (IoTo chatId,
            EvNewMessage {| _id := Some (m_id m); tempId := None; msg_chatId := chatId;
                            msg_content := m_content m;
                            msg_messageType := Some (m_messageType m);
                            msg_sender := {| s_id := userId socket;
                                             s_name := userName socket;
                                             s_role := userRole socket |};
                            msg_timestamp := m_timestamp m;
                            msg_isRead := Some (m_isRead m);
                            msg_status := None |});
           (ToSocket (id socket),
            EvMessageSent {| ms_success := true; ms_messageId := m_id m;
                             ms_timestamp := m_timestamp m; ms_tempId := None |}) ])
      | None =>
        (st1, toSender (EvError "Failed to send message" (errorDetails env)))
      end.
Proof.
  unfold Gateway.step, run, handle, send_message, tryCatch, rawContent.
  rewrite falsy_trim. simpl.
  destruct (_ =? 0)%nat; [done|]. destruct (_ <? _)%nat; [done|].
  unfold bind, rateLimit, gets, persist, emit.
  destruct (checkMessageRateLimit _ _ _ _ _) as [[] w]; simpl; [|done].
  destruct (validateChatAccess _ _ _); simpl; [|done].
  destruct (saveMessageToDatabase _ _ _ _ _ _) as [[m db']|]; simpl; done.
Qed.

Lemma newMessagesTo_error st sid t reason details :
  newMessagesTo st sid [(t, EvError reason details)] = 0%nat.
Proof. done. Qed.

(** C3: a [send_message] that fails (body empty after trimming, body
    longer than 1000, sender over the rate limit, sender not a member of
    the room, or the store rejecting the write) emits one [error] with its
    reason to the sending socket and nothing else, leaves the store as it
    was and broadcasts nothing; and whenever a [new_message] is broadcast,
    the write has succeeded and the broadcast message is the stored one. *)
Theorem failed_send_reaches_the_sender_only env socket md st :
  let res := step env socket (SendMessage md) st in
  (Js.trim (rawContent md) = []
   ∨ (1000 < length (rawContent md))%nat
   ∨ (checkMessageRateLimit maxMessages windowMs (now env) (userId socket)
                            (rateWindows st)).1 = false
   ∨ validateChatAccess (md_chatId md) (userId socket) (db st) = false
   ∨ storeWriteOk env = false ->
   (exists reason details,
      res.2 = [(ToSocket (id socket), EvError reason details)]
      ∧ In reason sendErrors)
   ∧ db res.1 = db st
   ∧ rooms res.1 = rooms st
   ∧ forall sid, newMessagesTo res.1 sid res.2 = 0%nat)
  ∧ (forall t m, In (t, EvNewMessage m) res.2 ->
       storeWriteOk env = true
       ∧ exists saved,
           saveMessageToDatabase env (md_chatId md) (userId socket) (rawContent md)
             (default "text"%string (md_messageType md)) (db st) = Some (saved, db res.1)
           ∧ persisted (db res.1) (md_chatId md) saved
           ∧ _id m = Some (m_id saved)
           ∧ msg_content m = m_content saved).
Proof.
  assert (Hfail : forall st' reason details,
    let res := (st', [(ToSocket (id socket), EvError reason details)]) in
    db st' = db st -> rooms st' = rooms st ->
    In reason sendErrors ->
    ((exists reason details,
        res.2 = [(ToSocket (id socket), EvError reason details)]
        ∧ In reason sendErrors)
     ∧ db res.1 = db st ∧ rooms res.1 = rooms st
     ∧ forall sid, newMessagesTo res.1 sid res.2 = 0%nat)
    ∧ (forall t m, In (t, EvNewMessage m) res.2 -> False)).
  { intros st' reason details res Hdb Hrooms Hin. split.
    - split; [by exists reason, details|]. done.
    - intros t m [[=]|[]]. }
  intros res. subst res. rewrite send_message_run. cbv zeta.
  destruct (length (Js.trim (rawContent md)) =? 0)%nat eqn:Etrim.
  { edestruct Hfail as [H1 H2]; [| |by left|]; [done..|].
    split; [intros _; exact H1 | intros t m H; destruct (H2 t m H)]. }
  destruct (1000 <? length (rawContent md))%nat eqn:Elen.
  { edestruct Hfail as [H1 H2]; [| |by right; left|]; [done..|].
    split; [intros _; exact H1 | intros t m H; destruct (H2 t m H)]. }
  destruct (checkMessageRateLimit _ _ _ _ _) as [[] w] eqn:Erate; simpl.
  2:{ edestruct Hfail as [H1 H2]; [| |by right; right; left|]; [done..|].
      split; [intros _; exact H1 | intros t m H; destruct (H2 t m H)]. }
  destruct (validateChatAccess _ _ _) eqn:Eacc; simpl.
  2:{ edestruct Hfail as [H1 H2]; [| |by right; right; right; left|]; [done..|].
      split; [intros _; exact H1 | intros t m H; destruct (H2 t m H)]. }
  destruct (saveMessageToDatabase _ _ _ _ _ _) as [[saved db']|] eqn:Esave; simpl.
  2:{ edestruct Hfail as [H1 H2]; [| |by right; right; right; right; left|]; [done..|].
      split; [intros _; exact H1 | intros t m H; destruct (H2 t m H)]. }
  pose proof (saveMessageToDatabase_Some _ _ _ _ _ _ _ _ Esave) as (Hw & Hm & c & Hc & Hc').
  split.
  - intros [H|[H|[H|[H|H]]]]; exfalso.
    + rewrite H in Etrim. done.
    + apply Nat.ltb_ge in Elen. lia.
    + done.
    + done.
    + congruence.
  - intros t m [[= <- <-]|[[=]|[]]]. split; [done|]. exists saved.
    split; [done|]. split; [|done]. eexists. split; [exact Hc'|]. simpl.
    apply in_or_app. right. by left.
Qed.

(** *** [join_chat] and [mark_messages_read] *)

Lemma join_chat_run env socket chatId st :
  step env socket (JoinChat chatId) st =
  if negb (validateChatAccess chatId (userId socket) (db st)) then
    (st, [(ToSocket (id socket), EvError "Access denied to chat room" None)])
  else
    let st1 := setActiveChatRooms (registryAdd (id socket) chatId (activeChatRooms st))
                 (setRooms (socketJoin (id socket) chatId (rooms st)) st) in
    match findOne chatId (chats (db st)) with
    | Some c =>
      if storeWriteOk env then
        (setDb (setChats (saveChat (markAsRead (userId socket) None c) (chats (db st)))
                         (db st)) st1,
         [ (SocketTo (id socket) chatId, EvMessagesRead chatId (userId socket) None);
           (ToSocket (id socket), EvChatJoined chatId true) ])
      else (st1, [(ToSocket (id socket), EvError "Failed to join chat" None)])
    | None => (st1, [(ToSocket (id socket), EvChatJoined chatId true)])
    end.
Proof. gw_cases; done. Qed.

Lemma mark_messages_read_run env socket chatId messageIds st :
  step env socket (MarkMessagesRead chatId messageIds) st =
  if negb (validateChatAccess chatId (userId socket) (db st)) then (st, [])
  else
    match findOne chatId (chats (db st)) with
    | Some c =>
      if storeWriteOk env then
        (setDb (setChats (saveChat (markAsRead (userId socket) messageIds c)
                                   (chats (db st))) (db st)) st,
         [ (SocketTo (id socket) chatId,
            EvMessagesRead chatId (userId socket) messageIds) ])
      else (st, [])
    | None => (st, [])
    end.
Proof. gw_cases; done. Qed.

(** C2, as the gateway has it: for a user who is not in the participant
    set of a room (whether or not the room exists), [join_chat] is answered
    with the error "Access denied to chat room" and changes nothing;
    [send_message] with a body that passes validation, from a sender within
    the rate limit, is answered with "Chat not found or access denied" and
    stores and broadcasts nothing; [mark_messages_read] is ignored in
    silence: nothing is emitted and nothing changes. *)
Theorem non_member_is_denied_or_ignored env socket chatId st :
  notParticipant (db st) chatId (userId socket) ->
  step env socket (JoinChat chatId) st =
    (st, [(ToSocket (id socket), EvError "Access denied to chat room" None)])
  ∧ (forall md,
       md_chatId md = chatId ->
       Js.trim (rawContent md) ≠ [] ->
       (length (rawContent md) <= 1000)%nat ->
       (checkMessageRateLimit maxMessages windowMs (now env) (userId socket)
                              (rateWindows st)).1 = true ->
       let res := step env socket (SendMessage md) st in
       res.2 = [(ToSocket (id socket), EvError "Chat not found or access denied" None)]
       ∧ db res.1 = db st ∧ rooms res.1 = rooms st
       ∧ activeChatRooms res.1 = activeChatRooms st)
  ∧ (forall messageIds,
       step env socket (MarkMessagesRead chatId messageIds) st = (st, [])).
Proof.
  intros Hn. apply validateChatAccess_false in Hn. split; [|split].
  - by rewrite join_chat_run, Hn.
  - intros md <- Htrim Hlen Hrate res. subst res. rewrite send_message_run. cbv zeta.
    destruct (length (Js.trim (rawContent md)) =? 0)%nat eqn:E.
    { apply Nat.eqb_eq in E. by destruct (Js.trim (rawContent md)). }
    destruct (1000 <? length (rawContent md))%nat eqn:E2.
    { apply Nat.ltb_lt in E2. lia. }
    rewrite Hrate, Hn. done.
  - intros messageIds. by rewrite mark_messages_read_run, Hn.
Qed.

(** *** Delivery *)

Lemma validateChatAccess_saveChat chatId userId db c c' :
  findOne chatId (chats db) = Some c ->
  Model.chatId c' = chatId -> participants c' = participants c ->
  validateChatAccess chatId userId (setChats (saveChat c' (chats db)) db) =
  validateChatAccess chatId userId db.
Proof.
  intros Hc Hid Hp. unfold validateChatAccess. simpl.
  rewrite (findOne_saveChat _ _ c c') by done. by rewrite Hc, Hp.
Qed.

(** A join leaves the membership of the joiner as the guard sees it. *)
Lemma join_keeps_access env socket chatId st :
  validateChatAccess chatId (userId socket) (db st) = true ->
  validateChatAccess chatId (userId socket)
    (db (step env socket (JoinChat chatId) st).1) = true.
Proof.
  intros Hacc. rewrite join_chat_run, Hacc. simpl.
  pose proof Hacc as Hacc'. apply validateChatAccess_true in Hacc' as (c & Hc & _).
  rewrite Hc. destruct (storeWriteOk env); simpl; [|done].
  rewrite (validateChatAccess_saveChat _ _ _ c); [done..| |done].
  simpl. by eapply findOne_chatId.
Qed.

Lemma join_rooms env socket chatId st :
  validateChatAccess chatId (userId socket) (db st) = true ->
  rooms (step env socket (JoinChat chatId) st).1 =
  socketJoin (id socket) chatId (rooms st).
Proof.
  intros Hacc. rewrite join_chat_run, Hacc. simpl.
  destruct (findOne _ _); [destruct (storeWriteOk env)|]; done.
Qed.

Lemma join_rateWindows env socket chatId st :
  rateWindows (step env socket (JoinChat chatId) st).1 = rateWindows st.
Proof.
  rewrite join_chat_run. destruct (negb _); [done|]. simpl.
  destruct (findOne _ _); [destruct (storeWriteOk env)|]; done.
Qed.

(** C8: [join_chat] by a member of the room puts the socket into the
    broadcast group of the room (socket.io's room and the registry entry),
    whatever the store does afterwards.  When the store accepts the write
    of the read marks, the stored room is the old one with the messages
    unread for the joiner marked read, so none is left unread for them;
    [messages_read], naming the room and the reader, is sent with
    [socket.to]: it reaches the sockets of the room that are not in the
    room named after the socket id of the joiner, which for a joiner that
    is alone in that room are the sockets of the room other than its own;
    and the joiner gets [chat_joined] with [success: true].  When the store
    rejects the write, nothing is marked, nobody is notified and the joiner
    gets the error [Failed to join chat] instead of the confirmation. *)
Theorem member_join_marks_read_and_confirms env socket chatId st :
  validateChatAccess chatId (userId socket) (db st) = true ->
  let res := step env socket (JoinChat chatId) st in
  members chatId (rooms res.1) = members chatId (rooms st) ∪ {[id socket]}
  ∧ members chatId (activeChatRooms res.1) =
      members chatId (activeChatRooms st) ∪ {[id socket]}
  ∧ (storeWriteOk env = true ->
     (exists c, findOne chatId (chats (db st)) = Some c
        ∧ findOne chatId (chats (db res.1)) = Some (markAsRead (userId socket) None c)
        ∧ forall m, In m (messages (markAsRead (userId socket) None c)) ->
            unreadFor (userId socket) m = false)
     ∧ res.2 = [ (SocketTo (id socket) chatId,
                  EvMessagesRead chatId (userId socket) None);
                 (ToSocket (id socket), EvChatJoined chatId true) ]
     ∧ (forall sid, sid ∈ recipients res.1 (SocketTo (id socket) chatId)
                    <-> sid ∈ members chatId (rooms st) ∪ {[id socket]}
                        ∧ sid ∉ members (id socket) (rooms res.1))
     ∧ (members (id socket) (rooms st) = {[id socket]} ->
        recipients res.1 (SocketTo (id socket) chatId) =
          members chatId (rooms st) ∖ {[id socket]})
     ∧ recipients res.1 (ToSocket (id socket)) = {[id socket]})
  ∧ (storeWriteOk env = false ->
     db res.1 = db st
     ∧ res.2 = [(ToSocket (id socket), EvError "Failed to join chat" None)]).
Proof.
  intros Hacc res.
  assert (Hroom : members chatId (socketJoin (id socket) chatId (rooms st)) =
                  members chatId (rooms st) ∪ {[id socket]}).
  { unfold socketJoin, members at 1. by rewrite lookup_insert_eq. }
  assert (Hrooms : rooms res.1 = socketJoin (id socket) chatId (rooms st))
    by by apply join_rooms.
  split; [by rewrite Hrooms|]. split.
  { unfold members at 1. subst res.
    rewrite step_registry, Hacc, registryAdd_lookup. by rewrite decide_True. }
  pose proof Hacc as Hacc'. apply validateChatAccess_true in Hacc' as (c & Hc & _).
  split.
  - intros Hw. subst res. rewrite join_chat_run, Hacc. simpl.
    rewrite Hc, Hw. simpl. split.
    { exists c. split; [done|]. split.
      - apply (findOne_saveChat _ _ c); [done|]. simpl. by eapply findOne_chatId.
      - intros m Hm. simpl in Hm. apply in_map_iff in Hm as (m0 & <- & _).
        unfold unreadFor.
        destruct (negb (m_sender m0 =? userId socket)%string) eqn:E1;
          simpl; [|by rewrite E1].
        destruct (m_isRead m0) eqn:E2; simpl; [by rewrite E1, E2|]. by rewrite E1. }
    split; [done|]. split.
    { intros sid. cbn [recipients]. rewrite Hroom. set_solver. }
    split; [|done]. intros Hown. rewrite Hroom.
    assert (Hself : members (id socket) (socketJoin (id socket) chatId (rooms st))
                    = {[id socket]}).
    { unfold socketJoin, members at 1.
      destruct (decide (id socket = chatId)) as [Heq|Hne].
      - rewrite <- Heq at 1. rewrite lookup_insert_eq. simpl.
        rewrite <- Heq, Hown. set_solver.
      - rewrite lookup_insert_ne by done. exact Hown. }
    rewrite Hself. set_solver.
  - intros Hw. subst res. rewrite join_chat_run, Hacc. simpl.
    by rewrite Hc, Hw.
Qed.

(** *** Trimming *)

Lemma trimStart_blank s : forallb Js.isWhiteSpace s = true -> Js.trimStart s = [].
Proof.
  induction s as [|c s IH]; simpl; [done|].
  intros H. apply andb_prop in H as [-> H]. by apply IH.
Qed.

Lemma trim_blank s : forallb Js.isWhiteSpace s = true -> Js.trim s = [].
Proof. intros H. unfold Js.trim. by rewrite trimStart_blank. Qed.

(** C5: a member joins a room and at once sends a message that passes
    validation and the rate limit and that the store accepts: the sender's
    socket is in the room, every socket joined to the room, the sender's
    included, receives exactly one [new_message], and no other socket
    receives one. *)
Theorem join_then_send_delivers_once env1 env2 socket chatId md st :
  validateChatAccess chatId (userId socket) (db st) = true ->
  md_chatId md = chatId ->
  Js.trim (rawContent md) ≠ [] ->
  (length (rawContent md) <= 1000)%nat ->
  (checkMessageRateLimit maxMessages windowMs (now env2) (userId socket)
                         (rateWindows st)).1 = true ->
  storeWriteOk env2 = true ->
  let joined := (step env1 socket (JoinChat chatId) st).1 in
  let res := step env2 socket (SendMessage md) joined in
  id socket ∈ members chatId (rooms res.1)
  ∧ members chatId (rooms res.1) = members chatId (rooms st) ∪ {[id socket]}
  ∧ forall sid,
      newMessagesTo res.1 sid res.2 =
      if decide (sid ∈ members chatId (rooms res.1)) then 1%nat else 0%nat.
Proof.
  intros Hacc <- Htrim Hlen Hrate Hw joined res.
  assert (Hacc1 : validateChatAccess (md_chatId md) (userId socket) (db joined) = true)
    by by apply join_keeps_access.
  assert (Hrooms : rooms joined = socketJoin (id socket) (md_chatId md) (rooms st))
    by by apply join_rooms.
  assert (Hrw : rateWindows joined = rateWindows st) by apply join_rateWindows.
  subst res. rewrite send_message_run. cbv zeta.
  destruct (length (Js.trim (rawContent md)) =? 0)%nat eqn:E.
  { apply Nat.eqb_eq in E. by destruct (Js.trim (rawContent md)). }
  destruct (1000 <? length (rawContent md))%nat eqn:E2.
  { apply Nat.ltb_lt in E2. lia. }
  rewrite Hrw, Hrate, Hacc1. simpl.
  destruct (saveMessageToDatabase_is_Some env2 (md_chatId md) (userId socket)
              (rawContent md) (default "text"%string (md_messageType md)) (db joined)
              Hw Hacc1) as (m & db' & ->).
  simpl. rewrite Hrooms.
  assert (Hmem : members (md_chatId md) (socketJoin (id socket) (md_chatId md) (rooms st))
                 = members (md_chatId md) (rooms st) ∪ {[id socket]}).
  { unfold socketJoin, members at 1. by rewrite lookup_insert_eq. }
  split; [rewrite Hmem; set_solver|]. split; [done|].
  intros sid. unfold newMessagesTo. simpl. rewrite Hrooms.
  case_decide as Hin.
  - by rewrite bool_decide_eq_true_2.
  - by rewrite bool_decide_eq_false_2.
Qed.

(** C10: emptiness is judged on the trimmed body and the bound of 1000 on
    the raw one, and the raw body is what is stored and broadcast.  A body
    of white space only is rejected as empty; a body longer than 1000 code
    units is rejected as too long however short its trimmed form; a body of
    at most 1000 code units that is not blank passes both checks, and once
    the limiter, the guard and the store let it through, the stored and the
    broadcast message carry it untrimmed. *)
Theorem validation_trims_for_emptiness_only env socket md st :
  let res := step env socket (SendMessage md) st in
  (forallb Js.isWhiteSpace (rawContent md) = true ->
   res = (st, [(ToSocket (id socket), EvError "Message content cannot be empty" None)]))
  ∧ (Js.trim (rawContent md) ≠ [] -> (1000 < length (rawContent md))%nat ->
     res = (st, [(ToSocket (id socket),
                  EvError "Message too long. Maximum 1000 characters." None)]))
  ∧ (Js.trim (rawContent md) ≠ [] -> (length (rawContent md) <= 1000)%nat ->
     (forall t reason details, In (t, EvError reason details) res.2 ->
        reason ≠ "Message content cannot be empty"%string
        ∧ reason ≠ "Message too long. Maximum 1000 characters."%string)
     ∧ ((checkMessageRateLimit maxMessages windowMs (now env) (userId socket)
                               (rateWindows st)).1 = true ->
        validateChatAccess (md_chatId md) (userId socket) (db st) = true ->
        storeWriteOk env = true ->
        exists saved new,
          res.2 = [ (IoTo (md_chatId md), EvNewMessage new);
                    (ToSocket (id socket),
                     EvMessageSent {| ms_success := true; ms_messageId := m_id saved;
                                      ms_timestamp := now env; ms_tempId := None |}) ]
          ∧ persisted (db res.1) (md_chatId md) saved
          ∧ m_content saved = rawContent md
          ∧ msg_content new = rawContent md)).
Proof.
  intros res. subst res. rewrite send_message_run. cbv zeta. split; [|split].
  - intros Hb. by rewrite trim_blank.
  - intros Htrim Hlen.
    destruct (length (Js.trim (rawContent md)) =? 0)%nat eqn:E.
    { apply Nat.eqb_eq in E. by destruct (Js.trim (rawContent md)). }
    apply Nat.ltb_lt in Hlen. by rewrite Hlen.
  - intros Htrim Hlen.
    destruct (length (Js.trim (rawContent md)) =? 0)%nat eqn:E.
    { apply Nat.eqb_eq in E. by destruct (Js.trim (rawContent md)). }
    destruct (1000 <? length (rawContent md))%nat eqn:E2.
    { apply Nat.ltb_lt in E2. lia. }
    split.
    + intros t reason details.
      destruct (checkMessageRateLimit _ _ _ _ _) as [[] w]; simpl;
        [|by intros [[= <- <- <-]|[]]].
      destruct (validateChatAccess _ _ _); simpl; [|by intros [[= <- <- <-]|[]]].
      destruct (saveMessageToDatabase _ _ _ _ _ _) as [[m db']|]; simpl.
      * by intros [[=]|[[=]|[]]].
      * by intros [[= <- <- <-]|[]].
    + intros Hrate Hacc Hw. rewrite Hrate, Hacc. simpl.
      destruct (saveMessageToDatabase_is_Some env (md_chatId md) (userId socket)
                  (rawContent md) (default "text"%string (md_messageType md)) (db st)
                  Hw Hacc) as (m & db' & Hs).
      rewrite Hs. simpl.
      apply saveMessageToDatabase_Some in Hs as (_ & Hm & c & Hc & Hc').
      eexists m, _. split; [by subst m|]. split; [|by subst m].
      eexists. split; [exact Hc'|]. simpl. apply in_or_app. right. by left.
Qed.

(** *** The rate limiter in front of [send_message] *)

Lemma filter_all {A} (P : A -> bool) (l : list A) :
  (forall x, In x l -> P x = true) -> List.filter P l = l.
Proof.
  induction l as [|x l IH]; simpl; [done|]. intros H.
  rewrite (H x) by auto. f_equal. apply IH. auto.
Qed.

Lemma filter_none {A} (P : A -> bool) (l : list A) :
  (forall x, In x l -> P x = false) -> List.filter P l = [].
Proof.
  induction l as [|x l IH]; simpl; [done|]. intros H.
  rewrite (H x) by auto. apply IH. auto.
Qed.

(** The limiter on a window whose entries are either all expired or all
    recent. *)
Lemma checkMessageRateLimit_allowed t u (w : gmap string (list Z)) old recent :
  default [] (w !! u) = old ++ recent ->
  (forall x, In x old -> x <= t - windowMs) ->
  (forall x, In x recent -> t - windowMs < x) ->
  (length recent < maxMessages)%nat ->
  checkMessageRateLimit maxMessages windowMs t u w = (true, <[u := recent ++ [t]]> w).
Proof.
  intros Hw Hold Hrec Hlen. unfold checkMessageRateLimit.
  rewrite Hw, List.filter_app.
  rewrite (filter_none _ old) by (intros x Hx; apply Z.ltb_ge; by apply Hold).
  rewrite (filter_all _ recent) by (intros x Hx; apply Z.ltb_lt; by apply Hrec).
  simpl. by rewrite (proj2 (Nat.ltb_lt _ _) Hlen).
Qed.

Lemma checkMessageRateLimit_full t u (w : gmap string (list Z)) recent :
  w !! u = Some recent ->
  (forall x, In x recent -> t - windowMs < x) ->
  (maxMessages <= length recent)%nat ->
  checkMessageRateLimit maxMessages windowMs t u w = (false, <[u := recent]> w).
Proof.
  intros Hw Hrec Hlen. unfold checkMessageRateLimit. rewrite Hw. simpl.
  rewrite (filter_all _ recent) by (intros x Hx; apply Z.ltb_lt; by apply Hrec).
  by rewrite (proj2 (Nat.ltb_ge _ _) Hlen).
Qed.

(** What a send with a valid body does once the limiter has answered. *)
Lemma send_message_limited env socket md st w :
  validBody md ->
  checkMessageRateLimit maxMessages windowMs (now env) (userId socket) (rateWindows st)
    = (false, w) ->
  step env socket (SendMessage md) st = (setRateWindows w st, [rateLimitError socket]).
Proof.
  intros [Htrim Hlen] Hchk. rewrite send_message_run. cbv zeta.
  destruct (length (Js.trim (rawContent md)) =? 0)%nat eqn:E.
  { apply Nat.eqb_eq in E. by destruct (Js.trim (rawContent md)). }
  destruct (1000 <? length (rawContent md))%nat eqn:E2.
  { apply Nat.ltb_lt in E2. lia. }
  by rewrite Hchk.
Qed.

Lemma send_message_not_limited env socket md st w :
  validBody md ->
  checkMessageRateLimit maxMessages windowMs (now env) (userId socket) (rateWindows st)
    = (true, w) ->
  let res := step env socket (SendMessage md) st in
  rateWindows res.1 = w
  ∧ ~ In (rateLimitError socket) res.2
  ∧ (validateChatAccess (md_chatId md) (userId socket) (db st) = true ->
     storeWriteOk env = true ->
     exists new confirmation,
       res.2 = [ (IoTo (md_chatId md), EvNewMessage new);
                 (ToSocket (id socket), EvMessageSent confirmation) ]).
Proof.
  intros [Htrim Hlen] Hchk res. subst res. rewrite send_message_run. cbv zeta.
  destruct (length (Js.trim (rawContent md)) =? 0)%nat eqn:E.
  { apply Nat.eqb_eq in E. by destruct (Js.trim (rawContent md)). }
  destruct (1000 <? length (rawContent md))%nat eqn:E2.
  { apply Nat.ltb_lt in E2. lia. }
  rewrite Hchk. simpl. unfold rateLimitError.
  destruct (validateChatAccess _ _ _) eqn:Ea; simpl.
  - destruct (saveMessageToDatabase _ _ _ _ _ _) as [[m db']|] eqn:Es; simpl.
    + split; [done|]. split; [by intros [[=]|[[=]|[]]]|]. eauto.
    + split; [done|]. split; [by intros [[=]|[]]|]. intros _ Hw.
      destruct (saveMessageToDatabase_is_Some env (md_chatId md) (userId socket)
                  (rawContent md) (default "text"%string (md_messageType md)) (db st)
                  Hw Ea) as (? & ? & ?). congruence.
  - split; [done|]. split; [by intros [[=]|[]]|]. done.
Qed.

(** While the window has room, the sends of a socket pass the limiter and
    are recorded one after the other. *)
Lemma sendAll_within_limit socket sends : forall st old recent,
  default [] (rateWindows st !! userId socket) = old ++ recent ->
  (forall x e, In x old -> In e sends -> x <= now e.1 - windowMs) ->
  (forall x e, In x recent -> In e sends -> now e.1 - windowMs < x) ->
  (forall e e', In e sends -> In e' sends -> now e'.1 - windowMs < now e.1) ->
  (length recent + length sends <= maxMessages)%nat ->
  (forall e, In e sends -> validBody e.2) ->
  sends ≠ [] ->
  let res := sendAll maxMessages windowMs createChatRoom socket sends st in
  rateWindows res.1 !! userId socket = Some (recent ++ map (fun e => now e.1) sends)
  ∧ forall out, In out res.2 -> ~ In (rateLimitError socket) out.
Proof.
  induction sends as [|[env md] rest IH]; [done|].
  intros st old recent Hw Hold Hrec Hpair Hlen Hvalid _. simpl in *.
  assert (Hchk : checkMessageRateLimit maxMessages windowMs (now env) (userId socket)
                   (rateWindows st)
                 = (true, <[userId socket := recent ++ [now env]]> (rateWindows st))).
  { apply (checkMessageRateLimit_allowed _ _ _ old).
    - done.
    - intros x Hx. apply (Hold x (env, md)); auto.
    - intros x Hx. apply (Hrec x (env, md)); auto.
    - lia. }
  destruct (send_message_not_limited env socket md st _ (Hvalid (env, md) (or_introl eq_refl))
              Hchk) as (Hrw & Hno & _).
  destruct (step env socket (SendMessage md) st) as [st1 out] eqn:Estep. simpl in *.
  destruct rest as [|e' rest'].
  - simpl. split.
    + rewrite Hrw. apply lookup_insert_eq.
    + by intros o [<-|[]].
  - specialize (IH st1 [] (recent ++ [now env])).
    destruct (sendAll _ _ _ _ (e' :: rest') st1) as [st2 outs] eqn:Eall. simpl in *.
    destruct IH as [IH1 IH2].
    + rewrite Hrw. by rewrite lookup_insert_eq.
    + by intros x e [].
    + intros x e Hx He. apply in_app_or in Hx as [Hx|[<-|[]]].
      * apply Hrec; auto.
      * apply (Hpair (env, md) e); auto.
    + intros e1 e2 H1 H2. apply Hpair; auto.
    + rewrite length_app. simpl in *. lia.
    + intros e He. apply Hvalid. auto.
    + done.
    + split.
      * rewrite IH1. by rewrite <- app_assoc.
      * intros o [<-|Ho]; [done|]. by apply IH2.
Qed.

(** C7: the sliding window of the two limiters.  The limiter of sends is
    keyed by the sender: with a limit of [maxMessages] sends per
    [windowMs], when a sender whose earlier sends are older than the window
    sends [maxMessages] messages with valid bodies, to whatever rooms, none
    of them is answered with the rate-limit error; one more send within the
    window of the first of them is answered with the rate-limit error and
    nothing else, and stores nothing; and once the window has passed since
    those sends, a send of that sender passes the limiter again (and is
    delivered when the sender is a member and the store accepts the write).
    The limiter of message requests is keyed by the sender and the lawyer,
    with two requests per hour: for a request that names the lawyer by the
    id as the store spells it, after two accepted requests of a sender to
    that lawyer a third within the hour of the first is answered with 429
    and changes nothing, and a request an hour after the second is answered
    with 200 again. *)
Theorem rate_limit_sliding_window :
  (forall socket sends env md st,
  (0 < maxMessages)%nat ->
  length sends = maxMessages ->
  (forall e, In e sends -> validBody e.2) ->
  validBody md ->
  (forall x e, In x (default [] (rateWindows st !! userId socket)) -> In e sends ->
     x <= now e.1 - windowMs) ->
  (forall e, In e sends -> now env - windowMs < now e.1 ∧ now e.1 <= now env) ->
  let run := sendAll maxMessages windowMs createChatRoom socket sends st in
  let rejected := step env socket (SendMessage md) run.1 in
  (forall out, In out run.2 -> ~ In (rateLimitError socket) out)
  ∧ rejected.2 = [rateLimitError socket]
  ∧ db rejected.1 = db run.1
  ∧ (forall env' md',
       validBody md' ->
       (forall e, In e sends -> now e.1 <= now env' - windowMs) ->
       let again := step env' socket (SendMessage md') rejected.1 in
       ~ In (rateLimitError socket) again.2
       ∧ (validateChatAccess (md_chatId md') (userId socket) (db rejected.1) = true ->
          storeWriteOk env' = true ->
          exists new confirmation,
            again.2 = [ (IoTo (md_chatId md'), EvNewMessage new);
                        (ToSocket (id socket), EvMessageSent confirmation) ])))
  ∧ (forall castObjectId env1 env2 env3 citizenId lawyerId m1 m2 m3 db0,
       castObjectId lawyerId = Some lawyerId ->
       let send := Controller.sendDirectMessageRequest castObjectId in
       let r1 := send env1 citizenId lawyerId m1 db0 in
       let r2 := send env2 citizenId lawyerId m2 r1.1.1 in
       let r3 := send env3 citizenId lawyerId m3 r2.1.1 in
       Controller.res_status r1.1.2 = 200%nat ->
       Controller.res_status r2.1.2 = 200%nat ->
       now env1 <= now env2 -> now env2 <= now env3 -> now env3 - oneHour < now env1 ->
       Controller.res_status r3.1.2 = 429%nat
       ∧ r3.1.1 = r2.1.1
       ∧ forall env4 m4,
           now env2 <= now env4 - oneHour -> storeWriteOk env4 = true ->
           Controller.res_status (send env4 citizenId lawyerId m4 r3.1.1).1.2 = 200%nat).
Proof.
  split.
  2:{ intros castObjectId env1 env2 env3 citizenId lawyerId m1 m2 m3 db0 Hk
        send r1 r2 r3 H1 H2 H12 H23 Hw.
      destruct (message_request_window castObjectId env1 env2 env3 citizenId lawyerId
                  m1 m2 m3 db0 Hk H1 H2 H12 H23 Hw) as [Hr3 Hagain].
      change (Controller.sendDirectMessageRequest castObjectId) with send in Hr3, Hagain.
      fold r1 in Hr3, Hagain. fold r2 in Hr3, Hagain. fold r3 in Hr3, Hagain.
      split; [by rewrite Hr3|]. split; [by rewrite Hr3|].
      done. }
  intros socket sends env md st Hpos Hlen Hvalid Hmd Hold Hwin run rejected.
  assert (Hne : sends ≠ []) by (destruct sends; simpl in *; [lia|done]).
  destruct (sendAll_within_limit socket sends st
              (default [] (rateWindows st !! userId socket)) [])
    as [Hrun Hpass].
  { by rewrite app_nil_r. }
  { done. }
  { by intros x e []. }
  { intros e e' He He'. destruct (Hwin e He), (Hwin e' He'). lia. }
  { simpl. lia. }
  { done. }
  { done. }
  fold run in Hrun, Hpass. simpl in Hrun.
  set (ts := map (fun e : Env * MessageData => now e.1) sends) in *.
  assert (Hts : forall x, In x ts -> exists e, In e sends ∧ x = now e.1).
  { intros x Hx. apply in_map_iff in Hx as (e & <- & He). eauto. }
  assert (Hrej : rejected =
            (setRateWindows (<[userId socket := ts]> (rateWindows run.1)) run.1,
             [rateLimitError socket])).
  { apply send_message_limited; [done|]. apply checkMessageRateLimit_full; [done| |].
    - intros x Hx. destruct (Hts x Hx) as (e & He & ->). by destruct (Hwin e He).
    - unfold ts. rewrite length_map. lia. }
  split; [done|]. split; [by rewrite Hrej|]. split; [by rewrite Hrej|].
  intros env' md' Hmd' Hpast again.
  destruct (send_message_not_limited env' socket md' rejected.1
              (<[userId socket := [] ++ [now env']]> (rateWindows rejected.1)) Hmd')
    as (_ & Hno & Hdel).
  - apply (checkMessageRateLimit_allowed _ _ _ ts).
    + rewrite Hrej. simpl. rewrite lookup_insert_eq. simpl. by rewrite app_nil_r.
    + intros x Hx. destruct (Hts x Hx) as (e & He & ->). by apply Hpast.
    + by intros x [].
    + simpl. lia.
  - split; done.
Qed.

End GatewayFacts.

(** ** The client chat page *)
Section ClientFacts.
Import Client.

Lemma numberToString_nonempty n : Js.numberToString n ≠ ""%string.
Proof.
  unfold Js.numberToString. by destruct (N.to_uint n).
Qed.

(** The optimistic entry that [sendMessage] appends is pending under a
    non-empty correlation id. *)
Lemma sendMessage_pending clock st st' md :
  sendMessage clock st = (st', Some md) ->
  exists x m,
    x ≠ ""%string ∧ Gateway.md_tempId md = Some x
    ∧ messages st' = messages st ++ [m]
    ∧ tempId m = Some x ∧ msg_status m = Some sending ∧ _id m = None.
Proof.
  unfold sendMessage. destruct (_ || _); [done|]. intros [= <- <-].
  eexists _, _. split; [apply numberToString_nonempty|]. done.
Qed.

Lemma truthy_Some x : x ≠ ""%string -> Js.truthy (Some x) = true.
Proof.
  intros Hx. simpl. destruct (String.eqb x "") eqn:E; [|done].
  by apply String.eqb_eq in E.
Qed.

Lemma shown_map_same x (f : Msg -> Msg) (l : list Msg) :
  (forall m, tempId (f m) = tempId m) ->
  length (List.filter (fun msg => bool_decide (tempId msg = Some x)) (map f l)) =
  length (List.filter (fun msg => bool_decide (tempId msg = Some x)) l).
Proof.
  intros Hf. induction l as [|m l IH]; simpl; [done|].
  rewrite Hf. destruct (bool_decide _); simpl; by rewrite IH.
Qed.

(** C6: with a pending optimistic message under the correlation id [x].
    A [new_message] of this chat that carries [x] replaces, in place, each
    entry under [x] by the broadcast message with status [sent] and appends
    nothing; a [message_sent] that carries [x] gives each entry under [x]
    the persistent id and timestamp of the confirmation and the status
    [sent].  On either path, and on the two in either order, the entries
    that do not carry [x] stay as they are and as many messages are shown
    under [x] as before: exactly one when the send put one there. *)
Theorem reconciliation_keeps_one_message x (st : ChatPage) (messageData : Msg)
    (data : Confirmation) :
  x ≠ ""%string ->
  (exists m, In m (messages st) ∧ tempId m = Some x) ->
  msg_chatId messageData = chatId st ->
  tempId messageData = Some x ->
  ms_tempId data = Some x ->
  let replace (msg : Msg) :=
    if bool_decide (tempId msg = Some x) then withStatus sent messageData else msg in
  let confirm (msg : Msg) :=
    if bool_decide (tempId msg = Some x) then confirmed data msg else msg in
  messages (on_new_message messageData st) = map replace (messages st)
  ∧ messages (on_message_sent data st) = map confirm (messages st)
  ∧ messages (on_new_message messageData (on_message_sent data st))
      = map replace (map confirm (messages st))
  ∧ messages (on_message_sent data (on_new_message messageData st))
      = map confirm (map replace (messages st))
  ∧ (forall msg, tempId msg = Some x ->
       replace msg = withStatus sent messageData
       ∧ msg_status (replace msg) = Some sent
       ∧ _id (confirm msg) = Some (ms_messageId data)
       ∧ msg_timestamp (confirm msg) = ms_timestamp data
       ∧ msg_status (confirm msg) = Some sent
       ∧ msg_content (confirm msg) = msg_content msg)
  ∧ (forall msg, tempId msg ≠ Some x -> replace msg = msg ∧ confirm msg = msg)
  ∧ (forall st', In st' [ on_new_message messageData st;
                          on_message_sent data st;
                          on_new_message messageData (on_message_sent data st);
                          on_message_sent data (on_new_message messageData st) ] ->
       length (messages st') = length (messages st)
       ∧ shown x st' = shown x st
       ∧ (shown x st = 1%nat -> shown x st' = 1%nat)).
Proof.
  intros Hx (m0 & Hin & Hm0) Hchat Htemp Hdata replace confirm.
  assert (Hnew : forall st0, chatId st0 = chatId st ->
            (exists m, In m (messages st0) ∧ tempId m = Some x) ->
            messages (on_new_message messageData st0) = map replace (messages st0)).
  { intros st0 Hc (m & Hm & Hmx). unfold on_new_message.
    rewrite Hchat, <- Hc, String.eqb_refl. simpl.
    assert (existsb (fun msg => bool_decide (_id msg = _id messageData)
                       || (Js.truthy (tempId msg)
                           && bool_decide (tempId msg = tempId messageData)))
                    (messages st0) = true) as ->.
    { apply existsb_exists. exists m. split; [done|]. cbv beta.
      rewrite Hmx, Htemp. rewrite (truthy_Some x Hx).
      rewrite (bool_decide_eq_true_2 (Some x = Some x)) by done. apply orb_true_r. }
    unfold replace. by rewrite Htemp. }
  assert (Hsent : forall st0,
            messages (on_message_sent data st0) = map confirm (messages st0)).
  { intros st0. unfold on_message_sent. by rewrite Hdata, (truthy_Some x Hx). }
  assert (Hrep : forall m, tempId (replace m) = tempId m).
  { intros m. unfold replace. case_bool_decide as E; [|done]. simpl. congruence. }
  assert (Hcon : forall m, tempId (confirm m) = tempId m).
  { intros m. unfold confirm. by case_bool_decide. }
  assert (H1 : messages (on_new_message messageData st) = map replace (messages st))
    by (apply Hnew; eauto).
  assert (H2 : messages (on_new_message messageData (on_message_sent data st))
               = map replace (map confirm (messages st))).
  { rewrite Hnew.
    - by rewrite Hsent.
    - unfold on_message_sent. by destruct (Js.truthy _).
    - exists (confirm m0). rewrite Hsent, Hcon. split; [by apply in_map|done]. }
  assert (H3 : messages (on_message_sent data (on_new_message messageData st))
               = map confirm (map replace (messages st))) by by rewrite Hsent, H1.
  split; [done|]. split; [done|]. split; [done|]. split; [done|].
  split.
  { intros msg Hmsg. unfold replace, confirm.
    by rewrite !(bool_decide_eq_true_2 _ Hmsg). }
  split.
  { intros msg Hmsg. unfold replace, confirm.
    by rewrite !(bool_decide_eq_false_2 _ Hmsg). }
  intros st' Hst'.
  assert (Hmsgs : messages st' = map replace (messages st)
                  ∨ messages st' = map confirm (messages st)
                  ∨ messages st' = map replace (map confirm (messages st))
                  ∨ messages st' = map confirm (map replace (messages st))).
  { destruct Hst' as [<- | [<- | [<- | [<- | []]]]]; auto. }
  assert (Hshown : shown x st' = shown x st).
  { unfold shown.
    destruct Hmsgs as [-> | [-> | [-> | ->]]]; by rewrite ?shown_map_same. }
  split; [|split; [done|by rewrite Hshown]].
  destruct Hmsgs as [-> | [-> | [-> | ->]]]; by rewrite ?length_map.
Qed.

End ClientFacts.

(** ** Concrete runs *)
Section Runs.
Import Model Helpers Gateway Scenario.

Lemma start_registry :
  activeChatRooms start = {[ "direct_alice_bob"%string := {[ "socket-b"%string ]} ]}.
Proof. by vm_compute. Qed.

Lemma start_registryInv : registryInv start.
Proof.
  intros k s Hk. rewrite start_registry in Hk.
  apply lookup_singleton_Some in Hk as [<- <-]. split.
  - intros H. apply (f_equal size) in H. by vm_compute in H.
  - apply singleton_subseteq_l, elem_of_dom. vm_compute. eauto.
Defined.

Lemma carol_notParticipant : notParticipant (db start) "direct_alice_bob" "carol".
Proof.
  intros c Hc. vm_compute in Hc. injection Hc as <-. simpl.
  intros [H|[H|[]]]; discriminate H.
Defined.

(** C1 on a concrete send.  Alice's page sends "Hello"; the correlation id
    is ["5000"], the clock reading.  The gateway stores the message under
    the id 1 and broadcasts it; the [message_sent] that Alice gets names
    the id 1 but no correlation id ([tempId] is absent from it and from the
    broadcast message).  Alice's page therefore cannot match either event
    with its optimistic entry: it appends the broadcast copy and ends up
    showing two messages, the first still [sending]. *)
Example confirmation_carries_no_tempId :
  let page := {| Client.chatId := "direct_alice_bob";
                 Client.user := {| s_id := "alice"; s_name := "Alice";
                                   s_role := "citizen" |};
                 Client.connected := true; Client.messages := [];
                 Client.newMessage := Js.ofString "Hello"; Client.isSending := false |} in
  let request := {| md_chatId := "direct_alice_bob";
                    md_content := Some (Js.ofString "Hello");
                    md_messageType := None; md_tempId := Some "5000"%string |} in
  let broadcast := {| _id := Some 1%N; tempId := None;
                      msg_chatId := "direct_alice_bob";
                      msg_content := Js.ofString "Hello";
                      msg_messageType := Some "text"%string;
                      msg_sender := {| s_id := "alice"; s_name := "Alice";
                                       s_role := "citizen" |};
                      msg_timestamp := 5001; msg_isRead := Some false;
                      msg_status := None |} in
  let confirmation := {| ms_success := true; ms_messageId := 1; ms_timestamp := 5001;
                         ms_tempId := None |} in
  let pending := (Client.sendMessage 5000 page).1 in
  (Client.sendMessage 5000 page).2 = Some request
  ∧ (gateway (at_ 5001) alice (SendMessage request) start).2 =
    [ (IoTo "direct_alice_bob", EvNewMessage broadcast);
      (ToSocket "socket-a", EvMessageSent confirmation) ]
  ∧ map msg_status
        (Client.messages
           (Client.on_message_sent confirmation
              (Client.on_new_message broadcast pending)))
    = [Some sending; Some received].
Proof. repeat split; by vm_compute. Qed.

(** C2 does not hold as stated: Carol is not a participant of the room of
    Alice and Bob, which exists, and her [mark_messages_read] on it is
    answered with nothing at all; her [send_message] with a blank body is
    answered with the validation error, not with an access error. *)
Example non_member_mark_read_gets_no_error :
  findOne "direct_alice_bob" (chats (db start)) = Some room
  ∧ existsb (String.eqb "carol") (map p_user (participants room)) = false
  ∧ gateway (at_ 5000) carol (MarkMessagesRead "direct_alice_bob" None) start
    = (start, [])
  ∧ (gateway (at_ 5000) carol (SendMessage (say "   " "t1")) start).2
    = [(ToSocket "socket-c", EvError "Message content cannot be empty" None)].
Proof. repeat split; by vm_compute. Qed.

Example non_member_is_denied_or_ignored_witness :
  gateway (at_ 5000) carol (JoinChat "direct_alice_bob") start
    = (start, [(ToSocket "socket-c", EvError "Access denied to chat room" None)])
  ∧ (gateway (at_ 5000) carol (SendMessage (say "Hello" "t1")) start).2
    = [(ToSocket "socket-c", EvError "Chat not found or access denied" None)]
  ∧ gateway (at_ 5000) carol (MarkMessagesRead "direct_alice_bob" (Some [0%N])) start
    = (start, []).
Proof.
  destruct (non_member_is_denied_or_ignored limit window noRoomService (at_ 5000) carol
              "direct_alice_bob" start carol_notParticipant) as (Hjoin & Hsend & Hread).
  split; [exact Hjoin|]. split; [|exact (Hread _)].
  apply (Hsend (say "Hello" "t1")).
  - reflexivity.
  - by vm_compute.
  - vm_compute. lia.
  - by vm_compute.
Defined.

Example failed_send_reaches_the_sender_only_witness :
  (gateway (storeDownAt 5000) alice (SendMessage (say "Hello" "t1")) start).2
    = [(ToSocket "socket-a", EvError "Failed to send message" None)]
  ∧ db (gateway (storeDownAt 5000) alice (SendMessage (say "Hello" "t1")) start).1
    = db start.
Proof.
  destruct (failed_send_reaches_the_sender_only limit window noRoomService
              (storeDownAt 5000) alice (say "Hello" "t1") start) as [Hfail _].
  destruct Hfail as ((reason & details & Hout & _) & Hdb & _).
  - right. right. right. right. reflexivity.
  - split; [by vm_compute|exact Hdb].
Defined.

Example member_join_marks_read_and_confirms_witness :
  let res := gateway (at_ 5000) alice (JoinChat "direct_alice_bob") start in
  members "direct_alice_bob" (rooms res.1) = {[ "socket-a"; "socket-b" ]}
  ∧ res.2 = [ (SocketTo "socket-a" "direct_alice_bob",
               EvMessagesRead "direct_alice_bob" "alice" None);
              (ToSocket "socket-a", EvChatJoined "direct_alice_bob" true) ]
  ∧ recipients res.1 (SocketTo "socket-a" "direct_alice_bob") = {[ "socket-b" ]}
  ∧ (gateway (storeDownAt 5000) alice (JoinChat "direct_alice_bob") start).2
    = [(ToSocket "socket-a", EvError "Failed to join chat" None)].
Proof.
  intros res.
  destruct (member_join_marks_read_and_confirms limit window noRoomService (at_ 5000)
              alice "direct_alice_bob" start) as (Hroom & _ & Hok & _).
  - by vm_compute.
  - destruct Hok as (_ & Hout & _ & Hto & _); [reflexivity|].
    split; [etransitivity; [exact Hroom|by vm_compute]|]. split; [exact Hout|].
    split; [etransitivity; [apply Hto; by vm_compute|by vm_compute]|].
    by vm_compute.
Defined.

(** C8 does not hold as stated: Alice is a participant of her room with
    Bob and one message of Bob is unread for her; when the store rejects
    the write, her [join_chat] puts her socket into the room and the
    registry entry, but the message stays unread, nobody is notified and
    she gets an error, not the confirmation. *)
Example member_join_is_not_confirmed_when_the_store_fails :
  let res := gateway (storeDownAt 5000) alice (JoinChat "direct_alice_bob") start in
  validateChatAccess "direct_alice_bob" "alice" (db start) = true
  ∧ res.2 = [(ToSocket "socket-a", EvError "Failed to join chat" None)]
  ∧ (fun c => map (unreadFor "alice") (messages c))
      <$> findOne "direct_alice_bob" (chats (db res.1)) = Some [true]
  ∧ members "direct_alice_bob" (rooms res.1) = {[ "socket-a"; "socket-b" ]}
  ∧ members "direct_alice_bob" (activeChatRooms res.1) = {[ "socket-a"; "socket-b" ]}.
Proof. repeat split; by vm_compute. Qed.

Example join_then_send_delivers_once_witness :
  let joined := (gateway (at_ 5000) alice (JoinChat "direct_alice_bob") start).1 in
  let res := gateway (at_ 5001) alice (SendMessage (say "Hello" "t1")) joined in
  newMessagesTo res.1 "socket-a" res.2 = 1%nat
  ∧ newMessagesTo res.1 "socket-b" res.2 = 1%nat
  ∧ newMessagesTo res.1 "socket-c" res.2 = 0%nat.
Proof.
  destruct (join_then_send_delivers_once limit window noRoomService (at_ 5000) (at_ 5001)
              alice "direct_alice_bob" (say "Hello" "t1") start) as (_ & _ & Hcount).
  - by vm_compute.
  - reflexivity.
  - by vm_compute.
  - vm_compute. lia.
  - by vm_compute.
  - reflexivity.
  - split; [|split]; rewrite Hcount; by vm_compute.
Defined.

(** C9 on a concrete run: a [join_chat] that resumes after the disconnect
    of its socket registers a socket that is gone.  Alice, a participant of
    the chat, sends [join_chat]; the handler awaits [validateChatAccess],
    which answers [true].  Before it resumes, Alice's socket disconnects:
    the [disconnect] handler takes the socket out of the table of active
    users and out of the registry, and the invariant holds.  Then the
    handler resumes and, without a look at the connection, adds the socket
    to the registry entry of the chat (whether or not [socket.join] still
    has an effect): the entry now lists a socket that is not connected, so
    the invariant is broken.  No handler of a live socket takes it out
    again: when Bob, the other socket of the entry, disconnects, the entry
    stays, with the socket of Alice alone. *)
Example join_resumed_after_disconnect_registers_a_dead_socket :
  let hasAccess := validateChatAccess "direct_alice_bob" "alice" (db start) in
  let gone := (gateway (at_ 7001) alice Disconnect start).1 in
  let resumed joins :=
    (Gateway.run (join_chat_resume (at_ 7002) alice joins "direct_alice_bob" hasAccess)
       gone).1 in
  let later joins := (gateway (at_ 7003) bob Disconnect (resumed joins)).1 in
  registryInv start
  ∧ (forall st, Gateway.run (join_chat (at_ 7000) alice "direct_alice_bob") st
       = Gateway.run (join_chat_resume (at_ 7000) alice true "direct_alice_bob"
                        (validateChatAccess "direct_alice_bob" "alice" (db st))) st)
  ∧ hasAccess = true
  ∧ registryInv gone
  ∧ (id alice ∉ dom (activeUsers gone))
  ∧ (forall joins,
       (id alice ∉ dom (activeUsers (resumed joins)))
       ∧ activeChatRooms (resumed joins) !! "direct_alice_bob"
         = Some ({[ id alice; id bob ]} : gset string)
       ∧ ~ registryInv (resumed joins)
       ∧ dom (activeUsers (later joins)) = {[ id carol ]}
       ∧ activeChatRooms (later joins) !! "direct_alice_bob"
         = Some ({[ id alice ]} : gset string)
       ∧ ~ registryInv (later joins)).
Proof.
  intros hasAccess gone resumed later.
  split; [exact start_registryInv|]. split.
  { intros st. unfold Gateway.run, join_chat, bind, gets.
    by destruct (join_chat_resume _ _ _ _ _ st) as [[r st'] out]. }
  split; [by vm_compute|]. split.
  { apply (uninterrupted_step_keeps_registryInv limit window noRoomService (at_ 7001)
             alice Disconnect start start_registryInv).
    right. apply elem_of_dom. vm_compute. eauto. }
  split; [refine (bool_decide_unpack _ _); by vm_compute|].
  intros joins.
  assert (Hdead : id alice ∉ dom (activeUsers (resumed joins)))
    by (destruct joins; refine (bool_decide_unpack _ _); by vm_compute).
  assert (Hentry : activeChatRooms (resumed joins) !! "direct_alice_bob"
                   = Some ({[ id alice; id bob ]} : gset string))
    by (destruct joins; refine (bool_decide_unpack _ _); by vm_compute).
  assert (Hlater : activeChatRooms (later joins) !! "direct_alice_bob"
                   = Some ({[ id alice ]} : gset string))
    by (destruct joins; refine (bool_decide_unpack _ _); by vm_compute).
  assert (Hconn : dom (activeUsers (later joins)) = {[ id carol ]})
    by (destruct joins; refine (bool_decide_unpack _ _); by vm_compute).
  split; [done|]. split; [done|]. split.
  { intros Hinv. destruct (Hinv _ _ Hentry) as [_ Hsub]. apply Hdead, Hsub. set_solver. }
  split; [done|]. split; [done|].
  intros Hinv. destruct (Hinv _ _ Hlater) as [_ Hsub]. rewrite Hconn in Hsub.
  assert (Hin : id alice ∈ ({[ id carol ]} : gset string)) by (apply Hsub; set_solver).
  apply elem_of_singleton in Hin. discriminate Hin.
Qed.

(** C4 on a concrete pair: a request that spells the id of the lawyer
    differently opens a second room for the same two users.  Carol asks
    Bob, naming him by his id as the store spells it: 200, and a room of
    Carol and Bob under the key built from the two ids.  Carol asks again,
    with the same id in capital letters.  Mongoose casts the parameter to
    the id of Bob, so the lawyer is found; the key is built from the
    parameter as it came, no room has that key, and a second room of Carol
    and Bob is made under it, also answered with 200.  (A further request
    in the spelling of the second finds that second room and adds none.) *)
Example respelled_request_opens_a_second_room :
  let send := Controller.sendDirectMessageRequest Mongo.castObjectId in
  let first := send (at_ 5000) Office.carol Office.bob None Office.store in
  let second := send (at_ 6000) Office.carol Office.bobInCapitals None first.1.1 in
  let third := send (at_ 3700000) Office.carol Office.bobInCapitals None second.1.1 in
  Mongo.castObjectId Office.bob = Some Office.bob
  ∧ Mongo.castObjectId Office.bobInCapitals = Some Office.bob
  ∧ Controller.res_status first.1.2 = 200%nat
  ∧ Controller.res_status second.1.2 = 200%nat
  ∧ Controller.res_chatId first.1.2
    = Some "direct_65a1f3c2b4d5e6f708192a01_65a1f3c2b4d5e6f708192ab0"%string
  ∧ Controller.res_chatId second.1.2
    = Some "direct_65A1F3C2B4D5E6F708192AB0_65a1f3c2b4d5e6f708192a01"%string
  ∧ map (fun c => (chatId c, map p_user (participants c))) (chats first.1.1)
    = [ ("direct_65a1f3c2b4d5e6f708192a01_65a1f3c2b4d5e6f708192ab0"%string,
         [Office.carol; Office.bob]) ]
  ∧ map (fun c => (chatId c, map p_user (participants c))) (chats second.1.1)
    = [ ("direct_65a1f3c2b4d5e6f708192a01_65a1f3c2b4d5e6f708192ab0"%string,
         [Office.carol; Office.bob]);
        ("direct_65A1F3C2B4D5E6F708192AB0_65a1f3c2b4d5e6f708192a01"%string,
         [Office.carol; Office.bob]) ]
  ∧ chats third.1.1 = chats second.1.1.
Proof.
  intros send first second third.
  destruct (direct_chat_request_is_idempotent Mongo.castObjectId (at_ 6000) (at_ 3700000)
              Office.carol Office.bobInCapitals None None first.1.1)
    as (_ & _ & _ & _ & Hsame & _); [by vm_compute|].
  do 8 (split; [by vm_compute|]). exact Hsame.
Qed.

Example validation_trims_for_emptiness_only_witness :
  let padded := {| md_chatId := "direct_alice_bob";
                   md_content := Some (32%N :: repeat 97%N 1000);
                   md_messageType := None; md_tempId := None |} in
  let full := {| md_chatId := "direct_alice_bob";
                 md_content := Some (repeat 97%N 999 ++ [32%N]);
                 md_messageType := None; md_tempId := None |} in
  length (rawContent padded) = 1001%nat
  ∧ length (Js.trim (rawContent padded)) = 1000%nat
  ∧ gateway (at_ 5000) alice (SendMessage padded) start
    = (start, [(ToSocket "socket-a",
                EvError "Message too long. Maximum 1000 characters." None)])
  ∧ gateway (at_ 5000) alice (SendMessage (say "   " "t1")) start
    = (start, [(ToSocket "socket-a", EvError "Message content cannot be empty" None)])
  ∧ length (rawContent full) = 1000%nat
  ∧ exists saved new,
      (gateway (at_ 5000) alice (SendMessage full) start).2
      = [ (IoTo "direct_alice_bob", EvNewMessage new);
          (ToSocket "socket-a",
           EvMessageSent {| ms_success := true; ms_messageId := m_id saved;
                            ms_timestamp := 5000; ms_tempId := None |}) ]
      ∧ m_content saved = repeat 97%N 999 ++ [32%N]
      ∧ msg_content new = repeat 97%N 999 ++ [32%N].
Proof.
  intros padded full.
  destruct (validation_trims_for_emptiness_only limit window noRoomService (at_ 5000)
              alice padded start) as (_ & Hlong & _).
  destruct (validation_trims_for_emptiness_only limit window noRoomService (at_ 5000)
              alice (say "   " "t1") start) as (Hblank & _ & _).
  destruct (validation_trims_for_emptiness_only limit window noRoomService (at_ 5000)
              alice full start) as (_ & _ & Hfull).
  split; [by vm_compute|]. split; [by vm_compute|].
  split; [apply Hlong; [by vm_compute|vm_compute; lia]|].
  split; [apply Hblank; by vm_compute|].
  split; [by vm_compute|].
  destruct Hfull as [_ Hfull]; [by vm_compute|vm_compute; lia|].
  destruct Hfull as (saved & new & Hout & _ & Hsaved & Hnew); [by vm_compute..|].
  exists saved, new. split; [exact Hout|]. split; [exact Hsaved|exact Hnew].
Defined.

Example rate_limit_sliding_window_witness :
  let sends := [ (at_ 5000, say "one" "t1"); (at_ 5500, say "two" "t2") ] in
  let run := sendAll limit window noRoomService alice sends start in
  let rejected := gateway (at_ 6000) alice (SendMessage (say "three" "t3")) run.1 in
  let send := Controller.sendDirectMessageRequest Mongo.castObjectId in
  let r1 := send (at_ 5000) Office.carol Office.bob None Office.store in
  let r2 := send (at_ 5500) Office.carol Office.bob None r1.1.1 in
  let r3 := send (at_ 6000) Office.carol Office.bob None r2.1.1 in
  (rejected.2 = [rateLimitError alice]
   ∧ ~ In (rateLimitError alice)
          (gateway (at_ 3606000) alice (SendMessage (say "four" "t4")) rejected.1).2)
  ∧ (Controller.res_status r3.1.2 = 429%nat
     ∧ r3.1.1 = r2.1.1
     ∧ Controller.res_status
         (send (at_ 3605500) Office.carol Office.bob None r3.1.1).1.2 = 200%nat).
Proof.
  intros sends run rejected send r1 r2 r3.
  pose proof (rate_limit_sliding_window limit window noRoomService) as [Hsends Hrequests].
  split.
  - destruct (Hsends alice sends (at_ 6000) (say "three" "t3") start)
      as (_ & Hrej & _ & Hagain).
    + vm_compute. lia.
    + reflexivity.
    + intros e [<-|[<-|[]]]; (split; [by vm_compute|vm_compute; lia]).
    + split; [by vm_compute|vm_compute; lia].
    + intros x e Hx. by vm_compute in Hx.
    + intros e [<-|[<-|[]]]; vm_compute; split; congruence.
    + split; [exact Hrej|].
      destruct (Hagain (at_ 3606000) (say "four" "t4")) as [Hno _].
      * split; [by vm_compute|vm_compute; lia].
      * intros e [<-|[<-|[]]]; vm_compute; congruence.
      * exact Hno.
  - destruct (Hrequests Mongo.castObjectId (at_ 5000) (at_ 5500) (at_ 6000)
                Office.carol Office.bob None None None Office.store)
      as (H429 & Hdb & Hagain).
    + by vm_compute.
    + by vm_compute.
    + by vm_compute.
    + vm_compute. congruence.
    + vm_compute. congruence.
    + by vm_compute.
    + split; [exact H429|]. split; [exact Hdb|].
      apply Hagain; [vm_compute; congruence|reflexivity].
Defined.

(** C7 does not hold as stated of the limiter of message requests, which
    does not count per sender: Carol's third request within one hour, the
    first to Dan after two to Bob, is accepted, and her log then holds
    three requests of that hour. *)
Example third_request_to_another_lawyer_is_accepted :
  let send := Controller.sendDirectMessageRequest Mongo.castObjectId in
  let r1 := send (at_ 5000) Office.carol Office.bob None Office.store in
  let r2 := send (at_ 5500) Office.carol Office.bob None r1.1.1 in
  let r3 := send (at_ 6000) Office.carol Office.dan None r2.1.1 in
  Controller.res_status r1.1.2 = 200%nat
  ∧ Controller.res_status r2.1.2 = 200%nat
  ∧ Controller.res_status r3.1.2 = 200%nat
  ∧ (fun u => map (fun req => (toUserId req, timestamp req)) (messageRequests u))
      <$> users r3.1.1 !! Office.carol
    = Some [ (Office.bob, 5000); (Office.bob, 5500); (Office.dan, 6000) ].
Proof. repeat split; by vm_compute. Qed.

(** X15: a request that spells the id of the lawyer differently escapes
    the limit.  After two accepted requests of Carol to Bob, a third within
    the hour that names Bob by his id in capital letters is answered with
    200, not with 429: the log holds the id that Mongoose cast the
    parameter to, the test of the limit compares the log with the parameter
    as it came, and finds no request to that spelling.  The log then holds
    three requests to Bob of one hour.  The same third request in the
    spelling of the store is answered with 429. *)
Example respelled_request_escapes_the_limit :
  let send := Controller.sendDirectMessageRequest Mongo.castObjectId in
  let r1 := send (at_ 5000) Office.carol Office.bob None Office.store in
  let r2 := send (at_ 5500) Office.carol Office.bob None r1.1.1 in
  let r3 := send (at_ 6000) Office.carol Office.bobInCapitals None r2.1.1 in
  Controller.res_status r1.1.2 = 200%nat
  ∧ Controller.res_status r2.1.2 = 200%nat
  ∧ Controller.res_status (send (at_ 6000) Office.carol Office.bob None r2.1.1).1.2
    = 429%nat
  ∧ Mongo.castObjectId Office.bobInCapitals = Mongo.castObjectId Office.bob
  ∧ Controller.res_status r3.1.2 = 200%nat
  ∧ (fun u => map (fun req => (toUserId req, timestamp req)) (messageRequests u))
      <$> users r3.1.1 !! Office.carol
    = Some [ (Office.bob, 5000); (Office.bob, 5500); (Office.bob, 6000) ].
Proof. repeat split; by vm_compute. Qed.

Example reconciliation_keeps_one_message_witness :
  let page := {| Client.chatId := "direct_alice_bob";
                 Client.user := {| s_id := "alice"; s_name := "Alice";
                                   s_role := "citizen" |};
                 Client.connected := true; Client.messages := [];
                 Client.newMessage := Js.ofString "Hello"; Client.isSending := false |} in
  let pending := (Client.sendMessage 5000 page).1 in
  let broadcast := {| _id := Some 1%N; tempId := Some "5000"%string;
                      msg_chatId := "direct_alice_bob";
                      msg_content := Js.ofString "Hello";
                      msg_messageType := Some "text"%string;
                      msg_sender := {| s_id := "alice"; s_name := "Alice";
                                       s_role := "citizen" |};
                      msg_timestamp := 5001; msg_isRead := Some false;
                      msg_status := None |} in
  let confirmation := {| ms_success := true; ms_messageId := 1; ms_timestamp := 5001;
                         ms_tempId := Some "5000"%string |} in
  Client.shown "5000" pending = 1%nat
  ∧ Client.shown "5000" (Client.on_new_message broadcast pending) = 1%nat
  ∧ Client.shown "5000" (Client.on_message_sent confirmation pending) = 1%nat
  ∧ length (Client.messages
              (Client.on_new_message broadcast
                 (Client.on_message_sent confirmation pending))) = 1%nat.
Proof.
  intros page pending broadcast confirmation.
  destruct (reconciliation_keeps_one_message "5000" pending broadcast confirmation)
    as (_ & _ & _ & _ & _ & _ & Hone).
  - done.
  - eexists. split; [left; reflexivity|reflexivity].
  - reflexivity.
  - reflexivity.
  - reflexivity.
  - split; [by vm_compute|].
    split; [apply Hone; [left; reflexivity|by vm_compute]|].
    split; [apply Hone; [right; left; reflexivity|by vm_compute]|].
    destruct (Hone (Client.on_new_message broadcast
                      (Client.on_message_sent confirmation pending))) as (-> & _).
    + right. right. left. reflexivity.
    + by vm_compute.
Defined.

End Runs.


(** ** More on the gateway: relays, leaving, disconnecting *)
Section GatewayMore.
Import Model Helpers Gateway.

Variable maxMessages : nat.
Variable windowMs : Z.
Variable createChatRoom :
  list Participant -> string -> option (string * string) -> Db -> option (Chat * Db).

Local Abbreviation step := (Gateway.step maxMessages windowMs createChatRoom).

Ltac gw_unfold :=
  unfold Gateway.step, run, handle, connection, join_chat, join_chat_resume, leave_chat,
    send_message,
    typing_start, typing_stop, consultation_request, case_assigned,
    lawyer_request_sent, citizen_request_sent, request_responded,
    direct_message_request, mark_messages_read, update_status, disconnect,
    tryCatch, bind, gets, modify, emit, ret, throw, save, createRoom, persist,
    rateLimit in *.

Ltac gw_cases :=
  gw_unfold; simpl in *; repeat (case_match; gw_unfold; simpl in *; simplify_eq).

Lemma members_fmap_difference sid room (m : gmap string (gset string)) :
  members room ((fun s => s ∖ {[sid]}) <$> m) = members room m ∖ {[sid]}.
Proof.
  unfold members. rewrite lookup_fmap. destruct (m !! room); simpl; [done|].
  apply set_eq. intros x. rewrite elem_of_difference. set_solver.
Qed.

Lemma members_registryDrop sid chatId (m : gmap string (gset string)) :
  members chatId (registryDrop sid m) = members chatId m ∖ {[sid]}.
Proof.
  unfold members. rewrite registryDrop_lookup.
  destruct (m !! chatId) as [s|]; simpl.
  - unfold withoutSocket. case_decide as Hs; simpl; [|done].
    apply size_empty_iff in Hs. by apply leibniz_equiv in Hs.
  - apply set_eq. intros x. rewrite elem_of_difference. set_solver.
Qed.



(** X1: the typing relays are not guarded.  Whoever sends [typing_start]
    or [typing_stop] for a room, participant or not, joined or not, the
    event is sent with [socket.to] to that room and the gateway changes no
    state: it reaches the sockets of the room that are not in the room
    named after the sender's socket id.  For a sender that is alone in the
    room of its own id, as socket.io sets it up at the connection, these
    are the sockets of the room other than the sender's. *)
Theorem typing_reaches_the_others_unguarded env socket chatId st :
  step env socket (TypingStart chatId) st =
    (st, [(SocketTo (id socket) chatId,
           EvUserTyping (userId socket) (userName socket))])
  ∧ step env socket (TypingStop chatId) st =
    (st, [(SocketTo (id socket) chatId, EvUserStopTyping (userId socket))])
  ∧ (forall ev sid,
       ev = TypingStart chatId ∨ ev = TypingStop chatId ->
       ((exists te, In te (step env socket ev st).2
                    ∧ sid ∈ recipients (step env socket ev st).1 te.1)
        <-> sid ∈ members chatId (rooms st) ∧ sid ∉ members (id socket) (rooms st)))
  ∧ (members (id socket) (rooms st) = {[id socket]} ->
     forall ev sid,
       ev = TypingStart chatId ∨ ev = TypingStop chatId ->
       ((exists te, In te (step env socket ev st).2
                    ∧ sid ∈ recipients (step env socket ev st).1 te.1)
        <-> sid ∈ members chatId (rooms st) ∧ sid ≠ id socket)).
Proof.
  assert (Hreach : forall ev sid,
    ev = TypingStart chatId ∨ ev = TypingStop chatId ->
    ((exists te, In te (step env socket ev st).2
                 ∧ sid ∈ recipients (step env socket ev st).1 te.1)
     <-> sid ∈ members chatId (rooms st) ∧ sid ∉ members (id socket) (rooms st))).
  { intros ev sid [-> | ->]; simpl.
    - split.
      + intros (te & [<-|[]] & Hin). simpl in Hin. set_solver.
      + intros [Hin Hne]. eexists. split; [by left|]. simpl. set_solver.
    - split.
      + intros (te & [<-|[]] & Hin). simpl in Hin. set_solver.
      + intros [Hin Hne]. eexists. split; [by left|]. simpl. set_solver. }
  split; [done|]. split; [done|]. split; [exact Hreach|].
  intros Hown ev sid Hev. rewrite (Hreach ev sid Hev), Hown. set_solver.
Qed.


(** X3: [disconnect] takes the socket out of the table of active users, out
    of every socket.io room and out of every registry entry, and changes
    nothing for any other socket; it broadcasts that the user is offline,
    and does not touch the store.  The broadcast reaches every other
    registered socket that is not in the room named after the id of the
    socket, and never the socket itself; when no other socket is in that
    room, it reaches every other registered socket. *)
Theorem disconnect_forgets_the_socket env socket st :
  let res := step env socket Disconnect st in
  activeUsers res.1 = delete (id socket) (activeUsers st)
  ∧ (forall r, members r (rooms res.1) = members r (rooms st) ∖ {[id socket]})
  ∧ (forall c, members c (activeChatRooms res.1)
               = members c (activeChatRooms st) ∖ {[id socket]})
  ∧ db res.1 = db st
  ∧ res.2 = [(SocketBroadcast (id socket), EvUserStatusUpdate (userId socket) "offline")]
  ∧ (forall sid, sid ∈ recipients res.1 (SocketBroadcast (id socket))
                 <-> sid ∈ dom (activeUsers st) ∧ sid ≠ id socket
                     ∧ sid ∉ members (id socket) (rooms st))
  ∧ (members (id socket) (rooms st) ⊆ {[id socket]} ->
     forall sid, sid ∈ recipients res.1 (SocketBroadcast (id socket))
                 <-> sid ∈ dom (activeUsers st) ∧ sid ≠ id socket).
Proof.
  intros res. subst res. gw_unfold. simpl.
  split; [done|].
  split; [intros r; apply members_fmap_difference|].
  split; [intros c; apply members_registryDrop|].
  split; [done|]. split; [done|].
  split.
  - intros sid. rewrite dom_delete_L, members_fmap_difference. set_solver.
  - intros Hown sid. rewrite dom_delete_L, members_fmap_difference. set_solver.
Qed.

(** What [consultation_update] emits. *)
Lemma consultation_update_out socket ps st :
  consultation_update socket ps st =
  (Ok tt, st,
   map (fun p => (SocketTo (id socket) ("user_" ++ p),
                  EvNotify "consultation_updated" None))
       (List.filter (fun p => negb (String.eqb p (userId socket))) ps)).
Proof.
  induction ps as [|p ps IH]; simpl; [done|].
  unfold bind. destruct (negb _); unfold emit, ret; by rewrite IH.
Qed.

Lemma count_relays (room : string -> string) sid uid p ps :
  (forall a b, room a = room b -> a = b) ->
  p ≠ uid ->
  length (List.filter
            (fun te : Emit => bool_decide (te.1 = SocketTo sid (room p)))
            (map (fun q => (SocketTo sid (room q),
                            EvNotify "consultation_updated" None))
                 (List.filter (fun q => negb (String.eqb q uid)) ps)))
  = length (List.filter (String.eqb p) ps).
Proof.
  intros Hinj Hp. induction ps as [|q ps IH]; simpl; [done|].
  destruct (String.eqb q uid) eqn:E1; simpl.
  - apply String.eqb_eq in E1. subst q.
    by rewrite (proj2 (String.eqb_neq p uid)) by done.
  - destruct (String.eqb p q) eqn:E2.
    + apply String.eqb_eq in E2. subst q. rewrite bool_decide_eq_true_2 by done.
      simpl. by rewrite IH.
    + rewrite bool_decide_eq_false_2; [done|]. intros [= Heq]. apply Hinj in Heq.
      subst q. by rewrite String.eqb_refl in E2.
Qed.

(** X4: [consultation_update] relays the update once for every listed
    participant other than the sender, in the order of the list and as
    often as a participant is listed, to that participant's personal room;
    nothing goes to the sender's own personal room, and no state changes. *)
Theorem consultation_update_skips_the_sender env socket participants st :
  step env socket (ConsultationUpdate participants) st =
    (st, map (fun p => (SocketTo (id socket) ("user_" ++ p),
                        EvNotify "consultation_updated" None))
             (List.filter (fun p => negb (String.eqb p (userId socket))) participants))
  ∧ (forall te, In te (step env socket (ConsultationUpdate participants) st).2 ->
       te.1 ≠ SocketTo (id socket) ("user_" ++ userId socket))
  ∧ (forall p, p ≠ userId socket ->
       length (List.filter
                 (fun te : Emit =>
                    bool_decide (te.1 = SocketTo (id socket) ("user_" ++ p)))
                 (step env socket (ConsultationUpdate participants) st).2)
       = length (List.filter (String.eqb p) participants)).
Proof.
  assert (Hrun : step env socket (ConsultationUpdate participants) st =
    (st, map (fun p => (SocketTo (id socket) ("user_" ++ p),
                        EvNotify "consultation_updated" None))
             (List.filter (fun p => negb (String.eqb p (userId socket))) participants))).
  { unfold Gateway.step, run, handle. by rewrite consultation_update_out. }
  split; [done|]. rewrite Hrun. simpl. split.
  - intros te Hte. apply in_map_iff in Hte as (p & <- & Hp).
    apply filter_In in Hp as [_ Hp]. simpl. intros Heq. simplify_eq/=.
    by rewrite String.eqb_refl in Hp.
  - intros p Hp. apply (count_relays (fun q => ("user_" ++ q)%string)); [|done].
    intros a b Heq. by simplify_eq/=.
Qed.

(** X5: [mark_messages_read] sends no answer.  Whatever the room, the id
    list and the state of the store, it emits at most one event,
    [messages_read] for that room and reader, sent with [socket.to] to the
    room: never an [error] and nothing addressed to the caller, which does
    not receive the event as long as it is in the room named after its own
    socket id.  It emits only when the caller is a member and the store
    took the write; a rejected write leaves no trace at all. *)
Theorem mark_read_never_answers_the_caller env socket chatId messageIds st :
  let res := step env socket (MarkMessagesRead chatId messageIds) st in
  (forall te, In te res.2 ->
     te = (SocketTo (id socket) chatId,
           EvMessagesRead chatId (userId socket) messageIds)
     ∧ (id socket ∈ members (id socket) (rooms st) ->
        id socket ∉ recipients res.1 te.1)
     ∧ validateChatAccess chatId (userId socket) (db st) = true
     ∧ storeWriteOk env = true)
  ∧ (length res.2 <= 1)%nat
  ∧ (storeWriteOk env = false -> res = (st, []))
  ∧ rooms res.1 = rooms st
  ∧ activeChatRooms res.1 = activeChatRooms st.
Proof.
  intros res. subst res. rewrite mark_messages_read_run.
  destruct (validateChatAccess _ _ _); simpl; [|by repeat split; try lia].
  destruct (findOne _ _); simpl; [|by repeat split; try lia].
  destruct (storeWriteOk env); simpl; [|by repeat split; try lia].
  split; [|by repeat split; try lia].
  intros te [<-|[]]. simpl. split; [done|]. split; [set_solver|done].
Qed.

(** X6: an [error] event goes to the socket whose event caused it and to
    nobody else, whichever of the handlers emits it. *)
Theorem errors_go_to_the_caller_only env socket ev st t message details :
  In (t, EvError message details) (step env socket ev st).2 ->
  t = ToSocket (id socket).
Proof.
  destruct ev;
    try (unfold Gateway.step, run, handle; rewrite consultation_update_out; simpl;
         intros H; apply in_map_iff in H as (? & [=] & _));
    gw_cases; simpl;
    repeat (let H := fresh in intros [H|H]; [by simplify_eq|revert H]); by intros [].
Qed.


Lemma members_socketJoin sid room r (m : gmap string (gset string)) :
  members r (socketJoin sid room m) =
  if decide (r = room) then members r m ∪ {[sid]} else members r m.
Proof.
  unfold socketJoin, members at 1. case_decide as Hr.
  - subst r. by rewrite lookup_insert_eq.
  - by rewrite lookup_insert_ne.
Qed.

(** Apart from [connection], [join_chat], [leave_chat] and [disconnect], no
    handler touches the rooms of socket.io. *)
Lemma step_rooms env socket ev st :
  rooms (step env socket ev st).1 =
  match ev with
  | Connection =>
    socketJoin (id socket) ("user_" ++ userId socket)
               (socketJoin (id socket) (id socket) (rooms st))
  | JoinChat chatId =>
    if validateChatAccess chatId (userId socket) (db st)
    then socketJoin (id socket) chatId (rooms st)
    else rooms st
  | LeaveChat chatId => socketLeave (id socket) chatId (rooms st)
  | Disconnect => (fun s => s ∖ {[id socket]}) <$> rooms st
  | _ => rooms st
  end.
Proof.
  destruct ev;
    try (unfold Gateway.step, run, handle; rewrite consultation_update_out; done);
    gw_cases; done.
Qed.

(** Only [send_message] touches the windows of the rate limiter. *)
Lemma step_rateWindows env socket ev st :
  (forall md, ev ≠ SendMessage md) ->
  rateWindows (step env socket ev st).1 = rateWindows st.
Proof.
  intros Hev. destruct ev;
    try (unfold Gateway.step, run, handle; rewrite consultation_update_out; done);
    try (by destruct (Hev messageData));
    gw_cases; done.
Qed.

(** The handlers that may write the store. *)
Lemma step_db env socket ev st :
  match ev with
  | JoinChat _ | SendMessage _ | MarkMessagesRead _ _ | CaseAssigned _ _ _ _
  | DirectMessageRequest _ => True
  | RequestResponded _ accepted createChat _ _ _ _ =>
    createChat && accepted = false -> db (step env socket ev st).1 = db st
  | _ => db (step env socket ev st).1 = db st
  end.
Proof.
  destruct ev; try done;
    try (unfold Gateway.step, run, handle; rewrite consultation_update_out; done);
    try (intros Hno; gw_unfold; rewrite Hno; done);
    gw_cases; done.
Qed.

(** X7: every handler writes its own part of the state only.  The
    windows of the rate limiter change on [send_message] alone; the rooms
    of socket.io on [connection], [join_chat], [leave_chat] and
    [disconnect]; the registry on the last three of these; the set of
    registered sockets on [connection] and [disconnect]; and
    the store on [join_chat], [send_message], [mark_messages_read] and the
    three events that create a room, [request_responded] only when the
    request was accepted and a chat was asked for. *)
Theorem handlers_write_their_own_state_only env socket ev st :
  let st' := (step env socket ev st).1 in
  (rateWindows st' ≠ rateWindows st -> exists md, ev = SendMessage md)
  ∧ (rooms st' ≠ rooms st ->
     ev = Connection ∨ ev = Disconnect
     ∨ exists chatId, ev = JoinChat chatId ∨ ev = LeaveChat chatId)
  ∧ (activeChatRooms st' ≠ activeChatRooms st ->
     ev = Disconnect ∨ exists chatId, ev = JoinChat chatId ∨ ev = LeaveChat chatId)
  ∧ (dom (activeUsers st') ≠ dom (activeUsers st) ->
     ev = Connection ∨ ev = Disconnect)
  ∧ (db st' ≠ db st ->
     (exists chatId, ev = JoinChat chatId)
     ∨ (exists md, ev = SendMessage md)
     ∨ (exists chatId messageIds, ev = MarkMessagesRead chatId messageIds)
     ∨ (exists citizenId lawyerId caseType caseId,
          ev = CaseAssigned citizenId lawyerId caseType caseId)
     ∨ (exists lawyerId, ev = DirectMessageRequest lawyerId)
     ∨ (exists targetUserId caseType caseId citizenId lawyerId,
          ev = RequestResponded targetUserId true true caseType caseId
                                citizenId lawyerId)).
Proof.
  intros st'. subst st'. split; [|split; [|split; [|split]]].
  - intros Hne. destruct ev; try (by destruct Hne; apply step_rateWindows).
    by eexists.
  - rewrite step_rooms. destruct ev; try done; eauto 6.
  - rewrite step_registry. destruct ev; try done; eauto 6.
  - rewrite step_connected. destruct ev; try done; eauto.
  - pose proof (step_db env socket ev st) as Hdb.
    destruct ev; try done; eauto 12.
    destruct accepted, createChat; try (intros Hne; by destruct Hne; apply Hdb).
    intros _. do 5 right. eauto 8.
Qed.

(** What [join_chat] does to the registry from its first resumption on. *)
Lemma join_chat_resume_registry env socket joins chatId hasAccess st :
  activeChatRooms (run (join_chat_resume env socket joins chatId hasAccess) st).1
  = if hasAccess then registryAdd (id socket) chatId (activeChatRooms st)
    else activeChatRooms st.
Proof. destruct joins; gw_cases; done. Qed.

(** X8: no interleaving leaves an empty entry in the registry.  The
    registry is written by [leave_chat] and [disconnect], which do not
    await, and by [join_chat] in one stretch after its first await.  If no
    entry of the registry is an empty set, then none is after any handler
    run to its end, whichever the event and the socket, registered or not,
    and none is after a [join_chat] that resumes in this state, with
    whatever answer of the access check and whether or not the socket is
    still connected. *)
Theorem registry_has_no_empty_entry env socket st :
  (forall c s, activeChatRooms st !! c = Some s -> s ≠ ∅) ->
  (forall ev c s,
     activeChatRooms (step env socket ev st).1 !! c = Some s -> s ≠ ∅)
  ∧ (forall joins chatId hasAccess c s,
       activeChatRooms
         (run (join_chat_resume env socket joins chatId hasAccess) st).1 !! c = Some s ->
       s ≠ ∅).
Proof.
  intros Hinv.
  assert (Hadd : forall chatId c s,
    registryAdd (id socket) chatId (activeChatRooms st) !! c = Some s -> s ≠ ∅).
  { intros chatId c s. rewrite registryAdd_lookup. case_decide as Hc; [|apply Hinv].
    intros [= <-]. set_solver. }
  split.
  - intros ev c s. rewrite step_registry. destruct ev; try apply Hinv.
    + destruct (validateChatAccess _ _ _); [apply Hadd|apply Hinv].
    + rewrite registryRemove_lookup. case_decide as Hc; [|apply Hinv].
      destruct (activeChatRooms st !! c) as [s0|]; simpl; [|done].
      intros Hs. by apply withoutSocket_Some in Hs as [_ Hs].
    + rewrite registryDrop_lookup.
      destruct (activeChatRooms st !! c) as [s0|]; simpl; [|done].
      intros Hs. by apply withoutSocket_Some in Hs as [_ Hs].
  - intros joins chatId hasAccess c s. rewrite join_chat_resume_registry.
    destruct hasAccess; [apply Hadd|apply Hinv].
Qed.

(** X9: connecting and disconnecting leaves no trace.  [connection]
    registers the socket and puts it into its personal room; for a socket
    that was not known before, a [disconnect] after it gives back the
    table of active users, the members of every room and of every registry
    entry, the store and the windows as they were, and tells the others
    that the user is offline. *)
Theorem connect_then_disconnect_leaves_no_trace env env' socket st :
  activeUsers st !! id socket = None ->
  (forall r, id socket ∉ members r (rooms st)) ->
  (forall c, id socket ∉ members c (activeChatRooms st)) ->
  let connected := step env socket Connection st in
  let gone := step env' socket Disconnect connected.1 in
  connected.2 = []
  ∧ activeUsers connected.1 !! id socket
    = Some {| ui_userId := userId socket; ui_role := userRole socket;
              ui_name := userName socket; ui_socketId := id socket;
              ui_status := None |}
  ∧ id socket ∈ members ("user_" ++ userId socket) (rooms connected.1)
  ∧ activeUsers gone.1 = activeUsers st
  ∧ (forall r, members r (rooms gone.1) = members r (rooms st))
  ∧ (forall c, members c (activeChatRooms gone.1) = members c (activeChatRooms st))
  ∧ db gone.1 = db st
  ∧ rateWindows gone.1 = rateWindows st
  ∧ gone.2 = [(SocketBroadcast (id socket), EvUserStatusUpdate (userId socket) "offline")].
Proof.
  intros Hnew Hrooms Hreg connected gone. subst connected gone.
  assert (Hc : step env socket Connection st =
    (setRooms (socketJoin (id socket) ("user_" ++ userId socket)
                 (rooms (setActiveUsers
                    (<[id socket := {| ui_userId := userId socket;
                                       ui_role := userRole socket;
                                       ui_name := userName socket;
                                       ui_socketId := id socket;
                                       ui_status := None |}]> (activeUsers st))
                    (setRooms (socketJoin (id socket) (id socket) (rooms st)) st))))
       (setActiveUsers
          (<[id socket := {| ui_userId := userId socket; ui_role := userRole socket;
                             ui_name := userName socket; ui_socketId := id socket;
                             ui_status := None |}]> (activeUsers st))
          (setRooms (socketJoin (id socket) (id socket) (rooms st)) st)), [])) by done.
  rewrite Hc. cbn [fst snd]. clear Hc.
  split; [done|]. split; [simpl; by rewrite lookup_insert_eq|].
  split.
  { simpl. rewrite members_socketJoin. rewrite decide_True by done. set_solver. }
  assert (Hd : forall st0, step env' socket Disconnect st0 =
    (setActiveChatRooms (registryDrop (id socket) (activeChatRooms st0))
       (setActiveUsers (delete (id socket) (activeUsers st0))
          (setRooms ((fun s => s ∖ {[id socket]}) <$> rooms st0) st0)),
     [(SocketBroadcast (id socket), EvUserStatusUpdate (userId socket) "offline")]))
    by done.
  rewrite Hd. simpl. clear Hd.
  split; [by rewrite delete_insert_id|].
  split.
  { intros r. rewrite members_fmap_difference, !members_socketJoin.
    specialize (Hrooms r). repeat case_decide; set_solver. }
  split; [|done].
  intros c. rewrite members_registryDrop. specialize (Hreg c). set_solver.
Qed.

(** X10: [update_status] needs a registration.  For a socket that is not
    in the table of active users the event does nothing at all.  For a
    registered socket it sets the status in its entry and leaves the other
    fields, the other entries and the rest of the state alone, and the
    update is broadcast: it reaches the registered sockets that are not in
    the room named after the id of the socket, which for a socket alone in
    that room are the other registered sockets. *)
Theorem status_update_needs_a_registration env socket status st :
  let res := step env socket (UpdateStatus status) st in
  (activeUsers st !! id socket = None -> res = (st, []))
  ∧ (forall u, activeUsers st !! id socket = Some u ->
       activeUsers res.1
       = <[id socket := {| ui_userId := ui_userId u; ui_role := ui_role u;
                           ui_name := ui_name u; ui_socketId := ui_socketId u;
                           ui_status := Some status |}]> (activeUsers st)
       ∧ rooms res.1 = rooms st ∧ activeChatRooms res.1 = activeChatRooms st
       ∧ db res.1 = db st ∧ rateWindows res.1 = rateWindows st
       ∧ res.2 = [(SocketBroadcast (id socket),
                   EvUserStatusUpdate (userId socket) status)]
       ∧ (forall sid, sid ∈ recipients res.1 (SocketBroadcast (id socket))
                      <-> sid ∈ dom (activeUsers st)
                          ∧ sid ∉ members (id socket) (rooms st))
       ∧ (members (id socket) (rooms st) = {[id socket]} ->
          forall sid, sid ∈ recipients res.1 (SocketBroadcast (id socket))
                      <-> sid ∈ dom (activeUsers st) ∧ sid ≠ id socket)).
Proof.
  intros res. subst res. gw_unfold. split.
  - by intros ->.
  - intros u Hu. rewrite Hu. simpl. do 6 (split; [done|]).
    assert (Hdom : dom (<[id socket := {| ui_userId := ui_userId u; ui_role := ui_role u;
                                          ui_name := ui_name u;
                                          ui_socketId := ui_socketId u;
                                          ui_status := Some status |}]> (activeUsers st))
                   = dom (activeUsers st)).
    { rewrite dom_insert_L. apply elem_of_dom_2 in Hu. set_solver. }
    split.
    + intros sid. rewrite Hdom. set_solver.
    + intros Hown sid. rewrite Hdom, Hown. set_solver.
Qed.

(** X11: a relay to a user reaches the sockets of that user.  Once a
    socket is connected, a [consultation_request], [lawyer_request_sent]
    or [citizen_request_sent] that names its user is relayed as one event
    with [socket.to] to the personal room of that user, and changes no
    state.  The connected socket receives it unless it sits in the room
    named after the sender's socket id; the sending socket receives it
    only if it is in that personal room itself and has left the room of
    its own id. *)
Theorem relay_reaches_the_connected_user env env' sender target ev st :
  In ev [ ConsultationRequest (userId target); LawyerRequestSent (userId target);
          CitizenRequestSent (userId target) ] ->
  let st1 := (step env target Connection st).1 in
  let res := step env' sender ev st1 in
  res.1 = st1
  ∧ (exists name, res.2 = [(SocketTo (id sender) ("user_" ++ userId target),
                            EvNotify name None)])
  ∧ (forall te, In te res.2 ->
       (id target ∈ recipients res.1 te.1
        <-> id target ∉ members (id sender) (rooms st1))
       ∧ (id sender ∈ recipients res.1 te.1
          <-> id sender ∈ members ("user_" ++ userId target) (rooms st1)
              ∧ id sender ∉ members (id sender) (rooms st1))).
Proof.
  intros Hev st1 res.
  assert (Hin : id target ∈ members ("user_" ++ userId target) (rooms st1)).
  { subst st1. rewrite step_rooms, members_socketJoin, decide_True by done.
    set_solver. }
  assert (Hres : res.1 = st1
    ∧ exists name, res.2 = [(SocketTo (id sender) ("user_" ++ userId target),
                             EvNotify name None)]).
  { subst res. destruct Hev as [<-|[<-|[<-|[]]]]; (split; [done|]); by eexists. }
  destruct Hres as [Hst (name & Hout)]. split; [done|]. split; [by exists name|].
  rewrite Hout, Hst. intros te [<-|[]]. simpl. set_solver.
Qed.

(** X12: the notification of a message request reaches the lawyer when
    the request spells the id as the socket does.  The one
    [direct_message_request] of an accepted request goes to the room
    ["user_"] followed by the id of the lawyer as the request spells it.  A
    socket that has just connected gets it exactly when it is in that room;
    it is when the request names the very string that is the user id of the
    socket. *)
Theorem request_notification_reaches_the_lawyer
    castObjectId env env' socket citizenId lawyerId message st :
  let st1 := (step env socket Connection st).1 in
  let r := Controller.sendDirectMessageRequest castObjectId env' citizenId lawyerId
             message (db st1) in
  Controller.res_status r.1.2 = 200%nat ->
  exists te, r.2 = [te]
             ∧ te.2 = EvNotify "direct_message_request"
                               (Some (Controller.directChatId citizenId lawyerId))
             ∧ (id socket ∈ recipients (setDb r.1.1 st1) te.1
                <-> id socket ∈ members ("user_" ++ lawyerId) (rooms st1))
             ∧ (lawyerId = userId socket ->
                id socket ∈ recipients (setDb r.1.1 st1) te.1).
Proof.
  intros st1 r H200.
  assert (Hin : id socket ∈ members ("user_" ++ userId socket) (rooms st1)).
  { subst st1. rewrite step_rooms, members_socketJoin, decide_True by done.
    set_solver. }
  pose proof H200 as H.
  apply sendDirectMessageRequest_200 in H as (k & l & c & Hk & Hl & Hv & Hc & Hcan & Hw).
  destruct (sendDirectMessageRequest_db castObjectId env' citizenId lawyerId message
              (db st1) c k H200 Hc Hk) as (_ & _ & _ & _ & Hout).
  fold r in Hout. rewrite Hout.
  eexists. split; [done|]. split; [done|]. split; [done|].
  intros ->. done.
Qed.

End GatewayMore.


(** ** More on message requests *)
Section MessageRequestsMore.
Import Model Controller.

Lemma filter_length_le {A} (P Q : A -> bool) (l : list A) :
  (forall x, P x = true -> Q x = true) ->
  (length (List.filter P l) <= length (List.filter Q l))%nat.
Proof.
  intros HPQ. induction l as [|x l IH]; simpl; [done|].
  destruct (P x) eqn:EP.
  - rewrite (HPQ x EP). simpl. lia.
  - destruct (Q x); simpl; lia.
Qed.

Lemma filter_filter_absorb {A} (P Q : A -> bool) (l : list A) :
  (forall x, P x = true -> Q x = true) ->
  List.filter P (List.filter Q l) = List.filter P l.
Proof.
  intros HPQ. induction l as [|x l IH]; simpl; [done|].
  destruct (Q x) eqn:EQ; simpl.
  - by rewrite IH.
  - destruct (P x) eqn:EP; [|done]. apply HPQ in EP. congruence.
Qed.

(** A message request notifies exactly when it is accepted.  An
    accepted request (200) emits one [direct_message_request] with the key
    of the room to the personal room of the lawyer; a request that is
    refused, for an unknown or unverified lawyer (404), over the limit
    (429) or on a failure (500), emits nothing, changes nothing in the
    database and names no room. *)
Lemma request_notifies_exactly_when_accepted castObjectId env userId lawyerId message db :
  let r := sendDirectMessageRequest castObjectId env userId lawyerId message db in
  (res_status r.1.2 = 200%nat
   ∧ res_success r.1.2 = true
   ∧ res_chatId r.1.2 = Some (directChatId userId lawyerId)
   ∧ r.2 = [ (IoTo ("user_" ++ lawyerId),
              EvNotify "direct_message_request" (Some (directChatId userId lawyerId))) ])
  ∨ (In (res_status r.1.2) [404; 429; 500]%nat
     ∧ res_success r.1.2 = false
     ∧ res_chatId r.1.2 = None
     ∧ r.2 = []
     ∧ r.1.1 = db).
Proof.
  intros r. subst r. unfold sendDirectMessageRequest, addMessageRequest.
  destruct (castObjectId lawyerId) as [k|]; simpl; [|right; tauto].
  destruct (users db !! k) as [l|]; simpl; [|right; tauto].
  destruct (isVerifiedLawyer l); simpl; [|right; tauto].
  destruct (users db !! userId) as [citizen|]; simpl; [|right; tauto].
  destruct (canSendMessageRequest _ _ _); simpl; [|right; tauto].
  destruct (storeWriteOk env); simpl; [|right; tauto].
  left. done.
Qed.

(** X13: waiting never closes the window.  If a request to a lawyer is
    allowed at some time, it is allowed at every later time as long as the
    log is the same. *)
Theorem waiting_never_closes_the_window t t' u to :
  t <= t' ->
  canSendMessageRequest t u to = true ->
  canSendMessageRequest t' u to = true.
Proof.
  intros Ht Hcan. unfold canSendMessageRequest in *.
  apply Nat.ltb_lt in Hcan. apply Nat.ltb_lt.
  eapply Nat.le_lt_trans; [|exact Hcan]. apply filter_length_le.
  intros r Hr. apply andb_prop in Hr as [-> Hr]. simpl.
  apply Z.ltb_lt in Hr. apply Z.ltb_lt. lia.
Qed.

Example waiting_never_closes_the_window_witness :
  let u := {| role := "citizen"; isActive := true; verificationStatus := None;
              messageRequests := [ {| toUserId := "bob"; timestamp := 1000 |} ] |} in
  canSendMessageRequest 5000 u "bob" = true.
Proof.
  intros u. apply (waiting_never_closes_the_window 2000 5000 u "bob"); [lia|reflexivity].
Defined.

(** X14: requests to other lawyers do not count.  Logging a request to one
    lawyer, with the pruning that comes with it, leaves the verdict for
    every id other than the one that the log holds for that lawyer as it
    was, for every check made at the time of the request or later. *)
Theorem requests_to_other_lawyers_do_not_count castObjectId t t' u u' to other :
  addMessageRequest castObjectId t u other = Some u' ->
  castObjectId other ≠ Some to ->
  t <= t' ->
  canSendMessageRequest t' u' to = canSendMessageRequest t' u to.
Proof.
  unfold addMessageRequest. intros Hadd Hne Ht.
  destruct (castObjectId other) as [stored|]; [|done]. injection Hadd as <-.
  unfold canSendMessageRequest.
  rewrite messageRequests_logRequest, List.filter_app. simpl.
  assert (stored ≠ to) as Hne' by congruence.
  rewrite (proj2 (String.eqb_neq stored to) Hne'). simpl. rewrite app_nil_r.
  rewrite filter_filter_absorb; [done|].
  intros r Hr. apply andb_prop in Hr as [_ Hr].
  apply Z.ltb_lt in Hr. apply Z.ltb_lt. lia.
Qed.

Example requests_to_other_lawyers_do_not_count_witness :
  let u := {| role := "citizen"; isActive := true; verificationStatus := None;
              messageRequests := [ {| toUserId := Office.bob; timestamp := 1000 |};
                                   {| toUserId := Office.bob; timestamp := 2000 |} ] |} in
  (forall u', addMessageRequest Mongo.castObjectId 2500 u Office.bob = Some u' ->
     canSendMessageRequest 3000 u' Office.dan = true)
  ∧ (forall u', addMessageRequest Mongo.castObjectId 2500 u Office.dan = Some u' ->
       canSendMessageRequest 3000 u' Office.bob = false)
  ∧ (exists u', addMessageRequest Mongo.castObjectId 2500 u Office.dan = Some u').
Proof.
  intros u. split; [|split].
  - intros u' Hu'.
    rewrite (requests_to_other_lawyers_do_not_count Mongo.castObjectId 2500 3000 u u'
               Office.dan Office.bob Hu'); [reflexivity|by vm_compute|lia].
  - intros u' Hu'.
    rewrite (requests_to_other_lawyers_do_not_count Mongo.castObjectId 2500 3000 u u'
               Office.bob Office.dan Hu'); [reflexivity|by vm_compute|lia].
  - by eexists.
Defined.

End MessageRequestsMore.


(** ** The lawyer controller *)
Section LawyerFacts.
Import Model Lawyer.

Lemma isDirectChatOf_activated key lawyerId c :
  isDirectChatOf key lawyerId (activated c) = isDirectChatOf key lawyerId c.
Proof. done. Qed.

Lemma activated_idem c : activated (activated c) = activated c.
Proof. done. Qed.

Lemma find_saveFirst (f : Chat -> bool) c c' cs :
  List.find f cs = Some c -> f c' = true ->
  List.find f (saveFirst f c' cs) = Some c'.
Proof.
  intros Hfind Hc'. induction cs as [|c0 cs IH]; simpl in *; [done|].
  destruct (f c0) eqn:E; simpl.
  - by rewrite Hc'.
  - rewrite E. by apply IH.
Qed.

Lemma saveFirst_same (f : Chat -> bool) c cs :
  List.find f cs = Some c -> saveFirst f c cs = cs.
Proof.
  induction cs as [|c0 cs IH]; simpl; [done|].
  destruct (f c0) eqn:E.
  - by intros [= ->].
  - intros H. by rewrite IH.
Qed.

Lemma saveFirst_twice (f : Chat -> bool) c cs :
  f c = true -> saveFirst f c (saveFirst f c cs) = saveFirst f c cs.
Proof.
  intros Hc. induction cs as [|c0 cs IH]; simpl; [done|].
  destruct (f c0) eqn:E; simpl.
  - by rewrite Hc.
  - by rewrite E, IH.
Qed.

Lemma saveFirst_Forall2 (f : Chat -> bool) c cs :
  List.find f cs = Some c ->
  Forall2 (fun c0 c1 => c1 = c0 ∨ (f c0 = true ∧ c1 = activated c0))
          cs (saveFirst f (activated c) cs).
Proof.
  induction cs as [|c0 cs IH]; simpl; [done|].
  destruct (f c0) eqn:E.
  - intros [= ->]. constructor; [by right|]. apply Forall2_same_length_lookup.
    split; [done|]. intros i x y Hx Hy. left. congruence.
  - intros H. constructor; [by left|]. by apply IH.
Qed.

Lemma find_app_fresh (f : Chat -> bool) k cs c :
  findOne k cs = None ->
  (forall c0, f c0 = true -> hasChatId k c0 = true) ->
  List.find f (cs ++ [c]) = List.find f [c].
Proof.
  unfold findOne. intros Hnew Hf. induction cs as [|c0 cs IH]; [done|]. simpl in *.
  destruct (hasChatId k c0) eqn:E; [done|].
  destruct (f c0) eqn:E'; [apply Hf in E'; congruence|]. by apply IH.
Qed.

Lemma findOne_saveFirst_fresh k lawyerId cs c c' :
  findOne k cs = None ->
  isDirectChatOf k lawyerId c = true ->
  hasChatId k c' = true ->
  findOne k (saveFirst (isDirectChatOf k lawyerId) c' (cs ++ [c])) = Some c'.
Proof.
  unfold findOne. intros Hnew Hc Hc'. induction cs as [|c0 cs IH]; simpl in *.
  - by rewrite Hc; simpl; rewrite Hc'.
  - destruct (hasChatId k c0) eqn:E; [done|].
    assert (isDirectChatOf k lawyerId c0 = false) as ->.
    { unfold isDirectChatOf. unfold hasChatId in E. by rewrite E. }
    simpl. rewrite E. by apply IH.
Qed.

(** The outcome of [acceptDirectRequest], case by case. *)
Lemma acceptDirectRequest_cases env lawyerId key db :
  let r := acceptDirectRequest env lawyerId key db in
  (List.find (isDirectChatOf key lawyerId) (chats db) = None
   ∧ r.1.1 = db ∧ res_status r.1.2 = 404%nat ∧ r.2 = [])
  ∨ (exists chat, List.find (isDirectChatOf key lawyerId) (chats db) = Some chat
       ∧ storeWriteOk env = false
       ∧ r.1.1 = db ∧ res_status r.1.2 = 500%nat ∧ r.2 = [])
  ∨ (exists chat, List.find (isDirectChatOf key lawyerId) (chats db) = Some chat
       ∧ storeWriteOk env = true
       ∧ r.1.1 = setChats (saveFirst (isDirectChatOf key lawyerId) (activated chat)
                                     (chats db)) db
       ∧ ((findCitizen (users db) (participants chat) = None
           ∧ res_status r.1.2 = 500%nat ∧ r.2 = [])
          ∨ (exists citizen,
               findCitizen (users db) (participants chat) = Some citizen
               ∧ r.1.2 = {| res_status := 200; res_success := true;
                            res_message := "Direct message request accepted successfully";
                            res_chat := Some (activated chat) |}
               ∧ r.2 = match citizen with
                       | Some p => [ (IoTo ("user_" ++ p_user p),
                                      EvNotify "direct_request_accepted" (Some key)) ]
                       | None => []
                       end))).
Proof.
  intros r. subst r. unfold acceptDirectRequest.
  destruct (List.find _ _) as [chat|] eqn:Hfind; [|by left].
  right. destruct (storeWriteOk env) eqn:Hw; simpl.
  - right. exists chat. split; [done|]. split; [done|].
    destruct (findCitizen _ _) as [citizen|] eqn:Hc; simpl.
    + split; [done|]. right. by exists citizen.
    + split; [done|]. by left.
  - left. by exists chat.
Qed.

(** X16: accepting changes one status and nothing else.  Whatever the
    outcome, [acceptDirectRequest] leaves the users and every room in its
    place; a room is either untouched or it is a direct room of the lawyer
    under the key, now [active], with its key, participants, type and
    messages as before.  The answer is 200, 404 or 500; on 404 there is no
    direct room of the lawyer under the key and nothing changed; on 200 the
    room that the same query finds afterwards is the one in the answer, and
    it is active. *)
Theorem accept_changes_one_status_only env lawyerId key db :
  let r := acceptDirectRequest env lawyerId key db in
  users r.1.1 = users db
  ∧ nextId r.1.1 = nextId db
  ∧ Forall2 (fun c c' => c' = c ∨ (isDirectChatOf key lawyerId c = true
                                   ∧ c' = activated c))
            (chats db) (chats r.1.1)
  ∧ In (res_status r.1.2) [200; 404; 500]%nat
  ∧ (res_status r.1.2 = 404%nat ->
     r.1.1 = db ∧ r.2 = []
     ∧ Forall (fun c => isDirectChatOf key lawyerId c = false) (chats db))
  ∧ (res_status r.1.2 = 200%nat ->
     exists chat,
       res_chat r.1.2 = Some chat
       ∧ status chat = "active"%string
       ∧ List.find (isDirectChatOf key lawyerId) (chats r.1.1) = Some chat).
Proof.
  intros r.
  assert (Hsame : Forall2 (fun c c' : Chat =>
            c' = c ∨ (isDirectChatOf key lawyerId c = true ∧ c' = activated c))
            (chats db) (chats db)).
  { apply Forall2_same_length_lookup. split; [done|]. intros i x y Hx Hy.
    left. congruence. }
  destruct (acceptDirectRequest_cases env lawyerId key db)
    as [(Hnone & Hdb & Hst & Hout)
       |[(chat & Hfind & Hw & Hdb & Hst & Hout)
        |(chat & Hfind & Hw & Hdb & Hrest)]]; fold r in Hdb.
  - fold r in Hst, Hout. rewrite Hdb, Hst.
    split; [done|]. split; [done|]. split; [done|].
    split; [simpl; tauto|]. split; [|done].
    intros _. split; [done|]. split; [done|].
    apply Forall_forall. intros c Hc.
    destruct (isDirectChatOf key lawyerId c) eqn:E; [|done].
    apply list_elem_of_In in Hc.
    pose proof (find_none _ _ Hnone c Hc) as Hn. cbv beta in Hn. congruence.
  - fold r in Hst, Hout. rewrite Hdb, Hst.
    split; [done|]. split; [done|]. split; [done|].
    split; [simpl; tauto|]. split; done.
  - rewrite Hdb. simpl.
    split; [done|]. split; [done|].
    split; [by apply saveFirst_Forall2|].
    destruct Hrest as [(Hc & Hst & Hout)|(citizen & Hc & Hres & Hout)];
      fold r in Hst || fold r in Hres.
    + rewrite Hst. split; [simpl; tauto|]. split; done.
    + rewrite Hres. simpl. split; [tauto|]. split; [done|].
      intros _. exists (activated chat). split; [done|]. split; [done|].
      apply find_saveFirst with (c := chat); [done|].
      rewrite isDirectChatOf_activated. by apply find_some in Hfind as [_ Hf].
Qed.

(** X17: accepting twice is accepting once, but for the notification.  A
    second [acceptDirectRequest] on what the first one left gives the very
    answer of the first, leaves the database as the first left it, and
    emits again what the first emitted: a citizen is told once for every
    accept. *)
Theorem accepting_twice_is_accepting_once env lawyerId key db :
  let r := acceptDirectRequest env lawyerId key db in
  acceptDirectRequest env lawyerId key r.1.1 = r.
Proof.
  intros r.
  destruct (acceptDirectRequest_cases env lawyerId key db)
    as [(Hnone & Hdb & _)
       |[(chat & Hfind & Hw & Hdb & _)
        |(chat & Hfind & Hw & Hdb & _)]]; fold r in Hdb.
  - by rewrite Hdb.
  - by rewrite Hdb.
  - assert (Hf : isDirectChatOf key lawyerId (activated chat) = true).
    { rewrite isDirectChatOf_activated. by apply find_some in Hfind as [_ Hf]. }
    rewrite Hdb. subst r. unfold acceptDirectRequest. simpl.
    rewrite (find_saveFirst _ chat (activated chat)) by done.
    rewrite Hfind, Hw. simpl. rewrite activated_idem.
    by rewrite saveFirst_twice.
Qed.

(** X18: a request and its acceptance open the room.  When a first
    message request of a citizen to a lawyer is answered with 200, and the
    lawyer (under the id that the store holds for the lawyer named in
    the request) then accepts under the key of that answer while the store
    takes the write, the acceptance is answered with 200, the room of that key is
    [active] after having been [pending], it holds the same first message
    and the same two participants, the citizen's personal room gets one
    [direct_request_accepted] with the key, and both of them pass the
    access check of the gateway for the room. *)
Theorem request_then_accept_opens_the_room
    castObjectId env env' userId lawyerId lawyerKey message db citizen :
  castObjectId lawyerId = Some lawyerKey ->
  users db !! userId = Some citizen ->
  role citizen = "citizen"%string ->
  findOne (Controller.directChatId userId lawyerId) (chats db) = None ->
  storeWriteOk env' = true ->
  Controller.res_status
    (Controller.sendDirectMessageRequest castObjectId env userId lawyerId message db).1.2
  = 200%nat ->
  let key := Controller.directChatId userId lawyerId in
  let r1 := Controller.sendDirectMessageRequest castObjectId env userId lawyerId message
              db in
  let r2 := acceptDirectRequest env' lawyerKey key r1.1.1 in
  res_status r2.1.2 = 200%nat
  ∧ r2.2 = [ (IoTo ("user_" ++ userId), EvNotify "direct_request_accepted" (Some key)) ]
  ∧ (exists c1 c2,
       findOne key (chats r1.1.1) = Some c1
       ∧ findOne key (chats r2.1.1) = Some c2
       ∧ status c1 = "pending"%string
       ∧ status c2 = "active"%string
       ∧ messages c2 = messages c1
       ∧ map p_user (participants c2) = [userId; lawyerKey]
       ∧ res_chat r2.1.2 = Some c2)
  ∧ Helpers.validateChatAccess key userId r2.1.1 = true
  ∧ Helpers.validateChatAccess key lawyerKey r2.1.1 = true.
Proof.
  intros Hk Hu Hrole Hnew Hw H200 key r1 r2.
  assert (Hr1 : exists l chat,
    users db !! lawyerKey = Some l
    ∧ chat = {| chatId := key;
                participants := [ {| p_user := userId; p_role := "citizen" |};
                                  {| p_user := lawyerKey; p_role := "lawyer" |} ];
                chatType := "direct"; status := "pending";
                messages := [ {| m_id := nextId db; m_sender := userId;
                                 m_content := Js.orElse message Controller.greeting;
                                 m_timestamp := now env;
                                 m_messageType := "text"; m_isRead := false |} ];
                lastMessage := Some {| lm_sender := userId;
                                       lm_content := Js.orElse message Controller.greeting;
                                       lm_timestamp := now env |} |}
    ∧ chats r1.1.1 = chats db ++ [chat]
    ∧ users r1.1.1
      = <[userId := logRequest (now env) citizen lawyerKey]> (users db)).
  { subst r1. revert H200.
    unfold Controller.sendDirectMessageRequest, addMessageRequest. rewrite Hk.
    destruct (users db !! lawyerKey) as [l|]; simpl; [|done].
    destruct (Controller.isVerifiedLawyer l); simpl; [|done].
    rewrite Hu. destruct (canSendMessageRequest _ _ _); simpl; [|done].
    destruct (storeWriteOk env); simpl; [|done].
    rewrite Hnew. simpl. intros _. eexists _, _. done. }
  destruct Hr1 as (l & chat & Hl & Hchat & Hchats & Husers).
  assert (Hold : forall f : Chat -> bool,
            (forall c, f c = true -> hasChatId key c = true) ->
            List.find f (chats db ++ [chat]) = List.find f [chat])
    by (intros f Hf; by apply find_app_fresh with (k := key)).
  assert (Hdirect : isDirectChatOf key lawyerKey chat = true).
  { subst chat. unfold isDirectChatOf. simpl.
    rewrite !String.eqb_refl. by rewrite orb_true_r. }
  assert (Hfind : List.find (isDirectChatOf key lawyerKey) (chats r1.1.1) = Some chat).
  { rewrite Hchats, Hold.
    - simpl. by rewrite Hdirect.
    - intros c Hc. unfold isDirectChatOf in Hc.
      apply andb_prop in Hc as [Hc _]. by apply andb_prop in Hc as [Hc _]. }
  assert (Hcit : findCitizen (users r1.1.1) (participants chat)
                 = Some (Some {| p_user := userId; p_role := "citizen" |})).
  { subst chat. simpl. rewrite Husers, lookup_insert_eq. simpl. by rewrite Hrole. }
  assert (Hone1 : findOne key (chats r1.1.1) = Some chat).
  { unfold findOne. rewrite Hchats, Hold by done. simpl.
    subst chat. unfold hasChatId. simpl. by rewrite String.eqb_refl. }
  assert (Hr2 : r2 = (setChats (saveFirst (isDirectChatOf key lawyerKey)
                                          (activated chat) (chats r1.1.1)) r1.1.1,
                      {| res_status := 200; res_success := true;
                         res_message := "Direct message request accepted successfully";
                         res_chat := Some (activated chat) |},
                      [ (IoTo ("user_" ++ userId),
                         EvNotify "direct_request_accepted" (Some key)) ])).
  { subst r2. unfold acceptDirectRequest. rewrite Hfind, Hw. simpl.
    change (participants (activated chat)) with (participants chat).
    by rewrite Hcit. }
  clearbody r2. subst r2. cbn [fst snd chats setChats res_status res_chat].
  assert (Hone2 : findOne key (saveFirst (isDirectChatOf key lawyerKey)
                                         (activated chat) (chats r1.1.1))
                  = Some (activated chat)).
  { rewrite Hchats.
    apply findOne_saveFirst_fresh; [done|done|].
    subst chat. unfold hasChatId. simpl. by rewrite String.eqb_refl. }
  split; [done|]. split; [done|]. split.
  - exists chat, (activated chat).
    split; [done|]. split; [done|]. subst chat. done.
  - unfold Helpers.validateChatAccess. cbn [chats setChats]. rewrite Hone2.
    subst chat. simpl. rewrite !String.eqb_refl. by rewrite orb_true_r.
Qed.

Example request_then_accept_opens_the_room_witness :
  res_status
    (acceptDirectRequest (Scenario.at_ 6000) Office.bob
       (Controller.directChatId Office.carol Office.bob)
       (Controller.sendDirectMessageRequest Mongo.castObjectId (Scenario.at_ 5000)
          Office.carol Office.bob None Office.store).1.1).1.2 = 200%nat.
Proof.
  eapply (request_then_accept_opens_the_room Mongo.castObjectId (Scenario.at_ 5000)
            (Scenario.at_ 6000) Office.carol Office.bob Office.bob None Office.store
            Scenario.citizen); by vm_compute.
Defined.

End LawyerFacts.


(** ** Cases: requests and offers *)
Section CaseFacts.
Import Cases.

Variable castObjectId : string -> option string.

Local Abbreviation requestLawyerForCase := (Cases.requestLawyerForCase castObjectId).

Lemma findById_saveCase k k' c cs :
  findById k' (saveCase k c cs) =
  if String.eqb k' k
  then match findById k cs with Some _ => Some c | None => None end
  else findById k' cs.
Proof.
  unfold findById. induction cs as [|[k0 c0] cs IH]; simpl.
  - by destruct (String.eqb k' k).
  - destruct (String.eqb k0 k) eqn:E; simpl.
    + apply String.eqb_eq in E. subst k0. rewrite (String.eqb_sym k k').
      destruct (String.eqb k' k) eqn:E'; simpl; [done|]. done.
    + destruct (String.eqb k0 k') eqn:E'; simpl.
      * apply String.eqb_eq in E'. subst k0. rewrite E. done.
      * rewrite IH. done.
Qed.

Lemma collection_setCollection t t' cs db :
  validCaseType t = true -> validCaseType t' = true ->
  collection t' (setCollection t cs db) =
  if String.eqb t' t then cs else collection t' db.
Proof.
  unfold validCaseType, collection, setCollection. intros Ht Ht'.
  destruct (String.eqb t "query") eqn:E1; destruct (String.eqb t' "query") eqn:E2;
    simpl in *.
  - apply String.eqb_eq in E1, E2. subst. by rewrite String.eqb_refl.
  - apply String.eqb_eq in E1. subst. by rewrite E2.
  - apply String.eqb_eq in E2. subst. by rewrite (String.eqb_sym "query" t), E1.
  - apply String.eqb_eq in Ht, Ht'. subst. done.
Qed.

Lemma saveCase_In k c cs kc :
  In kc (saveCase k c cs) -> In kc cs ∨ (kc = (k, c) ∧ findById k cs ≠ None).
Proof.
  unfold findById. induction cs as [|[k0 c0] cs IH]; simpl; [tauto|].
  destruct (String.eqb k0 k) eqn:E; simpl.
  - intros [<-|H]; [right|left; by right]. done.
  - intros [<-|H]; [left; by left|]. destruct (IH H) as [?|[? ?]]; [left; by right|].
    by right.
Qed.

(** The outcome of [requestLawyerForCase], read off its status code. *)
Lemma requestLawyerForCase_200 env userId caseType caseId lawyer text fee db :
  Controller.res_status
    (requestLawyerForCase env userId caseType caseId lawyer text fee db).1.2 = 200%nat ->
  exists caseKey lawyerKey caseDoc request,
    validCaseType caseType = true
    ∧ castObjectId caseId = Some caseKey
    ∧ castObjectId lawyer = Some lawyerKey
    ∧ findById caseKey (collection caseType db) = Some caseDoc
    ∧ citizen caseDoc = userId
    ∧ available caseDoc = true
    ∧ List.find (pendingFrom lawyer) (citizenRequests caseDoc) = None
    ∧ lawyerId request = lawyerKey ∧ status request = "pending"%string
    ∧ requestedAt request = now env
    ∧ (requestLawyerForCase env userId caseType caseId lawyer text fee db).1.1
      = setCollection caseType
          (saveCase caseKey
             (withCitizenRequests (citizenRequests caseDoc ++ [request]) caseDoc)
             (collection caseType db)) db.
Proof.
  unfold Cases.requestLawyerForCase.
  destruct (validCaseType caseType) eqn:Ht; simpl; [|done].
  destruct (castObjectId caseId) as [caseKey|] eqn:Hk; simpl; [|done].
  destruct (findById _ _) as [caseDoc|] eqn:Hf; simpl; [|done].
  destruct (String.eqb (citizen caseDoc) userId) eqn:Ho; simpl; [|done].
  destruct (available caseDoc) eqn:Ha; simpl; [|done].
  destruct (castObjectId lawyer) as [lawyerKey|] eqn:Hlk; simpl; [|done].
  destruct (match users db !! lawyerKey with Some l => _ | None => _ end); simpl; [|done].
  destruct (List.find _ _) eqn:Hp; simpl; [done|].
  destruct (storeWriteOk env); simpl; [|done].
  intros _. apply String.eqb_eq in Ho. eexists caseKey, lawyerKey, caseDoc, _.
  split; [done|]. split; [done|]. split; [done|]. split; [done|]. split; [done|].
  split; [done|]. split; [done|].
  split; [|split; [|split]]; [| | |reflexivity]; done.
Qed.

Lemma requestLawyerForCase_refused env userId caseType caseId lawyer text fee db :
  Controller.res_status
    (requestLawyerForCase env userId caseType caseId lawyer text fee db).1.2 ≠ 200%nat ->
  (requestLawyerForCase env userId caseType caseId lawyer text fee db).1.1 = db
  ∧ (requestLawyerForCase env userId caseType caseId lawyer text fee db).2 = [].
Proof.
  unfold Cases.requestLawyerForCase.
  destruct (validCaseType caseType); simpl; [|done].
  destruct (castObjectId caseId) as [caseKey|]; simpl; [|done].
  destruct (findById _ _) as [caseDoc|]; simpl; [|done].
  destruct (String.eqb (citizen caseDoc) userId); simpl; [|done].
  destruct (available caseDoc); simpl; [|done].
  destruct (castObjectId lawyer) as [lawyerKey|]; simpl; [|done].
  destruct (match users db !! lawyerKey with Some l => _ | None => _ end); simpl; [|done].
  destruct (List.find _ _); simpl; [done|].
  destruct (storeWriteOk env); simpl; done.
Qed.

Lemma onePendingPerLawyer_add rs r :
  onePendingPerLawyer rs ->
  List.find (pendingFrom (lawyerId r)) rs = None ->
  onePendingPerLawyer (rs ++ [r]).
Proof.
  intros Hone Hnone l. rewrite List.filter_app, length_app. simpl.
  destruct (pendingFrom l r) eqn:E; simpl; [|specialize (Hone l); lia].
  assert (l = lawyerId r) as ->.
  { unfold pendingFrom in E. apply andb_prop in E as [E _].
    apply String.eqb_eq in E. done. }
  assert (List.filter (pendingFrom (lawyerId r)) rs = []) as ->; [|simpl; lia].
  clear -Hnone. induction rs as [|x rs IH]; simpl in *; [done|].
  destruct (pendingFrom (lawyerId r) x); [done|]. by apply IH.
Qed.

(** X19: at most one pending request for a lawyer on a case, for requests
    that spell the id of the lawyer as the store does.  If in no case of
    the database two pending requests of the citizen name the same lawyer,
    then after a [requestLawyerForCase] whose [lawyerId] is cast to itself,
    whatever its answer, that is still so, in the collection of the request
    and in the other one.  In any spelling, a request that is not answered
    with 200 changes nothing and notifies nobody; one answered with 200 is
    announced once, to every connected socket. *)
Theorem one_pending_request_per_lawyer env userId caseType caseId lawyer text fee db :
  let r := requestLawyerForCase env userId caseType caseId lawyer text fee db in
  ((forall lawyerKey, castObjectId lawyer = Some lawyerKey -> lawyerKey = lawyer) ->
   (forall t k c, validCaseType t = true -> In (k, c) (collection t db) ->
                  onePendingPerLawyer (citizenRequests c)) ->
   forall t k c, validCaseType t = true -> In (k, c) (collection t r.1.1) ->
                 onePendingPerLawyer (citizenRequests c))
  ∧ (Controller.res_status r.1.2 ≠ 200%nat -> r.1.1 = db ∧ r.2 = [])
  ∧ (Controller.res_status r.1.2 = 200%nat -> r.2 = [ToEveryone "citizen_request_sent"]).
Proof.
  intros r.
  destruct (decide (Controller.res_status r.1.2 = 200%nat)) as [H200|Hrej].
  - split; [|split; [done|]].
    + intros Hcanon Hinv.
      destruct (requestLawyerForCase_200 _ _ _ _ _ _ _ _ H200)
        as (caseKey & lawyerKey & caseDoc & request & Ht & Hk & Hlk & Hf & _ & _ & Hnone
            & Hl & _ & _ & Hdb).
      fold r in Hdb. rewrite Hdb. intros t k c Hvt.
      rewrite collection_setCollection by done.
      destruct (String.eqb t caseType) eqn:E; [|by apply Hinv].
      apply String.eqb_eq in E. subst t. intros Hin.
      apply saveCase_In in Hin as [Hin|[[= -> ->] _]]; [by eapply Hinv|].
      simpl. apply onePendingPerLawyer_add.
      * unfold findById in Hf.
        destruct (List.find _ (collection caseType db)) as [[k0 c0]|] eqn:Hfind;
          [|done].
        simpl in Hf. injection Hf as ->. apply find_some in Hfind as [Hin _].
        by eapply Hinv.
      * rewrite Hl. by rewrite (Hcanon _ Hlk).
    + intros _. subst r. revert H200. unfold Cases.requestLawyerForCase.
      repeat (case_match; simpl; try done).
  - destruct (requestLawyerForCase_refused _ _ _ _ _ _ _ _ Hrej) as [Hdb Hout].
    fold r in Hdb, Hout. rewrite Hdb. split; [done|]. split; done.
Qed.

End CaseFacts.


(** ** Paging and sorting *)
Section PagingFacts.
Import JsMore Paging.

Lemma slice_nonneg {A} (start finish : Z) (items : list A) :
  0 <= start -> start <= finish ->
  slice start finish items
  = firstn (Z.to_nat (finish - start)) (skipn (Z.to_nat start) items).
Proof.
  intros Hs Hf. unfold slice, relativeIndex.
  rewrite (proj2 (Z.ltb_ge start 0)), (proj2 (Z.ltb_ge finish 0)) by lia.
  destruct (Z_le_gt_dec (Z.of_nat (length items)) start) as [Hge|Hlt].
  - rewrite Z.min_r by lia. rewrite !skipn_all2 by lia. by rewrite !firstn_nil.
  - rewrite (Z.min_l start) by lia.
    destruct (Z_le_gt_dec finish (Z.of_nat (length items))) as [Hle|Hgt].
    + by rewrite Z.min_l by lia.
    + rewrite Z.min_r by lia.
      rewrite !firstn_all2; [done| |]; rewrite length_skipn; lia.
Qed.

Ltac powers :=
  change (2 ^ 53) with 9007199254740992 in *;
  change (2 ^ 52) with 4503599627370496 in *;
  change (2 ^ 32) with 4294967296 in *.

Lemma exact_bounds z : exact z = true <-> - 9007199254740992 <= z <= 9007199254740992.
Proof.
  unfold exact. change (2 ^ 53) with 9007199254740992.
  rewrite andb_true_iff, !Z.leb_le. done.
Qed.

(** Within the range of exact arithmetic the block is the one of the
    integers. *)
Lemma paginate_Some {A} (page limit : Z) (items : list A) :
  0 <= page -> 1 <= limit <= 2 ^ 53 -> page * limit <= 2 ^ 53 ->
  Z.of_nat (length items) < 2 ^ 32 ->
  paginate page limit items
  = Some (slice ((page - 1) * limit) ((page - 1) * limit + limit) items,
          {| current := page;
             pages := Some (ceilDiv (Z.of_nat (length items)) limit);
             total := Z.of_nat (length items) |}).
Proof.
  intros Hp Hl Hpl Hlen. unfold paginate. powers.
  rewrite (proj2 (exact_bounds page)) by nia.
  rewrite (proj2 (exact_bounds limit)) by nia.
  rewrite (proj2 (exact_bounds (page - 1))) by nia.
  rewrite (proj2 (exact_bounds ((page - 1) * limit))) by nia.
  rewrite (proj2 (exact_bounds ((page - 1) * limit + limit))) by nia.
  rewrite (proj2 (Z.ltb_lt _ _) Hlen). simpl.
  by rewrite (proj2 (Z.eqb_neq limit 0)) by lia.
Qed.

Lemma window_page {A} (page limit : Z) (items : list A) :
  1 <= page -> 0 <= limit ->
  slice ((page - 1) * limit) ((page - 1) * limit + limit) items
  = firstn (Z.to_nat limit) (skipn (Z.to_nat (page - 1) * Z.to_nat limit) items).
Proof.
  intros Hp Hl. rewrite slice_nonneg by nia.
  f_equal; [f_equal; lia|]. f_equal. nia.
Qed.

Lemma chunks_firstn {A} (L n : nat) (items : list A) :
  concat (map (fun p => firstn L (skipn (p * L) items)) (seq 0 n))
  = firstn (n * L) items.
Proof.
  induction n as [|n IH]; [done|].
  rewrite seq_S, map_app, concat_app, IH. simpl. rewrite app_nil_r.
  rewrite take_take_drop. f_equal. lia.
Qed.

Lemma ceilDiv_bounds (a b : Z) :
  0 < b -> a <= ceilDiv a b * b < a + b.
Proof.
  intros Hb. unfold ceilDiv.
  pose proof (Z.div_mod (- a) b ltac:(lia)).
  pose proof (Z.mod_pos_bound (- a) b Hb). nia.
Qed.

Lemma pages_in_range (len limit n page : Z) :
  1 <= limit <= 2 ^ 52 -> len < 2 ^ 32 -> n * limit < len + limit ->
  1 <= page <= n -> page * limit <= 2 ^ 53.
Proof.
  powers. nia.
Qed.

(** X20: the pages partition the list.  For a limit between 1 and
    [2 ^ 52] and a list shorter than [2 ^ 32] (as every array is), in the
    range where the arithmetic of the block is exact: the listing has
    [ceil(total / limit)] pages, all of them in that range; laid one after
    another, pages 1 to the last give back the list, every entry once and
    in its order; no page holds more than [limit] entries; a page is empty
    exactly when its number is beyond the last; and page 0 is empty. *)
Theorem pages_partition_the_list {A} (limit : Z) (items : list A) :
  1 <= limit <= 2 ^ 52 ->
  Z.of_nat (length items) < 2 ^ 32 ->
  exists n : nat,
    (forall page, 0 <= page -> page * limit <= 2 ^ 53 ->
       snd <$> paginate page limit items
       = Some {| current := page; pages := Some (Z.of_nat n);
                 total := Z.of_nat (length items) |})
    ∧ Z.of_nat (length items) <= Z.of_nat n * limit < Z.of_nat (length items) + limit
    ∧ (forall page, 1 <= page <= Z.of_nat n -> page * limit <= 2 ^ 53)
    ∧ concat (map (fun p => from_option fst [] (paginate (Z.of_nat p + 1) limit items))
                  (seq 0 n)) = items
    ∧ (forall page, 1 <= page -> page * limit <= 2 ^ 53 ->
         exists entries,
           fst <$> paginate page limit items = Some entries
           ∧ Z.of_nat (length entries) <= limit
           ∧ (entries = [] <-> Z.of_nat n < page))
    ∧ fst <$> paginate 0 limit items = Some [].
Proof.
  intros Hl Hlen.
  pose proof (ceilDiv_bounds (Z.of_nat (length items)) limit ltac:(lia)) as Hc.
  exists (Z.to_nat (ceilDiv (Z.of_nat (length items)) limit)).
  assert (Hn : 0 <= ceilDiv (Z.of_nat (length items)) limit) by nia.
  rewrite Z2Nat.id by done.
  assert (Hrange : forall page, 1 <= page <= ceilDiv (Z.of_nat (length items)) limit ->
                     page * limit <= 2 ^ 53).
  { intros page Hp. eapply pages_in_range; [exact Hl|exact Hlen| |exact Hp]. lia. }
  split; [|split; [|split; [|split; [|split]]]].
  - intros page Hp Hpl. rewrite paginate_Some by (done || (powers; lia)). done.
  - done.
  - done.
  - erewrite map_ext_in.
    + rewrite (chunks_firstn (Z.to_nat limit)). apply firstn_all2. nia.
    + intros p Hp. apply in_seq in Hp. cbv beta.
      rewrite paginate_Some by (try apply Hrange; powers; lia). simpl.
      rewrite window_page by lia. do 3 f_equal. lia.
  - intros page Hp Hpl. rewrite paginate_Some by (done || (powers; lia)). simpl.
    eexists. split; [done|]. rewrite window_page by lia. split.
    + rewrite length_firstn. lia.
    + split.
      * intros Hnil. apply (f_equal (@length A)) in Hnil.
        rewrite length_firstn, length_skipn in Hnil. simpl in Hnil. nia.
      * intros Hlt. rewrite skipn_all2; [by rewrite firstn_nil|]. nia.
  - rewrite paginate_Some by (done || (powers; lia)). simpl. f_equal.
    unfold slice, relativeIndex.
    replace ((0 - 1) * limit) with (- limit) by lia.
    replace (- limit + limit) with 0 by lia.
    rewrite (proj2 (Z.ltb_lt (- limit) 0)) by lia. rewrite Z.ltb_irrefl.
    rewrite Z.min_l by lia.
    replace (Z.to_nat (0 - _)) with 0%nat by lia. done.
Qed.

Example pages_partition_the_list_witness :
  pages <$> (snd <$> paginate 2 2 ["a"; "b"; "c"; "d"; "e"]%string) = Some (Some 3).
Proof.
  destruct (pages_partition_the_list 2 ["a"; "b"; "c"; "d"; "e"]%string)
    as (n & Hpages & Hn & _); [by vm_compute..|].
  rewrite Hpages by (by vm_compute). simpl in *. do 2 f_equal. lia.
Defined.

End PagingFacts.


(** ** Cases: repeated requests, offers and the listing *)
Section CaseFactsMore.
Import Cases.

Variable castObjectId : string -> option string.

Local Abbreviation requestLawyerForCase := (Cases.requestLawyerForCase castObjectId).
Local Abbreviation offerHelpOnCase := (Cases.offerHelpOnCase castObjectId).

Lemma users_setCollection t cs db : users (setCollection t cs db) = users db.
Proof. unfold setCollection. by destruct (String.eqb t "query"). Qed.

Lemma find_app_last {A} (f : A -> bool) l x :
  List.find f l = None -> f x = true -> List.find f (l ++ [x]) = Some x.
Proof.
  intros Hn Hx. induction l as [|y l IH]; simpl in *; [by rewrite Hx|].
  destruct (f y); [done|]. by apply IH.
Qed.

Lemma setCollection_same t db :
  validCaseType t = true -> setCollection t (collection t db) db = db.
Proof.
  unfold setCollection, collection. intros _.
  destruct (String.eqb t "query"); by destruct db.
Qed.

Lemma requestLawyerForCase_200_lawyer env userId caseType caseId lawyer text fee db :
  Controller.res_status
    (requestLawyerForCase env userId caseType caseId lawyer text fee db).1.2 = 200%nat ->
  exists lawyerKey,
    castObjectId lawyer = Some lawyerKey
    ∧ match users db !! lawyerKey with
      | Some l => Controller.isVerifiedLawyer l
      | None => false
      end = true.
Proof.
  unfold Cases.requestLawyerForCase.
  destruct (validCaseType caseType); simpl; [|done].
  destruct (castObjectId caseId) as [caseKey|]; simpl; [|done].
  destruct (findById _ _) as [caseDoc|]; simpl; [|done].
  destruct (String.eqb (citizen caseDoc) userId); simpl; [|done].
  destruct (available caseDoc); simpl; [|done].
  destruct (castObjectId lawyer) as [lawyerKey|]; simpl; [|done].
  destruct (match users db !! lawyerKey with Some l => _ | None => _ end) eqn:E;
    [|done].
  intros _. by exists lawyerKey.
Qed.

(** The outcome of an offer that is answered with 200. *)
Lemma offerHelpOnCase_200 env userId caseType caseId text fee duration db :
  Controller.res_status
    (offerHelpOnCase env userId caseType caseId text fee duration db).1.2 = 200%nat ->
  exists caseKey caseDoc offer,
    validCaseType caseType = true
    ∧ castObjectId caseId = Some caseKey
    ∧ findById caseKey (collection caseType db) = Some caseDoc
    ∧ available caseDoc = true
    ∧ assignedLawyer caseDoc = None
    ∧ lawyerRequests caseDoc = []
    ∧ lawyerId offer = userId ∧ status offer = "pending"%string
    ∧ offerHelpOnCase env userId caseType caseId text fee duration db
      = (setCollection caseType
           (saveCase caseKey (withLawyerRequests [offer] caseDoc)
                     (collection caseType db)) db,
         reply 200 true "Offer sent successfully",
         [ToRoom ("user_" ++ citizen caseDoc) "new_lawyer_offer"]).
Proof.
  unfold Cases.offerHelpOnCase.
  destruct (validCaseType caseType) eqn:Ht; simpl; [|done].
  destruct (castObjectId caseId) as [caseKey|] eqn:Hk; simpl; [|done].
  destruct (findById _ _) as [caseDoc|] eqn:Hf; simpl; [|done].
  destruct (available caseDoc) eqn:Ha; simpl; [|done].
  case_bool_decide as Hassigned; simpl; [done|].
  destruct (lawyerRequests caseDoc) eqn:Hlr; simpl; [|done].
  destruct (storeWriteOk env); simpl; [|done].
  intros _. eexists caseKey, caseDoc, _.
  split; [done|]. split; [done|]. split; [done|]. split; [done|].
  split; [by destruct (assignedLawyer caseDoc); [destruct Hassigned|]|].
  split; [done|]. split; [|split]; [| |reflexivity]; done.
Qed.

(** X21: a repeated request is refused when it names the lawyer by the id
    that the store holds.  Once a request for a lawyer on a case was
    answered with 200, the same citizen asking on the same case again for
    the lawyer under the id that the first request was cast to (an id that
    is cast to itself), at any time and with whatever text and fee, is
    answered with 400; the second call changes nothing and announces
    nothing. *)
Theorem repeated_case_request_is_refused
    env env' userId caseType caseId lawyer lawyerKey text text' fee fee' db :
  castObjectId lawyer = Some lawyerKey ->
  castObjectId lawyerKey = Some lawyerKey ->
  Controller.res_status
    (requestLawyerForCase env userId caseType caseId lawyer text fee db).1.2 = 200%nat ->
  let db' := (requestLawyerForCase env userId caseType caseId lawyer text fee db).1.1 in
  requestLawyerForCase env' userId caseType caseId lawyerKey text' fee' db'
  = (db',
     reply 400 false "You have already sent a request to this lawyer for this case",
     []).
Proof.
  intros Hcast Hcanon H200 db'.
  destruct (requestLawyerForCase_200 _ _ _ _ _ _ _ _ _ H200)
    as (caseKey & k & caseDoc & request & Ht & Hk & Hlk & Hf & Ho & Ha & Hp & Hl & Hs
        & _ & Hdb).
  rewrite Hcast in Hlk. injection Hlk as <-.
  destruct (requestLawyerForCase_200_lawyer _ _ _ _ _ _ _ _ H200) as (k & Hlk & Hv).
  rewrite Hcast in Hlk. injection Hlk as <-.
  subst db'. rewrite Hdb. clear Hdb H200.
  unfold Cases.requestLawyerForCase. rewrite Ht. simpl. rewrite Hk.
  rewrite collection_setCollection, String.eqb_refl by done.
  rewrite findById_saveCase, String.eqb_refl, Hf.
  cbn [citizen withCitizenRequests]. rewrite Ho, String.eqb_refl. simpl.
  change (available (withCitizenRequests (citizenRequests caseDoc ++ [request]) caseDoc))
    with (available caseDoc).
  rewrite Ha. simpl. rewrite Hcanon, users_setCollection, Hv. simpl.
  assert (Hlast : pendingFrom lawyerKey request = true)
    by (unfold pendingFrom; by rewrite Hl, Hs, !String.eqb_refl).
  destruct (List.find (pendingFrom lawyerKey) (citizenRequests caseDoc ++ [request]))
    eqn:Hfind; [done|].
  rewrite (find_none _ _ Hfind request) in Hlast; [done|].
  apply in_or_app. right. by left.
Qed.

(** X22: a case takes one offer.  In the search for an earlier offer the
    handler reads [req.user] off the entries of [lawyerRequests], so once
    an offer on a case was answered with 200, every later offer on that
    case (named by an id that is cast to the same id), by whichever lawyer
    and at whatever time, is answered with 500 (and not with the 400 of a
    repeated offer); it changes nothing and tells nobody. *)
Theorem a_case_takes_one_offer
    env env' userId userId' caseType caseId caseId' text text' fee fee' duration
    duration' db :
  castObjectId caseId' = castObjectId caseId ->
  Controller.res_status
    (offerHelpOnCase env userId caseType caseId text fee duration db).1.2 = 200%nat ->
  let db' := (offerHelpOnCase env userId caseType caseId text fee duration db).1.1 in
  (offerHelpOnCase env userId caseType caseId text fee duration db).2
  = [ToRoom ("user_" ++ default ""%string
                          (citizen <$> (castObjectId caseId ≫= fun caseKey =>
                                          findById caseKey (collection caseType db))))
            "new_lawyer_offer"]
  ∧ offerHelpOnCase env' userId' caseType caseId' text' fee' duration' db'
    = (db', reply 500 false "Failed to send offer", []).
Proof.
  intros Hsame H200 db'.
  destruct (offerHelpOnCase_200 _ _ _ _ _ _ _ _ H200)
    as (caseKey & caseDoc & offer & Ht & Hk & Hf & Ha & Has & Hlr & _ & _ & Hrun).
  subst db'. rewrite Hrun, Hk. simpl. rewrite Hf. clear Hrun H200. simpl.
  split; [done|].
  unfold Cases.offerHelpOnCase. rewrite Ht. simpl. rewrite Hsame, Hk.
  rewrite collection_setCollection, String.eqb_refl by done.
  rewrite findById_saveCase, String.eqb_refl, Hf.
  change (available (withLawyerRequests [offer] caseDoc)) with (available caseDoc).
  rewrite Ha. simpl. rewrite Has. done.
Qed.

End CaseFactsMore.

(** ** Runs on the cases of Carol *)
Section CaseRuns.
Import Cases.

Example repeated_case_request_is_refused_witness :
  Controller.res_status
    (Cases.requestLawyerForCase Mongo.castObjectId (Scenario.at_ 9000) Office.carol
       "query" CaseScenario.tenancyId Office.bob None (Some 5)
       (Cases.requestLawyerForCase Mongo.castObjectId (Scenario.at_ 5000) Office.carol
          "query" CaseScenario.tenancyId Office.bobInCapitals None None
          CaseScenario.db).1.1).1.2 = 400%nat.
Proof.
  rewrite (repeated_case_request_is_refused Mongo.castObjectId (Scenario.at_ 5000)
             (Scenario.at_ 9000) Office.carol "query" CaseScenario.tenancyId
             Office.bobInCapitals Office.bob None None None (Some 5) CaseScenario.db);
    by vm_compute.
Defined.

Example a_case_takes_one_offer_witness :
  Controller.res_status
    (Cases.offerHelpOnCase Mongo.castObjectId (Scenario.at_ 9000) Office.dan "dispute"
       CaseScenario.boundaryId None None None
       (Cases.offerHelpOnCase Mongo.castObjectId (Scenario.at_ 5000) Office.bob "dispute"
          CaseScenario.boundaryId None None None CaseScenario.db).1.1).1.2 = 500%nat.
Proof.
  destruct (a_case_takes_one_offer Mongo.castObjectId (Scenario.at_ 5000)
              (Scenario.at_ 9000) Office.bob Office.dan "dispute" CaseScenario.boundaryId
              CaseScenario.boundaryId None None None None None None CaseScenario.db)
    as [_ ->]; by vm_compute.
Defined.

End CaseRuns.


(** ** The listing of the pending requests *)
Section ListingFacts.
Import JsMore Paging Cases.

Ltac powers :=
  change (2 ^ 53) with 9007199254740992 in *;
  change (2 ^ 52) with 4503599627370496 in *;
  change (2 ^ 32) with 4294967296 in *.

Example one_pending_request_per_lawyer_witness :
  let r := Cases.requestLawyerForCase Mongo.castObjectId (Scenario.at_ 5000) Office.carol
             "query" CaseScenario.tenancyId Office.bob None None CaseScenario.db in
  r.2 = [ToEveryone "citizen_request_sent"]
  ∧ forall t k c, validCaseType t = true -> In (k, c) (collection t r.1.1) ->
                  onePendingPerLawyer (citizenRequests c).
Proof.
  intros r.
  destruct (one_pending_request_per_lawyer Mongo.castObjectId (Scenario.at_ 5000)
              Office.carol "query" CaseScenario.tenancyId Office.bob None None
              CaseScenario.db) as (Hinv & _ & Hout).
  split; [apply Hout; by vm_compute|]. apply Hinv.
  - intros k Hk. vm_compute in Hk. by injection Hk as <-.
  - intros t k c _ Hin l. unfold collection in Hin.
    destruct (String.eqb t "query"); simpl in Hin; destruct Hin as [[= <- <-]|[]].
    + change (length (if pendingFrom l CaseScenario.toDan
                      then [CaseScenario.toDan] else []) <= 1)%nat.
      destruct (pendingFrom l CaseScenario.toDan); simpl; lia.
    + simpl. lia.
Defined.

Lemma pages_concat {A} (limit : Z) (items : list A) :
  1 <= limit <= 2 ^ 52 ->
  Z.of_nat (length items) < 2 ^ 32 ->
  concat (map (fun p => from_option fst [] (paginate (Z.of_nat p + 1) limit items))
              (seq 0 (Z.to_nat (ceilDiv (Z.of_nat (length items)) limit))))
  = items.
Proof.
  intros Hl Hlen.
  pose proof (ceilDiv_bounds (Z.of_nat (length items)) limit ltac:(lia)) as Hc.
  erewrite map_ext_in.
  - rewrite (chunks_firstn (Z.to_nat limit)). apply firstn_all2. nia.
  - intros p Hp. apply in_seq in Hp. cbv beta.
    rewrite paginate_Some; [|lia|powers; lia| |done].
    + simpl. rewrite window_page by lia. do 3 f_equal. lia.
    + eapply (pages_in_range _ _ (ceilDiv (Z.of_nat (length items)) limit));
        [exact Hl|exact Hlen|lia|lia].
Qed.

Lemma insertDesc_Permutation {A} (key : A -> Z) x l :
  Permutation (insertDesc key x l) (x :: l).
Proof.
  induction l as [|y l IH]; simpl; [done|].
  destruct (key y <=? key x); [done|].
  rewrite IH. apply perm_swap.
Qed.

Lemma sortDesc_Permutation {A} (key : A -> Z) l : Permutation (sortDesc key l) l.
Proof.
  induction l as [|x l IH]; simpl; [done|].
  rewrite insertDesc_Permutation. by constructor.
Qed.

Lemma insertDesc_sorted {A} (key : A -> Z) x l :
  StronglySorted (fun a b => key b <= key a) l ->
  StronglySorted (fun a b => key b <= key a) (insertDesc key x l).
Proof.
  induction 1 as [|y l Hs IH Hy]; simpl.
  - constructor; [constructor|constructor].
  - destruct (key y <=? key x) eqn:E.
    + apply Z.leb_le in E. constructor; [by constructor|].
      constructor; [done|]. eapply List.Forall_impl; [|exact Hy].
      intros b Hb. cbv beta in *. lia.
    + apply Z.leb_gt in E. constructor; [done|].
      apply List.Forall_forall. intros b Hb.
      apply (Permutation_in _ (insertDesc_Permutation key x l)) in Hb.
      destruct Hb as [<-|Hb]; [lia|].
      rewrite List.Forall_forall in Hy. by apply Hy.
Qed.

Lemma sortDesc_sorted {A} (key : A -> Z) l :
  StronglySorted (fun a b => key b <= key a) (sortDesc key l).
Proof.
  induction l as [|x l IH]; simpl; [constructor|]. by apply insertDesc_sorted.
Qed.

Lemma insertDesc_stable {A} (key : A -> Z) k x l :
  List.filter (fun y => key y =? k) (insertDesc key x l)
  = List.filter (fun y => key y =? k) (x :: l).
Proof.
  induction l as [|y l IH]; [done|]. cbn [insertDesc].
  destruct (key y <=? key x) eqn:E; [done|]. apply Z.leb_gt in E.
  cbn [List.filter] in *. rewrite IH.
  destruct (key y =? k) eqn:Ey; destruct (key x =? k) eqn:Ex; try done.
  apply Z.eqb_eq in Ey, Ex. lia.
Qed.

Lemma sortDesc_stable {A} (key : A -> Z) k l :
  List.filter (fun y => key y =? k) (sortDesc key l)
  = List.filter (fun y => key y =? k) l.
Proof.
  induction l as [|x l IH]; [done|]. cbn [sortDesc foldr].
  change (foldr (insertDesc key) [] l) with (sortDesc key l).
  rewrite insertDesc_stable. cbn [List.filter]. by rewrite IH.
Qed.

Lemma In_pendingOf userId type cs l :
  In l (pendingOf userId type cs) <->
  caseType l = type
  ∧ exists c, In (caseId l, c) cs
      ∧ citizen c = userId
      ∧ In (request l) (citizenRequests c)
      ∧ status (request l) = "pending"%string
      ∧ caseTitle l = title c
      ∧ caseCreatedAt l = createdAt c.
Proof.
  unfold pendingOf. rewrite in_flat_map. split.
  - intros ([k c] & Hkc & Hl). apply filter_In in Hkc as [Hkc Hown].
    apply andb_prop in Hown as [Hown _]. apply String.eqb_eq in Hown.
    apply in_map_iff in Hl as (r & <- & Hr). apply filter_In in Hr as [Hr Hp].
    apply String.eqb_eq in Hp. simpl in *. split; [done|]. by exists c.
  - intros (Ht & c & Hin & Hown & Hr & Hp & Htitle & Hcreated).
    exists (caseId l, c). split.
    + apply filter_In. split; [done|]. simpl. apply andb_true_intro. split.
      * by apply String.eqb_eq.
      * apply existsb_exists. exists (request l). split; [done|].
        by apply String.eqb_eq.
    + apply in_map_iff. exists (request l). simpl. split.
      * destruct l. simpl in *. by subst.
      * apply filter_In. split; [done|]. by apply String.eqb_eq.
Qed.

(** X23: the pending requests are listed once, newest first.  For a limit
    between 1 and [2 ^ 52] and fewer than [2 ^ 32] pending requests, in the
    range where the arithmetic of the paging is exact: the pages of
    [getPendingRequests] laid one after another hold exactly the pending
    requests on the cases of the calling citizen, of the kind asked for
    when a kind is given; they come newest first, requests of the same
    instant in the order of the collections (queries before disputes); and
    [total] is their number. *)
Theorem pending_requests_are_listed_newest_first userId limit only db :
  1 <= limit <= 2 ^ 52 ->
  Z.of_nat (length (pendingOf userId "query" (queries db))
            + length (pendingOf userId "dispute" (disputes db))) < 2 ^ 32 ->
  exists n : nat,
    let listing :=
      concat (map (fun p => from_option fst []
                              (getPendingRequests userId (Z.of_nat p + 1) limit only db))
                  (seq 0 n)) in
    (forall page, 0 <= page -> page * limit <= 2 ^ 53 ->
       snd <$> getPendingRequests userId page limit only db
       = Some {| current := page; pages := Some (Z.of_nat n);
                 total := Z.of_nat (length listing) |})
    ∧ (forall page, 1 <= page <= Z.of_nat n -> page * limit <= 2 ^ 53)
    ∧ StronglySorted
        (fun a b => requestedAt (request b) <= requestedAt (request a)) listing
    ∧ (forall t,
         List.filter (fun l => requestedAt (request l) =? t) listing
         = List.filter (fun l => requestedAt (request l) =? t)
             ((if negb (Js.truthy only) || bool_decide (only = Some "query"%string)
               then pendingOf userId "query" (queries db) else [])
              ++ (if negb (Js.truthy only) || bool_decide (only = Some "dispute"%string)
                  then pendingOf userId "dispute" (disputes db) else [])))
    ∧ (forall l,
         In l listing <->
         negb (Js.truthy only) || bool_decide (only = Some (caseType l)) = true
         ∧ (caseType l = "query"%string ∨ caseType l = "dispute"%string)
         ∧ exists c, In (caseId l, c) (collection (caseType l) db)
             ∧ citizen c = userId
             ∧ In (request l) (citizenRequests c)
             ∧ status (request l) = "pending"%string
             ∧ caseTitle l = title c
             ∧ caseCreatedAt l = createdAt c).
Proof.
  intros Hl Hcount. unfold getPendingRequests.
  set (fromQueries := if negb (Js.truthy only) || bool_decide (only = Some "query"%string)
                      then pendingOf userId "query" (queries db) else []).
  set (fromDisputes := if negb (Js.truthy only) || bool_decide (only = Some "dispute"%string)
                       then pendingOf userId "dispute" (disputes db) else []).
  set (requests := sortDesc (fun l => requestedAt (request l))
                            (fromQueries ++ fromDisputes)).
  assert (Hlen : Z.of_nat (length requests) < 2 ^ 32).
  { unfold requests. rewrite (Permutation_length (sortDesc_Permutation _ _)), length_app.
    eapply Z.le_lt_trans; [|exact Hcount]. apply inj_le.
    apply Nat.add_le_mono.
    - subst fromQueries.
      destruct (negb _ || bool_decide (only = Some "query"%string)); simpl; lia.
    - subst fromDisputes.
      destruct (negb _ || bool_decide (only = Some "dispute"%string)); simpl; lia. }
  exists (Z.to_nat (ceilDiv (Z.of_nat (length requests)) limit)).
  pose proof (ceilDiv_bounds (Z.of_nat (length requests)) limit ltac:(lia)) as Hc.
  cbv zeta. rewrite pages_concat by done.
  split; [|split; [|split; [|split]]].
  - intros page Hp Hpl. rewrite paginate_Some by (done || (powers; lia)). simpl.
    rewrite Z2Nat.id by nia. done.
  - intros page Hp. rewrite Z2Nat.id in Hp by nia.
    eapply (pages_in_range _ _ (ceilDiv (Z.of_nat (length requests)) limit));
      [exact Hl|exact Hlen|lia|lia].
  - apply sortDesc_sorted.
  - intros t. apply (sortDesc_stable (fun l => requestedAt (request l))).
  - intros l. split.
    + intros Hin. apply (Permutation_in _ (sortDesc_Permutation _ _)) in Hin.
      apply in_app_or in Hin as [Hin|Hin].
      * subst fromQueries. destruct (negb _ || bool_decide (only = Some "query"%string))
          eqn:E; [|done].
        apply In_pendingOf in Hin as (Ht & Hc'). rewrite Ht. split; [done|].
        split; [by left|]. done.
      * subst fromDisputes.
        destruct (negb _ || bool_decide (only = Some "dispute"%string)) eqn:E; [|done].
        apply In_pendingOf in Hin as (Ht & Hc'). rewrite Ht. split; [done|].
        split; [by right|]. done.
    + intros (Hsel & Ht & Hc').
      apply (Permutation_in _ (Permutation_sym (sortDesc_Permutation _ _))).
      apply in_or_app. destruct Ht as [Ht|Ht]; rewrite Ht in Hsel, Hc'.
      * left. subst fromQueries. rewrite Hsel. apply In_pendingOf. done.
      * right. subst fromDisputes. rewrite Hsel. apply In_pendingOf. done.
Qed.

Example pending_requests_are_listed_newest_first_witness :
  exists n : nat,
    pages <$> (snd <$> getPendingRequests Office.carol 1 10 None CaseScenario.db)
    = Some (Some (Z.of_nat n)).
Proof.
  destruct (pending_requests_are_listed_newest_first Office.carol 10 None CaseScenario.db)
    as (n & Hpages & _); [by vm_compute..|].
  exists n. by rewrite Hpages by (by vm_compute).
Defined.

End ListingFacts.


(** ** Splitting: the peer of a direct chat and the token of a socket *)
Section SplitFacts.
Import JsMore.

Lemma split_not_nil sep s : split sep s ≠ [].
Proof.
  destruct s as [|c s]; simpl; [done|].
  destruct (Ascii.eqb c sep); [done|]. by destruct (split sep s).
Qed.

Lemma split_length sep s : length (split sep s) = S (occurs sep s).
Proof.
  induction s as [|c s IH]; simpl; [done|].
  destruct (Ascii.eqb c sep); simpl; [by rewrite IH|].
  destruct (split sep s) eqn:E; simpl in *; [done|]. done.
Qed.

Lemma split_free sep s : occurs sep s = 0%nat -> split sep s = [s].
Proof.
  induction s as [|c s IH]; simpl; [done|].
  destruct (Ascii.eqb c sep); simpl; [done|]. intros H. by rewrite IH.
Qed.

Lemma split_app sep s1 s2 :
  occurs sep s1 = 0%nat ->
  split sep (s1 ++ String sep s2) = s1 :: split sep s2.
Proof.
  induction s1 as [|c s1 IH]; simpl.
  - by rewrite Ascii.eqb_refl.
  - destruct (Ascii.eqb c sep); simpl; [done|]. intros H. by rewrite IH.
Qed.

Lemma occurs_app c s1 s2 : occurs c (s1 ++ s2) = (occurs c s1 + occurs c s2)%nat.
Proof. induction s1 as [|c1 s1 IH]; simpl; [done|]. rewrite IH. lia. Qed.

Lemma split_directChatId x y :
  split "_" ("direct_" ++ x ++ "_" ++ y)
  = "direct"%string :: split "_" (x ++ String "_" y).
Proof.
  change ("direct_" ++ x ++ "_" ++ y)%string
    with (String "d" (String "i" (String "r" (String "e" (String "c" (String "t"
           (String "_" (x ++ String "_" y)))))))).
  simpl. by destruct (split "_" (x ++ String "_" y)) eqn:E.
Qed.

(** X24: the client finds its peer in the key of a direct chat.  For two
    user ids without an underscore, the key that the controller builds for
    them splits into three parts, and each of the two finds the other in
    it.  If one of the ids holds an underscore the key has more parts, and
    the client gives up without creating the chat, whoever asks. *)
Theorem peer_is_read_off_the_key a b :
  (occurs "_" a = 0%nat -> occurs "_" b = 0%nat ->
   Peer.otherUserId (Controller.directChatId a b) a = Some b
   ∧ Peer.otherUserId (Controller.directChatId a b) b = Some a)
  ∧ (occurs "_" a + occurs "_" b ≠ 0 ->
     forall me, Peer.otherUserId (Controller.directChatId a b) me = None)%nat.
Proof.
  assert (Hparts : forall x y,
    length (split "_" ("direct_" ++ x ++ "_" ++ y))
    = (3 + occurs "_" x + occurs "_" y)%nat).
  { intros x y. rewrite split_directChatId. cbn [length].
    rewrite split_length, occurs_app. simpl. lia. }
  assert (Hfree : forall x y me, occurs "_" x = 0%nat -> occurs "_" y = 0%nat ->
    Peer.otherUserId ("direct_" ++ x ++ "_" ++ y) me
    = Some (if String.eqb x me then y else x)).
  { intros x y me Hx Hy. unfold Peer.otherUserId.
    rewrite split_directChatId, split_app, split_free by done. done. }
  split.
  - intros Ha Hb. unfold Controller.directChatId, Js.sort2.
    destruct (String.compare b a) eqn:E.
    + apply String.compare_eq_iff in E. subst b.
      rewrite Hfree by done. by rewrite String.eqb_refl.
    + rewrite !Hfree by done. rewrite String.eqb_refl.
      destruct (String.eqb b a) eqn:E'; [|done].
      apply String.eqb_eq in E'. by subst b.
    + rewrite !Hfree by done. rewrite String.eqb_refl.
      destruct (String.eqb a b) eqn:E'; [|done].
      apply String.eqb_eq in E'. by subst b.
  - intros Hsome me. unfold Peer.otherUserId.
    assert (length (split "_" (Controller.directChatId a b)) ≠ 3%nat) as Hlen.
    { unfold Controller.directChatId, Js.sort2.
      destruct (String.compare b a); rewrite Hparts; lia. }
    apply Nat.eqb_neq in Hlen. by rewrite Hlen.
Qed.

Example peer_is_read_off_the_key_witness :
  Peer.otherUserId (Controller.directChatId "alice" "bob") "bob" = Some "alice"%string
  ∧ Peer.otherUserId (Controller.directChatId "a_1" "bob") "bob" = None.
Proof.
  split.
  - apply (proj1 (peer_is_read_off_the_key "alice" "bob")); reflexivity.
  - apply (proj2 (peer_is_read_off_the_key "a_1" "bob")). simpl. lia.
Defined.

(** X25: only a live user with a good token gets an identity.  The
    middleware puts an identity on the socket exactly when the handshake
    yields a non-empty token, the token verifies, and the user it names
    exists and is active; the identity is then the id, role and name of
    that user.  In every other case the connection is refused with one of
    three messages. *)
Theorem only_a_live_user_gets_an_identity
    (verifyAccessToken : string -> option string)
    (findById : string -> option Auth.Account) socketId h :
  (forall s,
     Auth.authenticate verifyAccessToken findById socketId h = inl s <->
     exists token uid account,
       Auth.tokenOf h = Some token ∧ token ≠ ""%string
       ∧ verifyAccessToken token = Some uid
       ∧ findById uid = Some account
       ∧ Auth.isActive account = true
       ∧ s = {| Gateway.id := socketId; Gateway.userId := Auth._id account;
                Gateway.userRole := Auth.role account;
                Gateway.userName := Auth.name account |})
  ∧ (forall e,
       Auth.authenticate verifyAccessToken findById socketId h = inr e ->
       In e ["Authentication token required"; "Authentication failed";
             "User not found or inactive"]%string).
Proof.
  unfold Auth.authenticate. destruct (Auth.tokenOf h) as [token|] eqn:Ht; simpl.
  - destruct (String.eqb token "") eqn:Hempty; simpl.
    + apply String.eqb_eq in Hempty. split.
      * intros s. split; [done|]. intros (? & ? & ? & [= <-] & ? & _). done.
      * intros e [= <-]. simpl. tauto.
    + apply String.eqb_neq in Hempty.
      destruct (verifyAccessToken token) as [uid|] eqn:Hv.
      * destruct (findById uid) as [account|] eqn:Hf.
        -- destruct (Auth.isActive account) eqn:Ha.
           ++ split.
              ** intros s. split.
                 --- intros [= <-]. by exists token, uid, account.
                 --- intros (? & ? & ? & [= <-] & _ & Hv' & Hf' & _ & ->).
                     rewrite Hv in Hv'. injection Hv' as <-.
                     rewrite Hf in Hf'. by injection Hf' as <-.
              ** done.
           ++ split.
              ** intros s. split; [done|].
                 intros (? & ? & ? & [= <-] & _ & Hv' & Hf' & Ha' & _).
                 rewrite Hv in Hv'. injection Hv' as <-.
                 rewrite Hf in Hf'. injection Hf' as <-. congruence.
              ** intros e [= <-]. simpl. tauto.
        -- split.
           ++ intros s. split; [done|].
              intros (? & ? & ? & [= <-] & _ & Hv' & Hf' & _).
              rewrite Hv in Hv'. injection Hv' as <-. congruence.
           ++ intros e [= <-]. simpl. tauto.
      * split.
        -- intros s. split; [done|].
           intros (? & ? & ? & [= <-] & _ & Hv' & _). congruence.
        -- intros e [= <-]. simpl. tauto.
  - split.
    + intros s. split; [done|]. by intros (? & ? & ? & ? & _).
    + intros e [= <-]. simpl. tauto.
Qed.

(** X26: where the token comes from.  A non-empty [auth.token] of the
    handshake is the token, whatever the headers say.  Without it, an
    [Authorization] header of two words gives its second word, and a
    header of one word, such as a bare token, gives none: the connection
    is refused for want of a token before anything is verified. *)
Theorem token_comes_from_auth_or_header h :
  (Js.truthy (Auth.authToken h) = true -> Auth.tokenOf h = Auth.authToken h)
  ∧ (Js.truthy (Auth.authToken h) = false ->
     forall scheme token,
       occurs " " scheme = 0%nat -> occurs " " token = 0%nat ->
       Auth.authorization h = Some (scheme ++ " " ++ token)%string ->
       Auth.tokenOf h = Some token)
  ∧ (Js.truthy (Auth.authToken h) = false ->
     forall header,
       occurs " " header = 0%nat ->
       Auth.authorization h = Some header ->
       forall verifyAccessToken findById socketId,
         Auth.authenticate verifyAccessToken findById socketId h
         = inr "Authentication token required"%string).
Proof.
  unfold Auth.authenticate, Auth.tokenOf. split; [|split].
  - by intros ->.
  - intros -> scheme token Hs Ht ->. simpl.
    change (scheme ++ " " ++ token)%string with (scheme ++ String " " token)%string.
    by rewrite split_app, split_free.
  - intros -> header Hh -> verify find sid.
    by rewrite split_free.
Qed.

Example token_comes_from_auth_or_header_witness :
  Auth.tokenOf {| Auth.authToken := None; Auth.authorization := Some "Bearer abc"%string |}
  = Some "abc"%string.
Proof.
  apply (proj1 (proj2 (token_comes_from_auth_or_header
                         {| Auth.authToken := None;
                            Auth.authorization := Some "Bearer abc"%string |}))
           eq_refl "Bearer"%string "abc"%string); reflexivity.
Defined.

End SplitFacts.


(** ** The chat page and the gateway together *)
Section ClientMore.
Import Model Helpers Gateway.

Variable maxMessages : nat.
Variable windowMs : Z.
Variable createChatRoom :
  list Participant -> string -> option (string * string) -> Db -> option (Chat * Db).

Local Abbreviation step := (Gateway.step maxMessages windowMs createChatRoom).

Lemma trimStart_idem s : Js.trimStart (Js.trimStart s) = Js.trimStart s.
Proof.
  induction s as [|c s IH]; simpl; [done|].
  destruct (Js.isWhiteSpace c) eqn:E; [done|]. simpl. by rewrite E.
Qed.

Lemma trimStart_snoc s c :
  Js.isWhiteSpace c = false -> Js.trimStart (s ++ [c]) = Js.trimStart s ++ [c].
Proof.
  intros Hc. induction s as [|d s IH]; simpl; [by rewrite Hc|].
  destruct (Js.isWhiteSpace d); done.
Qed.

Lemma trimEnd_cons c s :
  Js.isWhiteSpace c = false -> Js.trimEnd (c :: s) = c :: Js.trimEnd s.
Proof.
  intros Hc. unfold Js.trimEnd. simpl. rewrite trimStart_snoc by done.
  by rewrite rev_app_distr.
Qed.

Lemma trimEnd_idem s : Js.trimEnd (Js.trimEnd s) = Js.trimEnd s.
Proof. unfold Js.trimEnd. by rewrite rev_involutive, trimStart_idem. Qed.

Lemma trimStart_trimEnd_trimStart s :
  Js.trimStart (Js.trimEnd (Js.trimStart s)) = Js.trimEnd (Js.trimStart s).
Proof.
  induction s as [|c s IH]; simpl; [done|].
  destruct (Js.isWhiteSpace c) eqn:E; [done|].
  rewrite trimEnd_cons by done. simpl. by rewrite E.
Qed.

Lemma trim_idem s : Js.trim (Js.trim s) = Js.trim s.
Proof.
  unfold Js.trim. by rewrite trimStart_trimEnd_trimStart, trimEnd_idem.
Qed.

(** What [sendMessage] does when it sends. *)
Lemma sendMessage_sends clock page page1 md :
  Client.sendMessage clock page = (page1, Some md) ->
  Js.trim (Client.newMessage page) ≠ []
  ∧ Client.isSending page = false ∧ Client.connected page = true
  ∧ md = {| md_chatId := Client.chatId page;
            md_content := Some (Js.trim (Client.newMessage page));
            md_messageType := None;
            md_tempId := Some (Js.numberToString clock) |}
  ∧ page1 = {| Client.chatId := Client.chatId page; Client.user := Client.user page;
               Client.connected := Client.connected page;
               Client.messages :=
                 Client.messages page ++
                 [ {| _id := None; tempId := Some (Js.numberToString clock);
                      msg_chatId := Client.chatId page;
                      msg_content := Js.trim (Client.newMessage page);
                      msg_messageType := None; msg_sender := Client.user page;
                      msg_timestamp := Z.of_N clock; msg_isRead := None;
                      msg_status := Some sending |} ];
               Client.newMessage := []; Client.isSending := true |}.
Proof.
  unfold Client.sendMessage.
  destruct (length (Js.trim (Client.newMessage page)) =? 0)%nat eqn:E; simpl; [done|].
  destruct (Client.isSending page); simpl; [done|].
  destruct (Client.connected page); simpl; [|done].
  intros [= <- <-]. split; [|done].
  intros Hnil. by rewrite Hnil in E.
Qed.

Lemma on_new_message_fresh messageData page :
  msg_chatId messageData = Client.chatId page ->
  tempId messageData = None ->
  Forall (fun msg => _id msg ≠ _id messageData) (Client.messages page) ->
  Client.on_new_message messageData page
  = Client.setMessages (fun prev => prev ++ [Client.withStatus received messageData])
                       page.
Proof.
  intros Hchat Htemp Hfresh. unfold Client.on_new_message.
  rewrite Hchat, String.eqb_refl. unfold Client.setMessages. f_equal.
  assert (existsb (fun msg => bool_decide (_id msg = _id messageData)
                              || (Js.truthy (tempId msg)
                                  && bool_decide (tempId msg = tempId messageData)))
                  (Client.messages page) = false) as ->; [|done].
  induction Hfresh as [|msg l Hm _ IH]; simpl; [done|].
  rewrite (bool_decide_eq_false_2 _ Hm), IH, Htemp.
  destruct (tempId msg) as [x|]; simpl; [|done].
  by rewrite ?andb_false_r.
Qed.

(** X27: what the page sends is never refused as empty.  Whenever
    [sendMessage] emits a [send_message], the body is the trimmed draft, it
    is not empty and trimming it again changes nothing, so the gateway,
    whatever its state and for whichever socket, does not answer it with
    the error for an empty body; the trimmed draft is no longer than the
    draft. *)
Theorem the_page_never_sends_an_empty_body clock page page1 md env socket st :
  Client.sendMessage clock page = (page1, Some md) ->
  rawContent md = Js.trim (Client.newMessage page)
  ∧ Js.trim (rawContent md) = rawContent md
  ∧ rawContent md ≠ []
  ∧ (length (rawContent md) <= length (Client.newMessage page))%nat
  ∧ (forall t details,
       ~ In (t, EvError "Message content cannot be empty" details)
            (step env socket (SendMessage md) st).2).
Proof.
  intros Hsend.
  destruct (sendMessage_sends _ _ _ _ Hsend) as (Hne & _ & _ & -> & _).
  unfold rawContent. simpl. split; [done|]. split; [apply trim_idem|].
  split; [done|]. split.
  - unfold Js.trim, Js.trimEnd. rewrite length_rev.
    assert (Hle : forall s, (length (Js.trimStart s) <= length s)%nat).
    { intros s. induction s as [|c s IH]; simpl; [done|].
      destruct (Js.isWhiteSpace c); simpl; lia. }
    etransitivity; [apply Hle|]. rewrite length_rev. apply Hle.
  - intros t details.
    rewrite (send_message_run maxMessages windowMs createChatRoom). cbv zeta.
    unfold rawContent. simpl. rewrite trim_idem.
    destruct (length _ =? 0)%nat eqn:E.
    { apply Nat.eqb_eq in E. by destruct (Js.trim (Client.newMessage page)). }
    destruct (1000 <? _)%nat; [by intros [[=]|[]]|].
    destruct (negb _); [by intros [[=]|[]]|].
    destruct (negb _); [by intros [[=]|[]]|].
    destruct (saveMessageToDatabase _ _ _ _ _ _) as [[m db']|].
    + by intros [[=]|[[=]|[]]].
    + by intros [[=]|[]].
Qed.

(** X28: the sender sees its own message twice.  A page sends its draft;
    the gateway accepts it (the body is within the limit, the sender is
    within the rate and a member of the room, the store takes the write)
    while the sender's socket is in the room.  The broadcast and the
    confirmation reach the sender without the correlation id, so the page
    appends the broadcast as a message received and leaves its optimistic
    entry as it is: after the two events the page shows the body twice,
    once still [sending] and without a persistent id, once [received] under
    the id of the store, and it is no longer sending. *)
Theorem the_sender_sees_its_message_twice clock page page1 md env socket st :
  Client.sendMessage clock page = (page1, Some md) ->
  (length (rawContent md) <= 1000)%nat ->
  (checkMessageRateLimit maxMessages windowMs (now env) (userId socket)
                         (rateWindows st)).1 = true ->
  validateChatAccess (Client.chatId page) (userId socket) (db st) = true ->
  storeWriteOk env = true ->
  id socket ∈ members (Client.chatId page) (rooms st) ->
  Forall (fun msg => _id msg ≠ Some (nextId (db st))) (Client.messages page) ->
  let res := step env socket (SendMessage md) st in
  let page2 := receiveAll (delivered res.1 (id socket) res.2) page1 in
  exists own copy,
    Client.messages page2 = Client.messages page ++ [own; copy]
    ∧ tempId own = md_tempId md ∧ _id own = None ∧ msg_status own = Some sending
    ∧ tempId copy = None ∧ _id copy = Some (nextId (db st))
    ∧ msg_status copy = Some received
    ∧ msg_content own = rawContent md ∧ msg_content copy = rawContent md
    ∧ Client.isSending page2 = false.
Proof.
  intros Hsend Hlen Hrate Hacc Hw Hroom Hfresh res page2.
  destruct (sendMessage_sends _ _ _ _ Hsend) as (Hne & _ & _ & -> & ->).
  unfold rawContent in Hlen. simpl in Hlen.
  assert (Hfind : exists c, findOne (Client.chatId page) (chats (db st)) = Some c).
  { unfold validateChatAccess in Hacc. destruct (findOne _ _) as [c|]; [|done].
    by exists c. }
  destruct Hfind as [c Hc].
  subst page2 res.
  rewrite (send_message_run maxMessages windowMs createChatRoom). cbv zeta.
  unfold rawContent. cbn [md_chatId md_content md_messageType from_option Datatypes.id].
  rewrite trim_idem.
  destruct (length (Js.trim (Client.newMessage page)) =? 0)%nat eqn:E.
  { apply Nat.eqb_eq in E. by destruct (Js.trim (Client.newMessage page)). }
  rewrite (proj2 (Nat.ltb_ge _ _)) by lia.
  rewrite Hrate, Hacc. cbn [negb].
  unfold saveMessageToDatabase. rewrite Hw, Hc.
  cbn [fst snd]. unfold delivered. cbn [List.filter fst snd recipients].
  rewrite (bool_decide_eq_true_2 (id socket ∈ members _ _)) by done.
  rewrite (bool_decide_eq_true_2 (id socket ∈ {[id socket]}))
    by (by apply elem_of_singleton).
  cbn [map snd]. unfold receiveAll. cbn [foldl receive].
  unfold Client.on_message_sent. cbn [ms_tempId Js.truthy].
  rewrite on_new_message_fresh; [|done|done|].
  - cbn [Client.setMessages Client.setIsSending Client.messages Client.isSending].
    eexists _, _. rewrite <- app_assoc. cbn [app]. split; [reflexivity|]. done.
  - cbn [Client.messages _id]. apply Forall_app. split; [done|].
    constructor; [done|constructor].
Qed.

(** X29: a failed send is rolled back.  A page sends its draft and the
    gateway refuses it (body over the limit, sender over the rate or not a
    member of the room, or the store rejecting the write): the one error
    reaches the sender and no other socket, and the page that receives it
    drops the optimistic entry again, together with every other entry
    still [sending], and stops sending; the draft is not restored. *)
Theorem a_failed_send_is_rolled_back clock page page1 md env socket st :
  Client.sendMessage clock page = (page1, Some md) ->
  (1000 < length (rawContent md))%nat
  ∨ (checkMessageRateLimit maxMessages windowMs (now env) (userId socket)
                           (rateWindows st)).1 = false
  ∨ validateChatAccess (md_chatId md) (userId socket) (db st) = false
  ∨ storeWriteOk env = false ->
  let res := step env socket (SendMessage md) st in
  receiveAll (delivered res.1 (id socket) res.2) page1
  = {| Client.chatId := Client.chatId page; Client.user := Client.user page;
       Client.connected := Client.connected page;
       Client.messages :=
         List.filter (fun msg => negb (bool_decide (msg_status msg = Some sending)))
                     (Client.messages page);
       Client.newMessage := []; Client.isSending := false |}
  ∧ (forall sid, sid ≠ id socket -> delivered res.1 sid res.2 = []).
Proof.
  intros Hsend Hfail res.
  assert (Hout : exists st' reason details,
            res = (st', [(ToSocket (id socket), EvError reason details)])).
  { subst res. rewrite (send_message_run maxMessages windowMs createChatRoom).
    cbv zeta.
    destruct (length _ =? 0)%nat; [by eexists _, _, _|].
    destruct (1000 <? _)%nat eqn:E1; [by eexists _, _, _|].
    destruct (checkMessageRateLimit _ _ _ _ _).1 eqn:E2; simpl;
      [|by eexists _, _, _].
    destruct (validateChatAccess _ _ _) eqn:E3; simpl; [|by eexists _, _, _].
    unfold saveMessageToDatabase.
    destruct (storeWriteOk env) eqn:E4; [|by eexists _, _, _].
    apply Nat.ltb_ge in E1.
    destruct Hfail as [H|[H|[H|H]]]; [lia|done|done|done]. }
  destruct Hout as (st' & reason & details & ->).
  destruct (sendMessage_sends _ _ _ _ Hsend) as (_ & _ & _ & _ & ->).
  cbn [fst snd]. unfold delivered. cbn [List.filter fst snd recipients]. split.
  - rewrite bool_decide_eq_true_2 by (by apply elem_of_singleton).
    cbn [map snd]. unfold receiveAll. cbn [foldl receive].
    unfold Client.on_error, Client.setMessages, Client.setIsSending.
    cbn [Client.chatId Client.messages Client.user Client.connected Client.newMessage
         Client.isSending].
    rewrite List.filter_app. cbn [List.filter msg_status].
    rewrite bool_decide_eq_true_2 by done. cbn [negb]. by rewrite app_nil_r.
  - intros sid Hsid. rewrite bool_decide_eq_false_2; [done|].
    intros Hin. apply elem_of_singleton in Hin. done.
Qed.

(** X30: a message delivered again overwrites the untagged entries.  The
    page recognises a [new_message] by its [_id] but replaces entries by
    their [tempId]; a broadcast of the gateway has none.  So when such a
    message arrives for the chat of the page and an entry with its [_id] is
    already shown, nothing is appended, every entry without a correlation
    id (the fetched history, the messages received before) becomes a copy
    of the arriving message marked [sent], and the entries with a
    correlation id stay as they are. *)
Theorem a_redelivered_message_overwrites_the_untagged messageData page :
  msg_chatId messageData = Client.chatId page ->
  tempId messageData = None ->
  (exists msg, In msg (Client.messages page) ∧ _id msg = _id messageData) ->
  let page' := Client.on_new_message messageData page in
  Client.messages page'
  = map (fun msg => if bool_decide (tempId msg = None)
                    then Client.withStatus sent messageData else msg)
        (Client.messages page)
  ∧ length (Client.messages page') = length (Client.messages page)
  ∧ (forall msg, In msg (Client.messages page') -> tempId msg = None ->
                 msg = Client.withStatus sent messageData)
  ∧ (forall msg, tempId msg ≠ None ->
                 In msg (Client.messages page') <-> In msg (Client.messages page)).
Proof.
  intros Hchat Htemp (msg0 & Hin0 & Hid0) page'.
  assert (Hmessages : Client.messages page'
    = map (fun msg => if bool_decide (tempId msg = None)
                      then Client.withStatus sent messageData else msg)
          (Client.messages page)).
  { subst page'. unfold Client.on_new_message.
    rewrite Hchat, String.eqb_refl. cbn [Client.messages Client.setMessages].
    assert (existsb (fun msg => bool_decide (_id msg = _id messageData)
                                || (Js.truthy (tempId msg)
                                    && bool_decide (tempId msg = tempId messageData)))
                    (Client.messages page) = true) as ->.
    { apply existsb_exists. exists msg0. split; [done|].
      by rewrite (bool_decide_eq_true_2 _ Hid0). }
    apply map_ext. intros msg. repeat case_bool_decide; try done; congruence. }
  rewrite Hmessages. split; [done|]. split; [by rewrite length_map|]. split.
  - intros msg Hin Hnone. apply in_map_iff in Hin as (msg1 & <- & _).
    case_bool_decide as Ht; [done|]. done.
  - intros msg Hsome. rewrite in_map_iff. split.
    + intros (msg1 & <- & Hin). case_bool_decide as Ht; [|done].
      destruct Hsome. by rewrite <- Htemp.
    + intros Hin. exists msg. split; [|done].
      by rewrite bool_decide_eq_false_2.
Qed.

End ClientMore.


(** ** The chat page and the gateway: runs *)
Section PageRuns.
Import Model Helpers Gateway Scenario.

Example the_page_never_sends_an_empty_body_witness :
  exists md, (Client.sendMessage 42 PageScenario.page).2 = Some md
             ∧ rawContent md = Js.ofString "See you at ten"
             ∧ rawContent md ≠ [].
Proof.
  eexists. split; [reflexivity|].
  destruct (the_page_never_sends_an_empty_body limit window noRoomService 42
              PageScenario.page _ _ (at_ 7000) bob start eq_refl)
    as (Hbody & _ & Hne & _).
  split; [|exact Hne]. rewrite Hbody. by vm_compute.
Defined.

Example the_sender_sees_its_message_twice_witness :
  let sending := Client.sendMessage 42 PageScenario.page in
  let res := gateway (at_ 7000) bob (SendMessage (say "See you at ten" "42")) start in
  exists own copy,
    Client.messages (receiveAll (delivered res.1 "socket-b" res.2) sending.1)
    = [PageScenario.fetched; own; copy].
Proof.
  destruct (the_sender_sees_its_message_twice limit window noRoomService 42
              PageScenario.page _ _ (at_ 7000) bob start eq_refl)
    as (own & copy & Hmessages & _).
  - vm_compute. lia.
  - reflexivity.
  - by vm_compute.
  - reflexivity.
  - refine (bool_decide_unpack _ _). by vm_compute.
  - constructor; [done|constructor].
  - exists own, copy. exact Hmessages.
Defined.

Example a_failed_send_is_rolled_back_witness :
  let sending := Client.sendMessage 42 PageScenario.page in
  let res := gateway (storeDownAt 7000) bob (SendMessage (say "See you at ten" "42"))
                     start in
  Client.messages (receiveAll (delivered res.1 "socket-b" res.2) sending.1)
  = [PageScenario.fetched]
  ∧ delivered res.1 "socket-a" res.2 = [].
Proof.
  destruct (a_failed_send_is_rolled_back limit window noRoomService 42
              PageScenario.page _ _ (storeDownAt 7000) bob start eq_refl)
    as (Hpage & Hothers).
  - right. right. right. reflexivity.
  - split.
    + etransitivity; [exact (f_equal Client.messages Hpage)|]. reflexivity.
    + by apply Hothers.
Defined.

Example a_redelivered_message_overwrites_the_untagged_witness :
  let again :=
    {| _id := Some 0%N; tempId := None; msg_chatId := "direct_alice_bob";
       msg_content := Js.ofString "Good morning, again";
       msg_messageType := Some "text"%string;
       msg_sender := {| s_id := "bob"; s_name := "Bob"; s_role := "lawyer" |};
       msg_timestamp := 1000; msg_isRead := Some false; msg_status := None |} in
  Client.messages (Client.on_new_message again PageScenario.page)
  = [Client.withStatus sent again].
Proof.
  intros again.
  destruct (a_redelivered_message_overwrites_the_untagged again PageScenario.page)
    as (Hmessages & _).
  - reflexivity.
  - reflexivity.
  - exists PageScenario.fetched. split; [by left|reflexivity].
  - rewrite Hmessages. reflexivity.
Defined.

End PageRuns.


(** ** The gateway: more runs *)
Section GatewayRuns.
Import Model Helpers Gateway Scenario.

Lemma not_member_anywhere sid (m : gmap string (gset string)) :
  bool_decide (map_Forall (fun _ (s : gset string) => sid ∉ s) m) = true ->
  forall r, sid ∉ members r m.
Proof.
  intros H r. apply bool_decide_eq_true_1 in H. unfold members.
  destruct (m !! r) as [s|] eqn:E; simpl; [by eapply H|set_solver].
Qed.

Example errors_go_to_the_caller_only_witness :
  In (ToSocket "socket-c", EvError "Access denied to chat room" None)
     (gateway (at_ 7000) carol (JoinChat "direct_alice_bob") start).2
  ∧ ToSocket "socket-c" = ToSocket (id carol).
Proof.
  assert (H : In (ToSocket "socket-c", EvError "Access denied to chat room" None)
                 (gateway (at_ 7000) carol (JoinChat "direct_alice_bob") start).2)
    by (vm_compute; by left).
  split; [exact H|].
  exact (errors_go_to_the_caller_only limit window noRoomService (at_ 7000) carol
           (JoinChat "direct_alice_bob") start _ _ _ H).
Defined.

Example registry_has_no_empty_entry_witness :
  let gone := (gateway (at_ 7001) alice Disconnect start).1 in
  let resumed :=
    (Gateway.run (join_chat_resume (at_ 7002) alice false "direct_alice_bob" true)
       gone).1 in
  activeChatRooms gone !! "direct_alice_bob" = Some ({[ id bob ]} : gset string)
  ∧ activeChatRooms resumed !! "direct_alice_bob" ≠ Some ∅.
Proof.
  intros gone resumed.
  assert (Hgone : activeChatRooms gone !! "direct_alice_bob"
                  = Some ({[ id bob ]} : gset string))
    by (refine (bool_decide_unpack _ _); by vm_compute).
  split; [exact Hgone|]. intros Hempty.
  destruct (registry_has_no_empty_entry limit window noRoomService (at_ 7002) alice gone)
    as [_ Hresume].
  - intros c s Hc.
    destruct (uninterrupted_step_keeps_registryInv limit window noRoomService (at_ 7001)
                alice Disconnect start start_registryInv) as [Hinv _].
    + right. apply elem_of_dom. vm_compute. eauto.
    + by destruct (Hinv c s Hc).
  - by apply (Hresume false "direct_alice_bob"%string true _ _ Hempty).
Defined.

Example connect_then_disconnect_leaves_no_trace_witness :
  let dan := {| id := "socket-d"; userId := "dan"; userRole := "lawyer";
                userName := "Dan" |} in
  activeUsers (gateway (at_ 7001) dan Disconnect
                 (gateway (at_ 7000) dan Connection start).1).1
  = activeUsers start.
Proof.
  intros dan.
  destruct (connect_then_disconnect_leaves_no_trace limit window noRoomService
              (at_ 7000) (at_ 7001) dan start) as (_ & _ & _ & Husers & _).
  - by vm_compute.
  - apply not_member_anywhere. by vm_compute.
  - apply not_member_anywhere. by vm_compute.
  - exact Husers.
Defined.

Example relay_reaches_the_connected_user_witness :
  "socket-b" ∈ recipients
    (gateway (at_ 7001) alice (ConsultationRequest "bob")
       (gateway (at_ 7000) bob Connection start).1).1
    (SocketTo "socket-a" "user_bob").
Proof.
  destruct (relay_reaches_the_connected_user limit window noRoomService
              (at_ 7000) (at_ 7001) alice bob (ConsultationRequest "bob") start)
    as (_ & _ & Hreach).
  - by left.
  - destruct (Hreach (SocketTo "socket-a" "user_bob",
                      EvNotify "new_consultation_request" None)) as [Htarget _].
    + by left.
    + apply Htarget. refine (bool_decide_unpack _ _). by vm_compute.
Defined.

Example request_notification_reaches_the_lawyer_witness :
  let st1 := (gateway (at_ 7000) Office.bobSocket Connection Office.idle).1 in
  let send := Controller.sendDirectMessageRequest Mongo.castObjectId (at_ 7001)
                Office.carol in
  (exists te, (send Office.bob None (db st1)).2 = [te]
              ∧ id Office.bobSocket ∈ recipients
                  (setDb (send Office.bob None (db st1)).1.1 st1) te.1)
  ∧ (exists te, (send Office.bobInCapitals None (db st1)).2 = [te]
                ∧ id Office.bobSocket ∉ recipients
                    (setDb (send Office.bobInCapitals None (db st1)).1.1 st1) te.1).
Proof.
  intros st1 send. split.
  - destruct (request_notification_reaches_the_lawyer limit window noRoomService
                Mongo.castObjectId (at_ 7000) (at_ 7001) Office.bobSocket Office.carol
                Office.bob None Office.idle) as (te & Hout & _ & _ & Hreach).
    + by vm_compute.
    + exists te. split; [exact Hout|]. by apply Hreach.
  - destruct (request_notification_reaches_the_lawyer limit window noRoomService
                Mongo.castObjectId (at_ 7000) (at_ 7001) Office.bobSocket Office.carol
                Office.bobInCapitals None Office.idle) as (te & Hout & _ & Hiff & _).
    + by vm_compute.
    + exists te. split; [exact Hout|]. intros Hin. apply Hiff in Hin. revert Hin.
      refine (bool_decide_unpack _ _). by vm_compute.
Defined.

End GatewayRuns.
